(** * DDR bring-up of the Agilex 5 SoC FPGA: a shallow embedding

    Source: [drivers/ddr/altera/sdram_agilex5.c].

    The driver is embedded as functions over an explicit [world]: the
    memory-mapped registers, the console output, the global data and the
    driver's platform and private data.  A computation either returns to its
    caller or ends in [hang()].  Calls into code outside the driver (the IOSSM
    mailbox, the device-tree decoder, the firewall, the handoff reader) are
    answered by an explicit [Collaborators] record and recorded on the
    console trace. *)

From Stdlib Require Import ZArith String List Lia Bool DecimalString.
From stdpp Require Import base option list gmap strings.

Local Open Scope string_scope.
Local Open Scope list_scope.
Local Open Scope Z_scope.

(** ** Machine integers and the register-access macros *)

Module Bits.

Definition wrap32 (x : Z) : Z := x mod 2 ^ 32.
Definition wrap64 (x : Z) : Z := x mod 2 ^ 64.

(** Modelled from the spec: the macro BIT of linux/bitops.h is not part of
    the sources at hand.  Section 6 fixes "dual-port bit 0, dual-EMIF bit 1":
    BIT(n) is the word with bit n set. *)
Definition BIT (n : Z) : Z := Z.shiftl 1 n.

(** Modelled from the spec: the macro GENMASK of linux/bits.h is not part of
    the sources at hand.  Section 6 fixes "PLL-enable mask bits 16-19 of a
    fixed 32-bit word": GENMASK(h, l) is the unsigned long with bits l..h
    set, ((~0UL) << l) & (~0UL >> (64 - 1 - h)). *)
Definition GENMASK (h l : Z) : Z :=
  Z.land (wrap64 (Z.shiftl (Z.ones 64) l)) (Z.shiftr (Z.ones 64) (64 - 1 - h)).

(** Modelled from the spec: the shift of a field mask (linux/bitfield.h, not
    part of the sources at hand) is the position of its lowest set bit. *)
Definition bf_shf (mask : Z) : Z := Z.log2 (Z.land mask (- mask)).

(** Modelled from the spec: the macro FIELD_GET of linux/bitfield.h is not
    part of the sources at hand.  Section 4.2, "extracts port/EMIF/PLL
    bitfields at fixed offsets": the masked value, shifted down to the lowest
    set bit of the mask. *)
Definition FIELD_GET (mask reg : Z) : Z :=
  Z.shiftr (Z.land reg mask) (bf_shf mask).

(** Modelled from the spec: the constants of linux/sizes.h are not part of
    the sources at hand.  Section 4.5, "size in gigabits x 1/8 scaling". *)
Definition SZ_1G : Z := 0x40000000.
Definition SZ_8 : Z := 0x8.

End Bits.
Import Bits.

(** ** Configuration taken from headers and Kconfig

    The register offsets, the scratch-register bit masks, the length of the
    handoff table and the number of DRAM banks come from headers and from the
    board configuration; the driver is parametric in them. *)
Class Platform := {
  socfpga_get_sysmgr_addr : Z;
  SYSMGR_SOC64_BOOT_SCRATCH_POR0 : Z;
  SYSMGR_SOC64_BOOT_SCRATCH_COLD3 : Z;
  SYSMGR_SOC64_MPFE_CONFIG : Z;
  SOCFPGA_F2SDRAM_MGR_ADDRESS : Z;
  ALT_SYSMGR_SCRATCH_REG_3_DDR_RESET_TYPE_MASK : Z;
  ALT_SYSMGR_SCRATCH_REG_3_DDR_RESET_TYPE_SHIFT : Z;
  ALT_SYSMGR_SCRATCH_REG_3_OCRAM_DBE_MASK : Z;
  ALT_SYSMGR_SCRATCH_REG_3_DDR_DBE_MASK : Z;
  ALT_SYSMGR_SCRATCH_REG_POR_0_DDR_PROGRESS_MASK : Z;
  SOC64_HANDOFF_SDRAM : Z;
  SOC64_HANDOFF_SDRAM_LEN : Z;
  CONFIG_NR_DRAM_BANKS : nat;
  ENXIO : Z
}.

(** ** Driver data *)

(** [struct io96b_instance] and [struct io96b_info] of iossm_mailbox.h, with
    the fields the driver reads or writes. *)
Record io96b_instance := mk_io96b_instance {
  io96b_csr_addr : Z;
  cal_status : bool
}.

Record io96b_info := mk_io96b_info {
  num_instance : nat;
  num_port : Z;
  io96b_pll : Z;
  ckgen_lock : bool;
  overall_cal_status : bool;
  ecc_status : bool;
  overall_size : Z;
  ddr_type : string;
  io96b : list io96b_instance
}.

Definition set_num_instance (n : nat) (c : io96b_info) : io96b_info :=
  mk_io96b_info n (num_port c) (io96b_pll c) (ckgen_lock c)
    (overall_cal_status c) (ecc_status c) (overall_size c) (ddr_type c) (io96b c).

Definition set_num_port (n : Z) (c : io96b_info) : io96b_info :=
  mk_io96b_info (num_instance c) n (io96b_pll c) (ckgen_lock c)
    (overall_cal_status c) (ecc_status c) (overall_size c) (ddr_type c) (io96b c).

Definition set_io96b_pll (p : Z) (c : io96b_info) : io96b_info :=
  mk_io96b_info (num_instance c) (num_port c) p (ckgen_lock c)
    (overall_cal_status c) (ecc_status c) (overall_size c) (ddr_type c) (io96b c).

Definition set_ckgen_lock (b : bool) (c : io96b_info) : io96b_info :=
  mk_io96b_info (num_instance c) (num_port c) (io96b_pll c) b
    (overall_cal_status c) (ecc_status c) (overall_size c) (ddr_type c) (io96b c).

Definition set_overall_cal_status (b : bool) (c : io96b_info) : io96b_info :=
  mk_io96b_info (num_instance c) (num_port c) (io96b_pll c) (ckgen_lock c)
    b (ecc_status c) (overall_size c) (ddr_type c) (io96b c).

Definition set_io96b (l : list io96b_instance) (c : io96b_info) : io96b_info :=
  mk_io96b_info (num_instance c) (num_port c) (io96b_pll c) (ckgen_lock c)
    (overall_cal_status c) (ecc_status c) (overall_size c) (ddr_type c) l.

(** One entry of [bd.bi_dram]; [struct bd_info] is used for this array only. *)
Record dram_bank := mk_dram_bank {
  bank_start : Z;
  bank_size : Z
}.

Abbreviation bd_info := (list dram_bank).

(** ** Console trace *)

Inductive call_arg :=
| ArgNone
| ArgCtrl (ctrl : io96b_info)
| ArgBd (bd : bd_info)
| ArgName (name : string).

Inductive event :=
| Printf (fmt : string) (args : list Z)
| Debug (fmt : string) (args : list Z)
| Call (fn : string) (arg : call_arg).

(** ** The world the driver runs in *)

Record world := mk_world {
  mmio : gmap Z Z;
  console : list event;
  gd_ram_size : Z;
  plat_dualport : bool;
  plat_dualemif : bool;
  plat_mpfe_base_addr : Z;
  priv_info_base : Z;
  priv_info_size : Z
}.

Definition set_mmio (m : gmap Z Z) (w : world) : world :=
  mk_world m (console w) (gd_ram_size w) (plat_dualport w) (plat_dualemif w)
    (plat_mpfe_base_addr w) (priv_info_base w) (priv_info_size w).

Definition set_console (l : list event) (w : world) : world :=
  mk_world (mmio w) l (gd_ram_size w) (plat_dualport w) (plat_dualemif w)
    (plat_mpfe_base_addr w) (priv_info_base w) (priv_info_size w).

Definition set_gd_ram_size (n : Z) (w : world) : world :=
  mk_world (mmio w) (console w) n (plat_dualport w) (plat_dualemif w)
    (plat_mpfe_base_addr w) (priv_info_base w) (priv_info_size w).

Definition set_plat_dualport (b : bool) (w : world) : world :=
  mk_world (mmio w) (console w) (gd_ram_size w) b (plat_dualemif w)
    (plat_mpfe_base_addr w) (priv_info_base w) (priv_info_size w).

Definition set_plat_dualemif (b : bool) (w : world) : world :=
  mk_world (mmio w) (console w) (gd_ram_size w) (plat_dualport w) b
    (plat_mpfe_base_addr w) (priv_info_base w) (priv_info_size w).

Definition set_priv_info (base size : Z) (w : world) : world :=
  mk_world (mmio w) (console w) (gd_ram_size w) (plat_dualport w)
    (plat_dualemif w) (plat_mpfe_base_addr w) base size.

(** ** Computations: return to the caller, or hang() *)

Inductive outcome (A : Type) :=
| Ret (a : A) (w : world)
| Hang (w : world).
Arguments Ret {A} a w.
Arguments Hang {A} w.

Definition M (A : Type) := world -> outcome A.

Definition pure {A} (a : A) : M A := fun w => Ret a w.

Definition gets {A} (f : world -> A) : M A := fun w => Ret (f w) w.

Definition modify (f : world -> world) : M unit := fun w => Ret tt (f w).

Definition bind {A B} (m : M A) (k : A -> M B) : M B :=
  fun w => match m w with
           | Ret a w' => k a w'
           | Hang w' => Hang w'
           end.

Definition hang {A} : M A := fun w => Hang w.

Notation "x <- m ;; k" := (bind m (fun x => k))
  (at level 100, m at next level, right associativity).
Notation "m ;;; k" := (bind m (fun _ => k))
  (at level 100, right associativity).

Definition final_world {A} (o : outcome A) : world :=
  match o with Ret _ w => w | Hang w => w end.

(** What a computation started in [w] has put on the console. *)
Definition trace_since {A} (w : world) (o : outcome A) : list event :=
  drop (length (console w)) (console (final_world o)).

Definition emit (e : event) : M unit :=
  fun w => Ret tt (set_console (console w ++ [e]) w).

Definition printf (fmt : string) (args : list Z) : M unit := emit (Printf fmt args).
Definition puts (s : string) : M unit := emit (Printf s []).
Definition debug (fmt : string) (args : list Z) : M unit := emit (Debug fmt args).

(** A call into code outside the driver: recorded on the trace; [None] is a
    callee that does not return.  What the callee does to the hardware is its
    own business and is not part of the model: the registers of a world are
    followed through the driver's own reads and writes only. *)
Definition call {A} (fn : string) (arg : call_arg) (r : option A) : M A :=
  emit (Call fn arg) ;;;
  match r with
  | Some a => pure a
  | None => hang
  end.

(** What a 32-bit read of the register at [addr] gives. *)
Definition peek (addr : Z) (w : world) : Z :=
  wrap32 (default 0 (mmio w !! addr)).

(** Modelled from the spec: the accessor readl of asm/io.h is not part of the
    sources at hand.  Section 6, "read_scratch_register(id) -> u32:
    infallible register access". *)
Definition readl (addr : Z) : M Z :=
  fun w => Ret (peek addr w) w.

(** Modelled from the spec: the accessor writel of asm/io.h is not part of
    the sources at hand.  Section 4.7, "register writes are assumed to always
    complete"; a register holds 32 bits. *)
Definition writel (val addr : Z) : M unit :=
  fun w => Ret tt (set_mmio (<[addr := wrap32 val]> (mmio w)) w).

(** Modelled from the spec: the accessor setbits_le32 of asm/io.h is not part
    of the sources at hand.  Section 6, "write_scratch_bits(id, mask, value)":
    read, OR the mask in, write back. *)
Definition setbits_le32 (addr set : Z) : M unit :=
  v <- readl addr ;; writel (Z.lor v set) addr.

(** Modelled from the spec: the accessor clrbits_le32 of asm/io.h is not part
    of the sources at hand.  Section 6, "write_scratch_bits(id, mask, value)":
    read, take the mask out, write back. *)
Definition clrbits_le32 (addr clear : Z) : M unit :=
  v <- readl addr ;; writel (Z.land v (Z.lnot clear)) addr.

(** ** Calls answered from outside the driver *)

Class Collaborators := {
  (* the return value and the table as the call leaves it *)
  socfpga_handoff_read : Z -> Z -> option (Z * list Z);
  uclass_get_device_by_name : string -> option Z;
  init_mem_cal : io96b_info -> option io96b_info;
  io96b_mb_init : io96b_info -> option io96b_info;
  trig_mem_cal : io96b_info -> option (Z * io96b_info);
  get_mem_technology : io96b_info -> option (Z * io96b_info);
  get_mem_width_info : io96b_info -> option (Z * io96b_info);
  (* return value, gd->ram_size and bd as decoded from the device tree *)
  fdtdec_decode_ram_size : Z -> bd_info -> option (Z * Z * bd_info);
  ecc_enable_status : io96b_info -> option (Z * io96b_info);
  bist_mem_init_start : io96b_info -> option (Z * io96b_info);
  sdram_size_check : bd_info -> option unit;
  sdram_set_firewall : bd_info -> option unit
}.

(** ** The driver *)

(** [enum reset_type]: C enumerators are integer constants. *)
Definition POR_RESET : Z := 0.
Definition WARM_RESET : Z := 1.
Definition COLD_RESET : Z := 2.
Definition NCONFIG : Z := 3.
Definition JTAG_CONFIG : Z := 4.
Definition RSU_RECONFIG : Z := 5.

(** The six causes the enumeration names. *)
Inductive reset_type :=
| PowerOn | Warm | Cold | Reconfig | JtagConfig | RemoteUpdate.

Definition reset_type_value (c : reset_type) : Z :=
  match c with
  | PowerOn => POR_RESET
  | Warm => WARM_RESET
  | Cold => COLD_RESET
  | Reconfig => NCONFIG
  | JtagConfig => JTAG_CONFIG
  | RemoteUpdate => RSU_RECONFIG
  end.

Definition F2SDRAM_SIDEBAND_FLAGOUTSET0 : Z := 0x50.
Definition F2SDRAM_SIDEBAND_FLAGOUTSTATUS0 : Z := 0x58.
Definition PORT_EMIF_CONFIG_OFFSET : nat := 4.
Definition EMIF_PLL_MASK : Z := GENMASK 19 16.
Definition MEMORY_BANK_MAX_COUNT : nat := 3.

Definition io96b_csr_reg_addr : list Z := [0x18400000; 0x18800000].

Record dram_bank_info_s := mk_dram_bank_info {
  start : Z;
  max_size : Z
}.

Definition dram_bank_info : list dram_bank_info_s :=
  [ mk_dram_bank_info 0x80000000 0x80000000;
    mk_dram_bank_info 0x880000000 0x780000000;
    mk_dram_bank_info 0x8800000000 0x7800000000 ].

Section Driver.

Context {P : Platform} {C : Collaborators}.

Definition SIDEBANDMGR_FLAGOUTSET0_REG : Z :=
  SOCFPGA_F2SDRAM_MGR_ADDRESS + F2SDRAM_SIDEBAND_FLAGOUTSET0.
Definition SIDEBANDMGR_FLAGOUTSTATUS0_REG : Z :=
  SOCFPGA_F2SDRAM_MGR_ADDRESS + F2SDRAM_SIDEBAND_FLAGOUTSTATUS0.

Definition get_reset_type (reg : Z) : Z :=
  Z.shiftr (Z.land reg ALT_SYSMGR_SCRATCH_REG_3_DDR_RESET_TYPE_MASK)
           ALT_SYSMGR_SCRATCH_REG_3_DDR_RESET_TYPE_SHIFT.

Definition set_mpfe_config : M Z :=
  setbits_le32 (socfpga_get_sysmgr_addr + SYSMGR_SOC64_MPFE_CONFIG) (BIT 2) ;;;
  setbits_le32 (socfpga_get_sysmgr_addr + SYSMGR_SOC64_MPFE_CONFIG) (BIT 8) ;;;
  v <- readl (socfpga_get_sysmgr_addr + SYSMGR_SOC64_MPFE_CONFIG) ;;
  debug "%s: mpfe_config: 0x%x" [v] ;;;
  pure 0.

Definition is_ddr_init_hang : M bool :=
  reg <- readl (socfpga_get_sysmgr_addr + SYSMGR_SOC64_BOOT_SCRATCH_POR0) ;;
  if negb (Z.land reg ALT_SYSMGR_SCRATCH_REG_POR_0_DDR_PROGRESS_MASK =? 0)
  then pure true
  else pure false.

Definition ddr_init_inprogress (start : bool) : M unit :=
  if start
  then setbits_le32 (socfpga_get_sysmgr_addr + SYSMGR_SOC64_BOOT_SCRATCH_POR0)
                    ALT_SYSMGR_SCRATCH_REG_POR_0_DDR_PROGRESS_MASK
  else clrbits_le32 (socfpga_get_sysmgr_addr + SYSMGR_SOC64_BOOT_SCRATCH_POR0)
                    ALT_SYSMGR_SCRATCH_REG_POR_0_DDR_PROGRESS_MASK.

(** [free] and [malloc] of the [io96b_info] block: the block is the value
    threaded through the driver; the calls are recorded. *)
Definition free : M unit := emit (Call "free" ArgNone).
Definition malloc : M unit := emit (Call "malloc" ArgNone).

Definition set_io96b_csr_addr (a : Z) (inst : io96b_instance) : io96b_instance :=
  mk_io96b_instance a (cal_status inst).

Definition set_cal_status (b : bool) (inst : io96b_instance) : io96b_instance :=
  mk_io96b_instance (io96b_csr_addr inst) b.

(** [for (i = i0; i < i0 + n; i++) body], with effects. *)
Fixpoint for_loop {S : Type} (n i : nat) (body : nat -> S -> M S) (s : S) : M S :=
  match n with
  | O => pure s
  | Datatypes.S n' => s' <- body i s ;; for_loop n' (Datatypes.S i) body s'
  end.

(** The same loop over a body without effects. *)
Fixpoint for_pure {S : Type} (n i : nat) (body : nat -> S -> S) (s : S) : S :=
  match n with
  | O => s
  | Datatypes.S n' => for_pure n' (Datatypes.S i) body (body i s)
  end.

(** Lines 143-145, the body of the loop of [populate_ddr_handoff]. *)
Definition assign_io96b_csr_addr (i : nat) (io96b_ctrl : io96b_info)
  : M io96b_info :=
  let a := default 0 (io96b_csr_reg_addr !! i) in
  let io96b_ctrl :=
    set_io96b (alter (set_io96b_csr_addr a) i (io96b io96b_ctrl)) io96b_ctrl in
  debug "%s: IO96B 0x%llx CSR enabled" [a] ;;;
  pure io96b_ctrl.

(** The table is a local array that [socfpga_handoff_read] fills; its
    return value is not looked at.  An entry is a u32. *)
Definition populate_ddr_handoff (io96b_ctrl : io96b_info) : M (Z * io96b_info) :=
  let len := SOC64_HANDOFF_SDRAM_LEN in
  r <- call "socfpga_handoff_read" ArgNone
         (socfpga_handoff_read SOC64_HANDOFF_SDRAM len) ;;
  let handoff_table := snd r in
  let word := wrap32 (default 0 (handoff_table !! PORT_EMIF_CONFIG_OFFSET)) in
  let dualport := negb (FIELD_GET (BIT 0) word =? 0) in
  modify (set_plat_dualport dualport) ;;;
  debug "%s: dualport from handoff: 0x%x" [Z.b2z dualport] ;;;
  let io96b_ctrl :=
    if dualport then set_num_port 2 io96b_ctrl else set_num_port 1 io96b_ctrl in
  let dualemif := negb (FIELD_GET (BIT 1) word =? 0) in
  modify (set_plat_dualemif dualemif) ;;;
  debug "%s: dualemif from handoff: 0x%x" [Z.b2z dualemif] ;;;
  let io96b_ctrl :=
    if dualemif then set_num_instance 2 io96b_ctrl
    else set_num_instance 1 io96b_ctrl in
  let io96b_ctrl := set_io96b_pll (FIELD_GET EMIF_PLL_MASK word) io96b_ctrl in
  debug "%s: io96b enabled pll from handoff: 0x%x" [io96b_pll io96b_ctrl] ;;;
  io96b_ctrl <-
    for_loop (num_instance io96b_ctrl) 0 assign_io96b_csr_addr io96b_ctrl ;;
  pure (0, io96b_ctrl).

Definition config_mpfe_sideband_mgr : M Z :=
  dualport <- gets plat_dualport ;;
  (if dualport
   then setbits_le32 SIDEBANDMGR_FLAGOUTSET0_REG (BIT 4)
   else pure tt) ;;;
  dualemif <- gets plat_dualemif ;;
  (if dualemif
   then (set_mpfe_config ;;;
         setbits_le32 SIDEBANDMGR_FLAGOUTSET0_REG (BIT 5))
   else pure tt) ;;;
  v <- readl SIDEBANDMGR_FLAGOUTSTATUS0_REG ;;
  debug "%s: SIDEBANDMGR_FLAGOUTSTATUS0: 0x%x" [v] ;;;
  pure 0.

Definition config_ccu_mgr : M unit :=
  dualport <- gets plat_dualport ;;
  dualemif <- gets plat_dualemif ;;
  ret <-
    (if dualport || dualemif
     then (debug "%s: config interleaving on ccu reg" [] ;;;
           call "uclass_get_device_by_name"
             (ArgName "socfpga-secreg-ccu-interleaving-on")
             (uclass_get_device_by_name "socfpga-secreg-ccu-interleaving-on"))
     else (debug "%s: config interleaving off ccu reg" [] ;;;
           call "uclass_get_device_by_name"
             (ArgName "socfpga-secreg-ccu-interleaving-off")
             (uclass_get_device_by_name "socfpga-secreg-ccu-interleaving-off"))) ;;
  if negb (ret =? 0)
  then (printf "interleaving on/off ccu settings init failed: %d" [ret] ;;; hang)
  else pure tt.

Definition hps_ocram_dbe_status : M bool :=
  reg <- readl (socfpga_get_sysmgr_addr + SYSMGR_SOC64_BOOT_SCRATCH_COLD3) ;;
  if negb (Z.land reg ALT_SYSMGR_SCRATCH_REG_3_OCRAM_DBE_MASK =? 0)
  then pure true
  else pure false.

Definition ddr_ecc_dbe_status : M bool :=
  reg <- readl (socfpga_get_sysmgr_addr + SYSMGR_SOC64_BOOT_SCRATCH_COLD3) ;;
  if negb (Z.land reg ALT_SYSMGR_SCRATCH_REG_3_DDR_DBE_MASK =? 0)
  then pure true
  else pure false.

(** *** sdram_mmr_init_full

    The function is one C body; the blocks on which properties are stated
    are named definitions, called in source order by [sdram_mmr_init_full]
    below. *)

(** Line 268, the body of the loop over the instances. *)
Definition clear_cal_status (i : nat) (io96b_ctrl : io96b_info) : io96b_info :=
  set_io96b (alter (set_cal_status false) i (io96b io96b_ctrl)) io96b_ctrl.

(** Lines 265-279: re-calibration. *)
Definition recalibrate (io96b_ctrl : io96b_info) : M io96b_info :=
  dbe <- ddr_ecc_dbe_status ;;
  let io96b_ctrl :=
    if dbe
    then
      let io96b_ctrl :=
        for_pure (num_instance io96b_ctrl) 0 clear_cal_status io96b_ctrl in
      set_overall_cal_status false io96b_ctrl
    else io96b_ctrl in
  io96b_ctrl <-
    (if negb (overall_cal_status io96b_ctrl)
     then (printf "DDR: Re-calibration in progress..." [] ;;;
           r <- call "trig_mem_cal" (ArgCtrl io96b_ctrl) (trig_mem_cal io96b_ctrl) ;;
           pure (snd r))
     else pure io96b_ctrl) ;;
  printf "DDR: Calibration success" [] ;;;
  pure io96b_ctrl.

(** Line 296. *)
Definition hw_size_of (io96b_ctrl : io96b_info) : Z :=
  wrap64 (wrap64 (overall_size io96b_ctrl) * SZ_1G) / SZ_8.

(** Lines 333-348: the bank loop, [n] iterations left from index [i];
    the first branch is the [break]. *)
Fixpoint fill_banks (n i : nat) (hw_size size_counter : Z) (bd : bd_info)
  : M bd_info :=
  match n with
  | O => pure bd
  | Datatypes.S n' =>
      let remaining_size := wrap64 (hw_size - size_counter) in
      let bank := default (mk_dram_bank_info 0 0) (dram_bank_info !! i) in
      if remaining_size <=? max_size bank
      then
        let bd := <[i := mk_dram_bank (start bank) remaining_size]> bd in
        debug "Memory bank[%d]  Starting address: 0x%llx  size: 0x%llx"
          [Z.of_nat i; start bank; remaining_size] ;;;
        pure bd
      else
        let bd := <[i := mk_dram_bank (start bank) (max_size bank)]> bd in
        debug "Memory bank[%d]  Starting address: 0x%llx  size: 0x%llx"
          [Z.of_nat i; start bank; max_size bank] ;;;
        fill_banks n' (Datatypes.S i) hw_size
          (wrap64 (size_counter + max_size bank)) bd
  end.

(** Lines 307-351: the declared size against the hardware size. *)
Definition resolve_geometry (hw_size : Z) (bd : bd_info) : M bd_info :=
  ram_size <- gets gd_ram_size ;;
  (if (0 <? ram_size) && negb (ram_size =? hw_size)
   then (printf "DDR: Warning: DRAM size from device tree (%lld MiB)"
           [Z.shiftr ram_size 20] ;;;
         printf " mismatch with hardware (%lld MiB)." [Z.shiftr hw_size 20])
   else pure tt) ;;;
  (if hw_size <? ram_size
   then (printf "DDR: Error: DRAM size from device tree is greater" [] ;;;
         printf " than hardware size." [] ;;;
         hang)
   else pure tt) ;;;
  if (ram_size =? 0) && (0 <? hw_size)
  then
    config_dram_banks <-
      (if (MEMORY_BANK_MAX_COUNT <? CONFIG_NR_DRAM_BANKS)%nat
       then (printf "DDR: Warning: CONFIG_NR_DRAM_BANKS(%d) is bigger than Max Memory Bank count(%d)."
               [Z.of_nat CONFIG_NR_DRAM_BANKS; Z.of_nat MEMORY_BANK_MAX_COUNT] ;;;
             printf " Max Memory Bank count is in use instead of CONFIG_NR_DRAM_BANKS." [] ;;;
             pure MEMORY_BANK_MAX_COUNT)
       else pure CONFIG_NR_DRAM_BANKS) ;;
    bd <- fill_banks config_dram_banks 0 hw_size 0 bd ;;
    modify (set_gd_ram_size hw_size) ;;;
    pure bd
  else pure bd.

(** Lines 365-378: full memory initialisation under ECC.  [Some ret] is the
    [return ret] inside the block, [None] falls through to line 380. *)
Definition ecc_full_mem_init (io96b_ctrl : io96b_info)
    (is_ddr_hang_be4_rst : bool) (reset_t : Z) : M (option Z) :=
  if ecc_status io96b_ctrl
  then
    ocram <- hps_ocram_dbe_status ;;
    dram <- ddr_ecc_dbe_status ;;
    let full_mem_init := ocram || dram || is_ddr_hang_be4_rst in
    early <-
      (if full_mem_init || negb ((reset_t =? WARM_RESET) || (reset_t =? COLD_RESET))
       then
         r <- call "bist_mem_init_start" (ArgCtrl io96b_ctrl)
                (bist_mem_init_start io96b_ctrl) ;;
         let ret := fst r in
         if negb (ret =? 0)
         then (printf "DDR: Failed to fully initialize DDR memory" [] ;;;
               free ;;;
               pure (Some ret))
         else pure None
       else pure None) ;;
    match early with
    | Some ret => pure (Some ret)
    | None => printf "SDRAM-ECC: Initialized success" [] ;;; pure None
    end
  else pure None.

(** Lines 380-405: size check, firewall, end of the progress tracking. *)
Definition finish_init (bd : bd_info) : M Z :=
  call "sdram_size_check" (ArgBd bd) (sdram_size_check bd) ;;;
  printf "DDR: size check success" [] ;;;
  call "sdram_set_firewall" (ArgBd bd) (sdram_set_firewall bd) ;;;
  writel 0x1 0x18000d00 ;;;
  writel 0x1 0x18000d04 ;;;
  writel 0x1 0x18000d08 ;;;
  printf "DDR: firewall init success" [] ;;;
  ram_size <- gets gd_ram_size ;;
  modify (set_priv_info (bank_start (default (mk_dram_bank 0 0) (bd !! 0%nat)))
            ram_size) ;;;
  ddr_init_inprogress false ;;;
  printf "DDR: init success" [] ;;;
  free ;;;
  pure 0.

(** Lines 245-405, after the handoff has been read. *)
Definition after_handoff (io96b_ctrl : io96b_info)
    (is_ddr_hang_be4_rst : bool) (reset_t : Z) : M Z :=
  ret <- config_mpfe_sideband_mgr ;;
  if negb (ret =? 0)
  then (printf "DDR: Failed to configure dual port dual emif" [] ;;;
        free ;;; pure ret)
  else
  config_ccu_mgr ;;;
  let io96b_ctrl := set_ckgen_lock true io96b_ctrl in
  io96b_ctrl <- call "init_mem_cal" (ArgCtrl io96b_ctrl) (init_mem_cal io96b_ctrl) ;;
  io96b_ctrl <- call "io96b_mb_init" (ArgCtrl io96b_ctrl) (io96b_mb_init io96b_ctrl) ;;
  io96b_ctrl <- recalibrate io96b_ctrl ;;
  r <- call "get_mem_technology" (ArgCtrl io96b_ctrl)
         (get_mem_technology io96b_ctrl) ;;
  let ret := fst r in
  let io96b_ctrl := snd r in
  if negb (ret =? 0)
  then (printf "DDR: Failed to get DDR type" [] ;;; free ;;; pure ret)
  else
  r <- call "get_mem_width_info" (ArgCtrl io96b_ctrl)
         (get_mem_width_info io96b_ctrl) ;;
  let ret := fst r in
  let io96b_ctrl := snd r in
  if negb (ret =? 0)
  then (printf "DDR: Failed to get DDR size" [] ;;; free ;;; pure ret)
  else
  let hw_size := hw_size_of io96b_ctrl in
  old_ram_size <- gets gd_ram_size ;;
  r <- call "fdtdec_decode_ram_size" ArgNone
         (fdtdec_decode_ram_size old_ram_size
            (replicate CONFIG_NR_DRAM_BANKS (mk_dram_bank 0 0))) ;;
  let ret := fst (fst r) in
  let bd := snd r in
  modify (set_gd_ram_size (wrap64 (snd (fst r)))) ;;;
  if negb (ret =? 0)
  then (puts "DDR: Failed to decode memory node" ;;; free ;;; pure (- ENXIO))
  else
  bd <- resolve_geometry hw_size bd ;;
  ram_size <- gets gd_ram_size ;;
  printf "%s: %lld MiB" [Z.shiftr ram_size 20] ;;;
  r <- call "ecc_enable_status" (ArgCtrl io96b_ctrl)
         (ecc_enable_status io96b_ctrl) ;;
  let ret := fst r in
  let io96b_ctrl := snd r in
  if negb (ret =? 0)
  then (printf "DDR: Failed to get DDR ECC status" [] ;;; free ;;; pure ret)
  else
  early <- ecc_full_mem_init io96b_ctrl is_ddr_hang_be4_rst reset_t ;;
  match early with
  | Some ret => pure ret
  | None => finish_init bd
  end.

(** Lines 234-405, entered with the progress marker set. *)
Definition bring_up (io96b_ctrl : io96b_info)
    (is_ddr_hang_be4_rst : bool) (reset_t : Z) : M Z :=
  mpfe_base_addr <- gets plat_mpfe_base_addr ;;
  debug "DDR: Address MPFE 0x%llx" [mpfe_base_addr] ;;;
  debug "DDR: Checking SDRAM configuration in progress ..." [] ;;;
  r <- populate_ddr_handoff io96b_ctrl ;;
  let ret := fst r in
  let io96b_ctrl := snd r in
  if negb (ret =? 0)
  then (printf "DDR: Failed to populate DDR handoff" [] ;;; free ;;; pure ret)
  else after_handoff io96b_ctrl is_ddr_hang_be4_rst reset_t.

(** Lines 214-233: the block is allocated with whatever it holds
    ([io96b_ctrl]), the reset cause and the marker of the previous run are
    read, and the marker is set. *)
Definition sdram_mmr_init_full (io96b_ctrl : io96b_info) : M Z :=
  malloc ;;;
  reg <- readl (socfpga_get_sysmgr_addr + SYSMGR_SOC64_BOOT_SCRATCH_COLD3) ;;
  let reset_t := get_reset_type reg in
  is_ddr_hang_be4_rst <- is_ddr_init_hang ;;
  debug "DDR: SDRAM init in progress ..." [] ;;;
  ddr_init_inprogress true ;;;
  bring_up io96b_ctrl is_ddr_hang_be4_rst reset_t.

End Driver.

(** ** A reference configuration

    The driver is parametric in the register layout; to run it on concrete
    inputs the layout is fixed here in the manner of the Agilex 5 headers
    (reset type in bits 29-31 and the two DBE markers in bits 0 and 1 of the
    COLD3 scratch register, progress marker in bit 0 of the POR0 scratch
    register, three DRAM banks), together with a bench of collaborators with
    canned answers. *)
Module Bench.

Definition agilex5 : Platform := {|
  socfpga_get_sysmgr_addr := 0x10d12000;
  SYSMGR_SOC64_BOOT_SCRATCH_POR0 := 0x258;
  SYSMGR_SOC64_BOOT_SCRATCH_COLD3 := 0x20c;
  SYSMGR_SOC64_MPFE_CONFIG := 0x228;
  SOCFPGA_F2SDRAM_MGR_ADDRESS := 0x18001000;
  ALT_SYSMGR_SCRATCH_REG_3_DDR_RESET_TYPE_MASK := GENMASK 31 29;
  ALT_SYSMGR_SCRATCH_REG_3_DDR_RESET_TYPE_SHIFT := 29;
  ALT_SYSMGR_SCRATCH_REG_3_OCRAM_DBE_MASK := BIT 0;
  ALT_SYSMGR_SCRATCH_REG_3_DDR_DBE_MASK := BIT 1;
  ALT_SYSMGR_SCRATCH_REG_POR_0_DDR_PROGRESS_MASK := BIT 0;
  SOC64_HANDOFF_SDRAM := 0x7f000;
  SOC64_HANDOFF_SDRAM_LEN := 5;
  CONFIG_NR_DRAM_BANKS := 3;
  ENXIO := 6
|}.

Definition ctrl0 : io96b_info :=
  mk_io96b_info 0 0 0 false false false 0 ""
    [mk_io96b_instance 0 false; mk_io96b_instance 0 false].

Definition calibrated (c : io96b_info) : io96b_info :=
  set_overall_cal_status true
    (set_io96b (map (set_cal_status true) (io96b c)) c).

Definition with_size (gbit : Z) (c : io96b_info) : io96b_info :=
  mk_io96b_info (num_instance c) (num_port c) (io96b_pll c) (ckgen_lock c)
    (overall_cal_status c) (ecc_status c) gbit "LPDDR4" (io96b c).

Definition with_ecc (b : bool) (c : io96b_info) : io96b_info :=
  mk_io96b_info (num_instance c) (num_port c) (io96b_pll c) (ckgen_lock c)
    (overall_cal_status c) b (overall_size c) (ddr_type c) (io96b c).

(** The bench answers; the fields that vary between scenarios are
    arguments: the handoff read, the first calibration, the re-calibration,
    the size in Gbit, the declared size and ECC. *)
Definition bench (handoff : option (Z * list Z)) (cal_ok : bool)
    (recal : io96b_info -> option (Z * io96b_info)) (gbit : Z)
    (declared : Z) (ecc : bool) : Collaborators := {|
  socfpga_handoff_read := fun _ _ => handoff;
  uclass_get_device_by_name := fun _ => Some 0;
  init_mem_cal := fun c => Some (if cal_ok then calibrated c else c);
  io96b_mb_init := fun c => Some c;
  trig_mem_cal := recal;
  get_mem_technology := fun c => Some (0, c);
  get_mem_width_info := fun c => Some (0, with_size gbit c);
  fdtdec_decode_ram_size := fun _ bd =>
    Some (0, declared,
          if declared =? 0 then bd else <[0%nat := mk_dram_bank 0x80000000 declared]> bd);
  ecc_enable_status := fun c => Some (0, with_ecc ecc c);
  bist_mem_init_start := fun c => Some (0, c);
  sdram_size_check := fun _ => Some tt;
  sdram_set_firewall := fun _ => Some tt
|}.

Definition good_handoff : option (Z * list Z) := Some (0, [0; 0; 0; 0; 0x10000]).

Definition recal_ok : io96b_info -> option (Z * io96b_info) :=
  fun c => Some (0, calibrated c).

Definition w0 : world := mk_world ∅ [] 0 false false 0x18000000 0 0.


(** A handoff read that reports failure; the table holds what the stack held. *)
Definition failed_handoff : option (Z * list Z) := Some (-5, [0; 0; 0; 0; 0]).

Definition no_banks : bd_info := replicate 3 (mk_dram_bank 0 0).

Definition GiB : Z := 2 ^ 30.

End Bench.


(** ** The bank partition in the words of the specification

    Section 4.5: "for each bank in order, assign min(remaining_size,
    bank_capacity); stop at the first bank whose capacity is >= remaining
    size (that bank receives exactly the remainder, not its full capacity)". *)
Fixpoint spec_partition (remaining_size : Z) (capacities : list Z) : list Z :=
  match capacities with
  | [] => []
  | bank_capacity :: rest =>
      let assigned := Z.min remaining_size bank_capacity in
      if bank_capacity >=? remaining_size
      then [assigned]
      else assigned :: spec_partition (remaining_size - assigned) rest
  end.

Definition sumZ (l : list Z) : Z := foldr Z.add 0 l.

(** ** What the properties observe *)

Section Observations.

Context {P : Platform} {C : Collaborators}.

Definition POR0 : Z := socfpga_get_sysmgr_addr + SYSMGR_SOC64_BOOT_SCRATCH_POR0.
Definition COLD3 : Z := socfpga_get_sysmgr_addr + SYSMGR_SOC64_BOOT_SCRATCH_COLD3.

(** What [is_ddr_init_hang] reads off a world. *)
Definition marker (w : world) : bool :=
  negb (Z.land (peek POR0 w) ALT_SYSMGR_SCRATCH_REG_POR_0_DDR_PROGRESS_MASK =? 0).

Definition ocram_dbe (w : world) : bool :=
  negb (Z.land (peek COLD3 w) ALT_SYSMGR_SCRATCH_REG_3_OCRAM_DBE_MASK =? 0).

Definition dram_dbe (w : world) : bool :=
  negb (Z.land (peek COLD3 w) ALT_SYSMGR_SCRATCH_REG_3_DDR_DBE_MASK =? 0).

Definition full_init_call (io96b_ctrl : io96b_info) : event :=
  Call "bist_mem_init_start" (ArgCtrl io96b_ctrl).

Definition recal_call (c : io96b_info) : event :=
  Call "trig_mem_cal" (ArgCtrl c).

(** The banks the loop may use: the first [CONFIG_NR_DRAM_BANKS] of the
    table, at most [MEMORY_BANK_MAX_COUNT]. *)
Definition banks_in_use : list dram_bank_info_s :=
  take (Nat.min CONFIG_NR_DRAM_BANKS MEMORY_BANK_MAX_COUNT) dram_bank_info.

(** [m], started where [Pre] holds, returns where [Q] holds or hangs where
    [H] holds. *)
Definition triple {A} (Pre : world -> Prop) (m : M A)
    (Q : A -> world -> Prop) (H : world -> Prop) : Prop :=
  forall w, Pre w ->
    match m w with
    | Ret a w' => Q a w'
    | Hang w' => H w'
    end.

Definition marked (w : world) : Prop := marker w = true.

(** [m] leaves a set marker set, however it ends. *)
Definition keeps {A} (m : M A) : Prop :=
  triple marked m (fun _ => marked) marked.

(** How a run that started with the marker set may end: with 0 and the
    marker cleared, or with another value and the marker set. *)
Definition run_end (ret : Z) (w : world) : Prop :=
  (ret = 0 /\ marker w = false) \/ (ret <> 0 /\ marker w = true).

End Observations.

(** ** Further observations on the DDR driver *)

Section FurtherObservations.

Context {P : Platform} {C : Collaborators}.

Definition MPFE_CONFIG : Z := socfpga_get_sysmgr_addr + SYSMGR_SOC64_MPFE_CONFIG.

(** The registers the driver writes with setbits/clrbits. *)
Definition soft_reg (a : Z) : Prop :=
  a = POR0 \/ a = MPFE_CONFIG \/ a = SIDEBANDMGR_FLAGOUTSET0_REG.

(** The three MPFE firewall registers of lines 387-391. *)
Definition firewall_reg (a : Z) : Prop :=
  a = 0x18000d00 \/ a = 0x18000d04 \/ a = 0x18000d08.

Definition free_call : event := Call "free" ArgNone.

Definition is_free (e : event) : bool :=
  match e with
  | Call fn ArgNone => String.eqb fn "free"
  | _ => false
  end.

(** How often [free] has been called. *)
Definition frees (l : list event) : nat := length (List.filter is_free l).

(** Relative to the world [w0] at entry: [n] calls of [free] so far, the
    private data as at entry, and no register changed but the three the
    driver sets and clears bits in. *)
Definition quiet (w0 : world) (n : nat) (w : world) : Prop :=
  frees (console w) = n /\
  priv_info_base w = priv_info_base w0 /\
  priv_info_size w = priv_info_size w0 /\
  forall a, ~ soft_reg a -> mmio w !! a = mmio w0 !! a.

(** How a run that returns may end. *)
Definition ended (w0 : world) (n : nat) (ret : Z) (w : world) : Prop :=
  last (console w) = Some free_call /\
  frees (console w) = S n /\
  ((ret <> 0 /\
    priv_info_base w = priv_info_base w0 /\
    priv_info_size w = priv_info_size w0 /\
    forall a, ~ soft_reg a -> mmio w !! a = mmio w0 !! a)
   \/
   (ret = 0 /\
    priv_info_size w = gd_ram_size w /\
    (forall a, ~ soft_reg a -> ~ firewall_reg a -> mmio w !! a = mmio w0 !! a) /\
    (~ firewall_reg POR0 -> forall a, firewall_reg a -> peek a w = 1))).

(** [m] keeps [quiet]: it calls no [free], leaves the private data alone and
    writes no register but the three. *)
Definition calm (w0 : world) (n : nat) {A} (m : M A) : Prop :=
  triple (quiet w0 n) m (fun _ => quiet w0 n) (quiet w0 n).

(** The debug lines of lines 341 and 346, one for each of [sizes], for the
    banks of [banks] from index [i] on. *)
Fixpoint bank_lines (i : nat) (banks : list dram_bank_info_s) (sizes : list Z)
    {struct sizes} : list event :=
  match sizes, banks with
  | size :: sizes', bank :: banks' =>
      Debug "Memory bank[%d]  Starting address: 0x%llx  size: 0x%llx"
        [Z.of_nat i; start bank; size]
      :: bank_lines (Datatypes.S i) banks' sizes'
  | _, _ => []
  end.

(** The two lines of lines 325-329, printed when more banks are configured
    than the table has. *)
Definition bank_count_warning : list event :=
  if (MEMORY_BANK_MAX_COUNT <? CONFIG_NR_DRAM_BANKS)%nat
  then [Printf "DDR: Warning: CONFIG_NR_DRAM_BANKS(%d) is bigger than Max Memory Bank count(%d)."
          [Z.of_nat CONFIG_NR_DRAM_BANKS; Z.of_nat MEMORY_BANK_MAX_COUNT];
        Printf " Max Memory Bank count is in use instead of CONFIG_NR_DRAM_BANKS." []]
  else [].

End FurtherObservations.

(** ** Platform hooks of the SoC64 family

    Source: [arch/arm/mach-socfpga/misc_soc64.c].  The hooks read system
    manager registers, set environment variables and call into the mailbox,
    bridge and SMMU code; they have a state of their own: registers,
    environment and a trace of output and calls.  A computation that writes
    past the end of a local buffer has no defined result ([None]). *)
Module Misc.

(** Kconfig switches and header constants the file is compiled with. *)
Class Config := {
  CONFIG_TARGET_SOCFPGA_AGILEX5 : bool;
  CONFIG_TARGET_SOCFPGA_AGILEX5_EMU : bool;
  CONFIG_CADENCE_QSPI : bool;
  CONFIG_SPL_ATF : bool;
  SYSMGR_SOC64_BOOT_SCRATCH_POR1 : Z;
  SYSMGR_SOC64_FPGA_CONFIG : Z;
  ALT_SYSMGR_SCRATCH_REG_POR_1_REVA_WORKAROUND_MASK : Z;
  ALT_SYSMGR_SCRATCH_REG_POR_1_REVA_WORKAROUND_USER_MODE_MASK : Z;
  SYSMGR_FPGACONFIG_READY_MASK : Z;
  MBOX_QSPI_CLOSE : Z;
  HPS_EXECUTION_STATE_OS : Z
}.

(** Answers of the functions defined elsewhere; for the bridge reset, which
    exists to write the registers of the reset manager, what it makes of the
    registers. *)
Class Callees := {
  smmu_sdm_init : Z;
  env_get_yesno : gmap string string -> string -> Z;
  smc_send_mailbox : Z -> Z;
  cm_get_qspi_controller_clk_hz : Z;
  socfpga_get_board_id : Z;
  socfpga_bridges_reset : Z -> Z -> gmap Z Z -> gmap Z Z
}.

Inductive mevent :=
| Out (fmt : string) (args : list Z)
| Dbg (fmt : string) (args : list Z)
| Invoke (fn : string) (args : list Z).

Record state := mk_state {
  regs : gmap Z Z;
  env : gmap string string;
  trace : list mevent
}.

Definition MS (A : Type) := state -> option (A * state).

Definition mpure {A} (a : A) : MS A := fun s => Some (a, s).

Definition mbind_ {A B} (m : MS A) (k : A -> MS B) : MS B :=
  fun s => match m s with
           | Some (a, s') => k a s'
           | None => None
           end.

Notation "x <~ m ;; k" := (mbind_ m (fun x => k))
  (at level 100, m at next level, right associativity).
Notation "m ;;~ k" := (mbind_ m (fun _ => k))
  (at level 100, right associativity).

Definition undefined {A} : MS A := fun _ => None.

Definition log (e : mevent) : MS unit :=
  fun s => Some (tt, mk_state (regs s) (env s) (trace s ++ [e])).

Definition puts (str : string) : MS unit := log (Out str []).
Definition printf (fmt : string) (args : list Z) : MS unit := log (Out fmt args).
Definition debug (fmt : string) (args : list Z) : MS unit := log (Dbg fmt args).

(** A call of a function defined elsewhere of which the hooks use the answer
    only: the call is recorded. *)
Definition invoke (fn : string) (args : list Z) : MS unit := log (Invoke fn args).


(** A 32-bit read, as [readl] above, on the state of the hooks. *)
Definition reg32 (addr : Z) (s : state) : Z :=
  wrap32 (default 0 (regs s !! addr)).

Definition readl (addr : Z) : MS Z := fun s => Some (reg32 addr s, s).

(** The environment of env.h, not part of the files at hand, by its
    documented meaning: [env_get] gives the value of a variable or NULL,
    [env_set] with a non-empty value sets the variable. *)
Definition env_get (name : string) : MS (option string) :=
  fun s => Some (env s !! name, s).

Definition env_set (name value : string) : MS unit :=
  fun s => Some (tt, mk_state (regs s) (<[name := value]> (env s)) (trace s)).

(** The value of an [unsigned long] expression returned as [int]. *)
Definition int_of (x : Z) : Z :=
  let y := wrap32 x in if y <? 2 ^ 31 then y else y - 2 ^ 32.

(** Formatting, by the C library's meaning of the conversions used: "%u" is
    the decimal numeral; "%08x" of an unsigned int is its eight hexadecimal
    digits, lower case, zeros in front. *)
Definition fmt_u (n : Z) : string :=
  DecimalString.NilZero.string_of_uint (N.to_uint (Z.to_N n)).

Definition hex_digit (d : Z) : string :=
  String.substring (Z.to_nat d) 1 "0123456789abcdef".

Definition fmt_08x (n : Z) : string :=
  String.concat ""
    (List.map (fun k => hex_digit (Z.land (Z.shiftr (wrap32 n) k) 15))
       [28; 24; 20; 16; 12; 8; 4; 0]).

(** [sprintf] into a local array of [size] characters: the text and its
    terminator must fit. *)
Definition sprintf (size : nat) (text : string) : MS string :=
  if (String.length text + 1 <=? size)%nat then mpure text else undefined.

(** [snprintf] never writes more than [size] characters: the text is cut. *)
Definition snprintf (size : nat) (text : string) : MS string :=
  mpure (String.substring 0 (size - 1) text).

Definition RSU_DEFAULT_LOG_LEVEL : Z := 7.

Section Hooks.

Context {P : Platform} {K : Config} {F : Callees}.

Definition print_cpuinfo : MS Z :=
  (if CONFIG_TARGET_SOCFPGA_AGILEX5
   then puts "CPU:   Intel FPGA SoCFPGA Platform (ARMv8 64bit Cortex-A55/A76)"
   else puts "CPU:   Intel FPGA SoCFPGA Platform (ARMv8 64bit Cortex-A53)") ;;~
  mpure 0.

Definition arch_misc_init : MS Z :=
  (if negb CONFIG_TARGET_SOCFPGA_AGILEX5_EMU
   then
     level <~ snprintf 4 (fmt_u RSU_DEFAULT_LOG_LEVEL) ;;
     qspi_string <~
       sprintf 13 ("<0x" ++ fmt_08x cm_get_qspi_controller_clk_hz ++ ">") ;;
     env_set "qspi_clock" qspi_string ;;~
     v <~ env_get "rsu_log_level" ;;
     (match v with
      | None => env_set "rsu_log_level" level
      | Some _ => mpure tt
      end) ;;~
     id <~ sprintf 3 (fmt_u (socfpga_get_board_id mod 2 ^ 8)) ;;
     env_set "board_id" id
   else mpure tt) ;;~
  mpure 0.

Definition arch_early_init_r : MS Z :=
  invoke "socfpga_fpga_add" [] ;;~
  mpure 0.

Definition is_agilex5_reva_workaround_required : MS bool :=
  reg <~ readl (socfpga_get_sysmgr_addr + SYSMGR_SOC64_BOOT_SCRATCH_POR1) ;;
  debug "%s: SYSMGR_SOC64_BOOT_SCRATCH_POR1: 0x%x" [reg] ;;~
  let status :=
    negb (FIELD_GET ALT_SYSMGR_SCRATCH_REG_POR_1_REVA_WORKAROUND_MASK reg =? 0) in
  debug "%s: Agilex 5 Rev A workaround status: 0x%x" [Z.b2z status] ;;~
  mpure status.

Definition is_fpga_config_ready : MS Z :=
  early <~
    (if CONFIG_TARGET_SOCFPGA_AGILEX5
     then
       required <~ is_agilex5_reva_workaround_required ;;
       if required
       then
         reg <~ readl (socfpga_get_sysmgr_addr + SYSMGR_SOC64_BOOT_SCRATCH_POR1) ;;
         mpure (Some (int_of
                  (Z.land reg
                     ALT_SYSMGR_SCRATCH_REG_POR_1_REVA_WORKAROUND_USER_MODE_MASK)))
       else mpure None
     else mpure None) ;;
  match early with
  | Some ret => mpure ret
  | None =>
      reg <~ readl (socfpga_get_sysmgr_addr + SYSMGR_SOC64_FPGA_CONFIG) ;;
      mpure (Z.b2z (Z.land reg SYSMGR_FPGACONFIG_READY_MASK
                    =? SYSMGR_FPGACONFIG_READY_MASK))
  end.





Definition POR1 : Z := socfpga_get_sysmgr_addr + SYSMGR_SOC64_BOOT_SCRATCH_POR1.
Definition FPGA_CONFIG : Z := socfpga_get_sysmgr_addr + SYSMGR_SOC64_FPGA_CONFIG.

(** Some bit of the workaround mask is set in the POR1 scratch register. *)
Definition workaround_bit (s : state) : bool :=
  negb (Z.land (reg32 POR1 s) ALT_SYSMGR_SCRATCH_REG_POR_1_REVA_WORKAROUND_MASK =? 0).

(** The FPGA counts as configured: with the workaround, when a user-mode bit
    is set in POR1; without it, when all ready bits are set in the FPGA
    configuration register. *)
Definition fpga_ready (s : state) : bool :=
  if CONFIG_TARGET_SOCFPGA_AGILEX5 && workaround_bit s
  then negb (Z.land (reg32 POR1 s)
               ALT_SYSMGR_SCRATCH_REG_POR_1_REVA_WORKAROUND_USER_MODE_MASK =? 0)
  else Z.land (reg32 FPGA_CONFIG s) SYSMGR_FPGACONFIG_READY_MASK
       =? SYSMGR_FPGACONFIG_READY_MASK.

(** The state after the two debug lines of
    [is_agilex5_reva_workaround_required]. *)
Definition after_probe (s : state) : state :=
  mk_state (regs s) (env s)
    ((trace s ++ [Dbg "%s: SYSMGR_SOC64_BOOT_SCRATCH_POR1: 0x%x" [reg32 POR1 s]]) ++
     [Dbg "%s: Agilex 5 Rev A workaround status: 0x%x" [Z.b2z (workaround_bit s)]]).

(** The calls recorded on a trace. *)
Definition invoked (fn : string) (t : list mevent) : list (list Z) :=
  omap (fun e => match e with
                 | Invoke fn' args => if String.eqb fn fn' then Some args else None
                 | _ => None
                 end) t.

End Hooks.

(** A configuration and answers to run the hooks on; the bridge reset of the
    bench leaves the mask in a bridge reset register when the bridges are
    disabled, and 0 when they are enabled. *)
Definition agilex5_config : Config := {|
  CONFIG_TARGET_SOCFPGA_AGILEX5 := true;
  CONFIG_TARGET_SOCFPGA_AGILEX5_EMU := false;
  CONFIG_CADENCE_QSPI := true;
  CONFIG_SPL_ATF := true;
  SYSMGR_SOC64_BOOT_SCRATCH_POR1 := 0x25c;
  SYSMGR_SOC64_FPGA_CONFIG := 0x18;
  ALT_SYSMGR_SCRATCH_REG_POR_1_REVA_WORKAROUND_MASK := BIT 1;
  ALT_SYSMGR_SCRATCH_REG_POR_1_REVA_WORKAROUND_USER_MODE_MASK := BIT 0;
  SYSMGR_FPGACONFIG_READY_MASK := 0x3;
  MBOX_QSPI_CLOSE := 0x33;
  HPS_EXECUTION_STATE_OS := 4
|}.

Definition callees (yes : Z) (mbox : Z) (clk : Z) (board : Z) : Callees := {|
  smmu_sdm_init := 0;
  env_get_yesno := fun _ _ => yes;
  smc_send_mailbox := fun _ => mbox;
  cm_get_qspi_controller_clk_hz := clk;
  socfpga_get_board_id := board;
  socfpga_bridges_reset := fun enable mask r =>
    <[0x10d1102c := if enable =? 0 then mask else 0]> r
|}.

Definition s0 : state := mk_state ∅ ∅ [].


End Misc.

(** * Properties *)

(** ** Bits of a 32-bit register *)

Lemma testbit_wrap32 (x i : Z) :
  0 <= i -> Z.testbit (wrap32 x) i = (i <? 32) && Z.testbit x i.
Proof.
  intros Hi. unfold wrap32. destruct (Z.ltb_spec i 32).
  - rewrite Z.mod_pow2_bits_low by lia. reflexivity.
  - rewrite Z.mod_pow2_bits_high by lia. reflexivity.
Qed.

Lemma wrap32_range (x : Z) : 0 <= wrap32 x < 2 ^ 32.
Proof. unfold wrap32. apply Z.mod_pos_bound. lia. Qed.

Lemma wrap32_small (x : Z) : 0 <= x < 2 ^ 32 -> wrap32 x = x.
Proof. intros. unfold wrap32. apply Z.mod_small. assumption. Qed.

Lemma wrap32_idem (x : Z) : wrap32 (wrap32 x) = wrap32 x.
Proof. apply wrap32_small, wrap32_range. Qed.

Lemma testbit_u32_high (m i : Z) :
  0 <= m < 2 ^ 32 -> Z.testbit m i = true -> 0 <= i < 32.
Proof.
  intros Hm Hb. split.
  - destruct (Z.leb_spec 0 i); [assumption|].
    rewrite Z.testbit_neg_r in Hb by lia. discriminate.
  - destruct (Z.ltb_spec i 32); [assumption|].
    rewrite <- (wrap32_small m Hm), testbit_wrap32 in Hb by lia.
    apply andb_true_iff in Hb as [Hb _]. apply Z.ltb_lt in Hb. lia.
Qed.

Lemma land_set_mask (x m : Z) :
  0 <= m < 2 ^ 32 -> Z.land (wrap32 (Z.lor x m)) m = m.
Proof.
  intros Hm. apply Z.bits_inj'. intros i Hi.
  rewrite Z.land_spec, testbit_wrap32, Z.lor_spec by assumption.
  destruct (Z.testbit m i) eqn:E.
  - apply (testbit_u32_high m i Hm) in E as [_ E].
    apply Z.ltb_lt in E. rewrite E, orb_true_r. reflexivity.
  - apply andb_false_r.
Qed.

Lemma land_clear_mask (x m : Z) :
  Z.land (wrap32 (Z.land x (Z.lnot m))) m = 0.
Proof.
  apply Z.bits_inj'. intros i Hi.
  rewrite Z.land_spec, testbit_wrap32, Z.land_spec, Z.lnot_spec, Z.bits_0
    by assumption.
  destruct (Z.testbit m i); [cbn; rewrite !andb_false_r | rewrite andb_false_r];
    reflexivity.
Qed.

Lemma shiftr_land_bit (w n : Z) :
  0 <= n -> Z.shiftr (Z.land w (BIT n)) n = Z.b2z (Z.testbit w n).
Proof.
  intros Hn. unfold BIT. rewrite Z.shiftl_1_l.
  apply Z.bits_inj'. intros i Hi.
  rewrite Z.shiftr_spec, Z.land_spec, Z.pow2_bits_eqb by lia.
  destruct (Z.eqb_spec n (i + n)) as [E|E].
  - assert (i = 0) by lia. subst i. rewrite Z.add_0_l, andb_true_r.
    destruct (Z.testbit w n); reflexivity.
  - rewrite andb_false_r. destruct (Z.testbit w n); cbn [Z.b2z].
    + destruct i; try lia; reflexivity.
    + symmetry. apply Z.bits_0.
Qed.

Section Properties.

Context {P : Platform} {C : Collaborators}.

Lemma is_ddr_init_hang_eq (w : world) : is_ddr_init_hang w = Ret (marker w) w.
Proof.
  unfold is_ddr_init_hang, marker, bind, readl, pure, POR0.
  destruct (negb _); reflexivity.
Qed.

Lemma peek_set_mmio_same (a v : Z) (w : world) :
  peek a (set_mmio (<[a := wrap32 v]> (mmio w)) w) = wrap32 v.
Proof.
  unfold peek. cbn. rewrite lookup_insert_eq. cbn. apply wrap32_idem.
Qed.

Lemma peek_set_mmio_other (a b v : Z) (w : world) :
  a <> b -> peek b (set_mmio (<[a := v]> (mmio w)) w) = peek b w.
Proof.
  intros Hab. unfold peek. cbn. rewrite lookup_insert_ne by assumption.
  reflexivity.
Qed.

Lemma setbits_le32_eq (a s : Z) (w : world) :
  setbits_le32 a s w
  = Ret tt (set_mmio (<[a := wrap32 (Z.lor (peek a w) s)]> (mmio w)) w).
Proof. reflexivity. Qed.

Lemma clrbits_le32_eq (a c : Z) (w : world) :
  clrbits_le32 a c w
  = Ret tt (set_mmio (<[a := wrap32 (Z.land (peek a w) (Z.lnot c))]> (mmio w)) w).
Proof. reflexivity. Qed.

(** C10.  Whatever the boot scratch register holds, after
    [ddr_init_inprogress b] the test [is_ddr_init_hang] answers exactly [b];
    the call returns, sets every bit of the DDR-progress mask to [b], leaves
    every other bit of the register as it was, and leaves every other
    register and the rest of the world untouched. *)
Theorem ddr_init_inprogress_is_ddr_init_hang (b : bool) (w : world) :
  0 < ALT_SYSMGR_SCRATCH_REG_POR_0_DDR_PROGRESS_MASK < 2 ^ 32 ->
  exists w',
    ddr_init_inprogress b w = Ret tt w' /\
    is_ddr_init_hang w' = Ret b w' /\
    (forall i, Z.testbit ALT_SYSMGR_SCRATCH_REG_POR_0_DDR_PROGRESS_MASK i = true ->
               Z.testbit (peek POR0 w') i = b) /\
    (forall i, Z.testbit ALT_SYSMGR_SCRATCH_REG_POR_0_DDR_PROGRESS_MASK i = false ->
               Z.testbit (peek POR0 w') i = Z.testbit (peek POR0 w) i) /\
    (forall a, a <> POR0 -> mmio w' !! a = mmio w !! a) /\
    set_mmio (mmio w) w' = w.
Proof.
  intros Hm.
  set (m := ALT_SYSMGR_SCRATCH_REG_POR_0_DDR_PROGRESS_MASK) in *.
  assert (Hlow : forall i, Z.testbit m i = true -> 0 <= i /\ (i <? 32) = true).
  { intros i Hi. apply (testbit_u32_high m i) in Hi as [? ?]; [|lia].
    split; [assumption | apply Z.ltb_lt; assumption]. }
  destruct b; cbn [ddr_init_inprogress]; fold POR0; fold m.
  - rewrite setbits_le32_eq. eexists. split; [reflexivity|].
    rewrite is_ddr_init_hang_eq. unfold marker. fold m.
    rewrite !peek_set_mmio_same.
    repeat split.
    + rewrite land_set_mask by lia.
      destruct (Z.eqb_spec m 0); [lia | reflexivity].
    + intros i Hi. destruct (Hlow i Hi) as [H0 H32].
      rewrite testbit_wrap32, Z.lor_spec, Hi, H32, orb_true_r by assumption.
      reflexivity.
    + intros i Hi. destruct (Z.leb_spec 0 i) as [H0|H0].
      * rewrite testbit_wrap32, Z.lor_spec, Hi, orb_false_r by assumption.
        rewrite <- testbit_wrap32 by assumption.
        unfold peek. rewrite wrap32_idem. reflexivity.
      * rewrite !Z.testbit_neg_r by lia. reflexivity.
    + intros a Ha. cbn. rewrite lookup_insert_ne by congruence. reflexivity.
    + destruct w; reflexivity.
  - rewrite clrbits_le32_eq. eexists. split; [reflexivity|].
    rewrite is_ddr_init_hang_eq. unfold marker. fold m.
    rewrite !peek_set_mmio_same.
    repeat split.
    + rewrite land_clear_mask. reflexivity.
    + intros i Hi. destruct (Hlow i Hi) as [H0 H32].
      rewrite testbit_wrap32, Z.land_spec, Z.lnot_spec, Hi by assumption.
      cbn. rewrite andb_false_r, andb_false_r. reflexivity.
    + intros i Hi. destruct (Z.leb_spec 0 i) as [H0|H0].
      * rewrite testbit_wrap32, Z.land_spec, Z.lnot_spec, Hi by assumption.
        cbn [negb]. rewrite andb_true_r.
        rewrite <- testbit_wrap32 by assumption.
        unfold peek. rewrite wrap32_idem. reflexivity.
      * rewrite !Z.testbit_neg_r by lia. reflexivity.
    + intros a Ha. cbn. rewrite lookup_insert_ne by congruence. reflexivity.
    + destruct w; reflexivity.
Qed.

(** *** The reset classifier *)

Lemma reset_type_value_range (c : reset_type) : 0 <= reset_type_value c <= 5.
Proof.
  destruct c; unfold reset_type_value, POR_RESET, WARM_RESET, COLD_RESET,
    NCONFIG, JTAG_CONFIG, RSU_RECONFIG; lia.
Qed.

Lemma reset_type_value_inj (c1 c2 : reset_type) :
  reset_type_value c1 = reset_type_value c2 -> c1 = c2.
Proof. destruct c1, c2; cbn; intros H; try reflexivity; discriminate H. Qed.

Lemma reset_type_value_surj (v : Z) :
  0 <= v <= 5 -> exists c, reset_type_value c = v.
Proof.
  intros Hv.
  assert (v = 0 \/ v = 1 \/ v = 2 \/ v = 3 \/ v = 4 \/ v = 5) as H by lia.
  destruct H as [->|[->|[->|[->|[->| ->]]]]];
    [exists PowerOn | exists Warm | exists Cold | exists Reconfig
    | exists JtagConfig | exists RemoteUpdate]; reflexivity.
Qed.

Lemma get_reset_type_bits (reg i : Z) :
  0 <= i ->
  Z.testbit (get_reset_type reg) i
  = Z.testbit reg (i + ALT_SYSMGR_SCRATCH_REG_3_DDR_RESET_TYPE_SHIFT)
    && Z.testbit ALT_SYSMGR_SCRATCH_REG_3_DDR_RESET_TYPE_MASK
         (i + ALT_SYSMGR_SCRATCH_REG_3_DDR_RESET_TYPE_SHIFT).
Proof.
  intros Hi. unfold get_reset_type.
  rewrite Z.shiftr_spec, Z.land_spec by assumption. reflexivity.
Qed.

(** C7, as the code has it.  For every 32-bit register value
    [get_reset_type] returns the reset-type field of the register, a number
    that is never negative; the function is total and its result depends on
    the register value only.  The result is one of the six enumerated
    causes, and then exactly one, when the field holds at most 5; a field
    value above 5 is returned as it is and names none of them. *)
Theorem get_reset_type_classifies (reg : Z) :
  0 <= reg < 2 ^ 32 ->
  get_reset_type reg
  = Z.shiftr (Z.land reg ALT_SYSMGR_SCRATCH_REG_3_DDR_RESET_TYPE_MASK)
             ALT_SYSMGR_SCRATCH_REG_3_DDR_RESET_TYPE_SHIFT /\
  0 <= get_reset_type reg /\
  (get_reset_type reg <= 5 ->
   exists c, reset_type_value c = get_reset_type reg /\
             forall c', reset_type_value c' = get_reset_type reg -> c' = c) /\
  (5 < get_reset_type reg ->
   forall c, reset_type_value c <> get_reset_type reg).
Proof.
  intros Hreg.
  assert (H0 : 0 <= get_reset_type reg).
  { unfold get_reset_type. apply Z.shiftr_nonneg, Z.land_nonneg. lia. }
  repeat split; [assumption | |].
  - intros H5. destruct (reset_type_value_surj (get_reset_type reg)) as [c Hc];
      [lia|].
    exists c. split; [assumption|].
    intros c' Hc'. apply reset_type_value_inj. congruence.
  - intros H5 c Hc. pose proof (reset_type_value_range c). lia.
Qed.

Lemma testbit_7 (i : Z) : Z.testbit 7 i = (0 <=? i) && (i <? 3).
Proof.
  destruct (Z.leb_spec 0 i) as [H0|H0].
  - destruct (Z.ltb_spec i 3) as [H3|H3].
    + assert (i = 0 \/ i = 1 \/ i = 2) as [->|[->| ->]] by lia; reflexivity.
    + apply Z.bits_above_log2; [lia|]. change (Z.log2 7) with 2. lia.
  - apply Z.testbit_neg_r. lia.
Qed.

(** Whatever the field is: if it is wide enough for each of the six causes
    to be returned for some register value, then some 32-bit register value
    is classified as none of them. *)
Lemma get_reset_type_not_exhaustive :
  (forall c, exists reg, 0 <= reg < 2 ^ 32 /\
                         get_reset_type reg = reset_type_value c) ->
  exists reg, 0 <= reg < 2 ^ 32 /\
              forall c, get_reset_type reg <> reset_type_value c.
Proof.
  intros Hall.
  set (s := ALT_SYSMGR_SCRATCH_REG_3_DDR_RESET_TYPE_SHIFT).
  set (m := ALT_SYSMGR_SCRATCH_REG_3_DDR_RESET_TYPE_MASK).
  destruct (Hall RemoteUpdate) as (r5 & Hr5 & E5).
  destruct (Hall Cold) as (r2 & Hr2 & E2).
  assert (B0 : Z.testbit (get_reset_type r5) 0 = true) by (rewrite E5; reflexivity).
  assert (B2 : Z.testbit (get_reset_type r5) 2 = true) by (rewrite E5; reflexivity).
  assert (B1 : Z.testbit (get_reset_type r2) 1 = true) by (rewrite E2; reflexivity).
  rewrite get_reset_type_bits in B0, B1, B2 by lia. fold s m in B0, B1, B2.
  apply andb_true_iff in B0 as [R0 M0].
  apply andb_true_iff in B1 as [_ M1].
  apply andb_true_iff in B2 as [R2 M2].
  apply (testbit_u32_high r5 _ Hr5) in R0, R2.
  assert (Hs : 0 <= s <= 29) by lia.
  exists (Z.shiftl 7 s). split.
  - rewrite Z.shiftl_mul_pow2 by lia. split; [lia|].
    assert (2 ^ s <= 2 ^ 29) by (apply Z.pow_le_mono_r; lia). lia.
  - assert (E : get_reset_type (Z.shiftl 7 s) = 7).
    { apply Z.bits_inj'. intros i Hi.
      rewrite get_reset_type_bits by assumption. fold s m.
      rewrite Z.shiftl_spec by lia.
      replace (i + s - s) with i by lia.
      rewrite testbit_7.
      destruct (Z.leb_spec 0 i); [|lia].
      destruct (Z.ltb_spec i 3); [|reflexivity].
      assert (i = 0 \/ i = 1 \/ i = 2) as [->|[->| ->]] by lia; cbn [andb].
      - exact M0.
      - exact M1.
      - exact M2. }
    intros c. rewrite E. pose proof (reset_type_value_range c). lia.
Qed.

(** *** The handoff reader *)

Lemma for_loop_assign_csr (n i : nat) (c : io96b_info) (w : world) :
  exists c' w',
    for_loop n i assign_io96b_csr_addr c w = Ret c' w' /\
    num_port c' = num_port c /\
    num_instance c' = num_instance c /\
    io96b_pll c' = io96b_pll c /\
    set_console (console w) w' = w.
Proof.
  revert i c w. induction n as [|n IH]; intros i c w.
  - exists c, w. repeat split. destruct w; reflexivity.
  - cbn [for_loop]. unfold bind at 1.
    unfold assign_io96b_csr_addr at 1. unfold bind, debug, emit, pure.
    match goal with
    | |- context [for_loop n (S i) _ ?c1 ?w1] =>
        destruct (IH (S i) c1 w1) as (c' & w' & E & Hp & Hn & Hl & Hw)
    end.
    exists c', w'. rewrite E. repeat split; try assumption.
    destruct w, w'; unfold set_console in *; cbn in *. congruence.
Qed.

Lemma field_get_bit (w n : Z) :
  0 <= n -> negb (FIELD_GET (BIT n) w =? 0) = Z.testbit w n.
Proof.
  intros Hn. unfold FIELD_GET.
  assert (E : bf_shf (BIT n) = n).
  { unfold bf_shf, BIT. rewrite Z.shiftl_1_l.
    replace (Z.land (2 ^ n) (- 2 ^ n)) with (2 ^ n); [apply Z.log2_pow2; assumption|].
    apply Z.bits_inj'. intros i Hi.
    rewrite Z.land_spec, Z.pow2_bits_eqb by assumption.
    destruct (Z.eqb_spec n i) as [<-|Hne]; [|reflexivity].
    symmetry. cbn [andb].
    replace (- 2 ^ n) with (Z.lnot (Z.ones n))
      by (rewrite Z.ones_equiv; unfold Z.lnot; lia).
    rewrite Z.lnot_spec by assumption.
    rewrite Z.ones_spec_high by lia. reflexivity. }
  rewrite E, shiftr_land_bit by assumption.
  destruct (Z.testbit w n); reflexivity.
Qed.

Lemma field_get_emif_pll (w : Z) :
  FIELD_GET EMIF_PLL_MASK w = Z.land (Z.shiftr w 16) (Z.ones 4).
Proof.
  unfold FIELD_GET.
  change (bf_shf EMIF_PLL_MASK) with 16.
  change EMIF_PLL_MASK with (Z.shiftl (Z.ones 4) 16).
  apply Z.bits_inj'. intros i Hi.
  rewrite Z.shiftr_spec, !Z.land_spec, Z.shiftr_spec, Z.shiftl_spec by lia.
  replace (i + 16 - 16) with i by lia. reflexivity.
Qed.

(** C8.  Whenever the handoff read leaves a table with a word at the
    configuration offset (index 4), [populate_ddr_handoff] returns 0 with:
    two ports if bit 0 of the word is set and one port otherwise; two
    instances if bit 1 is set and one otherwise (the platform flags
    [dualport] and [dualemif] are these two bits); and a PLL mask below 16
    whose bits 0-3 are bits 16-19 of the word. *)
Theorem populate_ddr_handoff_decodes (io96b_ctrl : io96b_info) (w : world)
    (r : Z) (table : list Z) (word : Z) :
  socfpga_handoff_read SOC64_HANDOFF_SDRAM SOC64_HANDOFF_SDRAM_LEN
    = Some (r, table) ->
  table !! PORT_EMIF_CONFIG_OFFSET = Some word ->
  0 <= word < 2 ^ 32 ->
  exists c' w',
    populate_ddr_handoff io96b_ctrl w = Ret (0, c') w' /\
    num_port c' = (if Z.testbit word 0 then 2 else 1) /\
    num_instance c' = (if Z.testbit word 1 then 2 else 1)%nat /\
    plat_dualport w' = Z.testbit word 0 /\
    plat_dualemif w' = Z.testbit word 1 /\
    0 <= io96b_pll c' < 16 /\
    (forall i, 0 <= i < 4 ->
               Z.testbit (io96b_pll c') i = Z.testbit word (16 + i)).
Proof.
  intros Hread Hword Hrange.
  unfold populate_ddr_handoff.
  unfold bind at 1. unfold call, bind at 1, emit. rewrite Hread.
  unfold pure at 1. cbn [snd]. rewrite Hword. cbn [default from_option id].
  rewrite (wrap32_small word Hrange).
  rewrite !field_get_bit by lia.
  unfold bind, modify, debug, emit.
  match goal with
  | |- context [for_loop ?n 0%nat _ ?c1 ?w1] =>
      destruct (for_loop_assign_csr n 0%nat c1 w1)
        as (c' & w' & E & Hp & Hn & Hl & Hw); rewrite E
  end.
  exists c', w'. unfold pure. split; [reflexivity|].
  assert (Hpll : io96b_pll c' = Z.land (Z.shiftr word 16) (Z.ones 4)).
  { rewrite Hl. cbn. apply field_get_emif_pll. }
  repeat split.
  - rewrite Hp. destruct (Z.testbit word 0), (Z.testbit word 1); reflexivity.
  - rewrite Hn. destruct (Z.testbit word 0), (Z.testbit word 1); reflexivity.
  - destruct w'; unfold set_console in Hw; cbn in *.
    inversion Hw; reflexivity.
  - destruct w'; unfold set_console in Hw; cbn in *.
    inversion Hw; reflexivity.
  - rewrite Hpll, Z.land_ones by lia. apply Z.mod_pos_bound. lia.
  - rewrite Hpll, Z.land_ones by lia.
    change (2 ^ 4) with 16. pose proof (Z.mod_pos_bound (Z.shiftr word 16) 16).
    lia.
  - intros i Hi. rewrite Hpll, Z.land_spec, Z.shiftr_spec, Z.ones_spec_low by lia.
    rewrite andb_true_r. f_equal. lia.
Qed.

(** *** The full-initialisation decision *)

Lemma hps_ocram_dbe_status_eq (w : world) :
  hps_ocram_dbe_status w = Ret (ocram_dbe w) w.
Proof.
  unfold hps_ocram_dbe_status, ocram_dbe, bind, readl, pure, COLD3.
  destruct (negb _); reflexivity.
Qed.

Lemma ddr_ecc_dbe_status_eq (w : world) :
  ddr_ecc_dbe_status w = Ret (dram_dbe w) w.
Proof.
  unfold ddr_ecc_dbe_status, dram_dbe, bind, readl, pure, COLD3.
  destruct (negb _); reflexivity.
Qed.

Lemma bind_eq {A B} (m : M A) (k : A -> M B) (w : world) :
  bind m k w = match m w with Ret a w' => k a w' | Hang w' => Hang w' end.
Proof. reflexivity. Qed.

Lemma trace_since_app {A} (w : world) (o : outcome A) (evs : list event) :
  console (final_world o) = console w ++ evs -> trace_since w o = evs.
Proof. intros E. unfold trace_since. rewrite E. apply drop_app_length. Qed.

(** C1.  In every world (every value of the two DBE markers), for every
    ECC status, every prior-in-progress flag and every reset type, the
    block of lines 365-378 calls [bist_mem_init_start] if and only if ECC is
    on and one of the markers or the flag is set or the reset type is
    neither [WARM_RESET] nor [COLD_RESET]. *)
Theorem ecc_full_mem_init_decision (io96b_ctrl : io96b_info)
    (is_ddr_hang_be4_rst : bool) (reset_t : Z) (w : world) :
  In (full_init_call io96b_ctrl)
     (trace_since w (ecc_full_mem_init io96b_ctrl is_ddr_hang_be4_rst reset_t w))
  <->
  ecc_status io96b_ctrl = true /\
  (ocram_dbe w = true \/ dram_dbe w = true \/ is_ddr_hang_be4_rst = true \/
   (reset_t <> WARM_RESET /\ reset_t <> COLD_RESET)).
Proof.
  unfold ecc_full_mem_init, full_init_call.
  destruct (ecc_status io96b_ctrl).
  2: { unfold pure, trace_since. cbn. rewrite drop_all. cbn. intuition discriminate. }
  rewrite bind_eq, hps_ocram_dbe_status_eq, bind_eq, ddr_ecc_dbe_status_eq.
  assert (Hrst : negb ((reset_t =? WARM_RESET) || (reset_t =? COLD_RESET)) = true
                 <-> reset_t <> WARM_RESET /\ reset_t <> COLD_RESET).
  { destruct (Z.eqb_spec reset_t WARM_RESET), (Z.eqb_spec reset_t COLD_RESET);
      cbn; intuition congruence. }
  destruct (ocram_dbe w || dram_dbe w || is_ddr_hang_be4_rst
            || negb ((reset_t =? WARM_RESET) || (reset_t =? COLD_RESET))) eqn:Ecall.
  - assert (In (Call "bist_mem_init_start" (ArgCtrl io96b_ctrl))
               (trace_since w
                  ((early <-
                      (r <- call "bist_mem_init_start" (ArgCtrl io96b_ctrl)
                              (bist_mem_init_start io96b_ctrl) ;;
                       let ret := fst r in
                       if negb (ret =? 0)
                       then (printf "DDR: Failed to fully initialize DDR memory" [] ;;;
                             free ;;; pure (Some ret))
                       else pure None) ;;
                    match early with
                    | Some ret => pure (Some ret)
                    | None => printf "SDRAM-ECC: Initialized success" [] ;;; pure None
                    end) w))) as Hin.
    { unfold call, bind, emit, printf, free, pure, hang.
      destruct (bist_mem_init_start io96b_ctrl) as [[ret c]|]; cbn [fst].
      - destruct (negb (ret =? 0)); erewrite trace_since_app;
          try (cbn; rewrite <- ?app_assoc; reflexivity); cbn; auto.
      - erewrite trace_since_app;
          try (cbn; rewrite <- ?app_assoc; reflexivity); cbn; auto. }
    split; [intros _ | intros _; exact Hin].
    split; [reflexivity|].
    rewrite !orb_true_iff in Ecall. rewrite Hrst in Ecall. tauto.
  - rewrite !orb_false_iff in Ecall. destruct Ecall as [[[E1 E2] E3] E4].
    unfold bind, pure, printf, emit.
    erewrite trace_since_app by (cbn; reflexivity).
    rewrite E1, E2, E3. cbn [In].
    split.
    + intros [H|[]]. discriminate H.
    + intros [_ [H|[H|[H|H]]]]; try discriminate H.
      apply Hrst in H. congruence.
Qed.

(** *** Re-calibration *)

Lemma for_pure_clear_cal_status (n k : nat) (c : io96b_info) :
  (forall (i : nat) inst,
      (k <= i < k + n)%nat ->
      io96b (for_pure n k clear_cal_status c) !! i = Some inst ->
      cal_status inst = false) /\
  (forall i : nat,
      (i < k)%nat ->
      io96b (for_pure n k clear_cal_status c) !! i = io96b c !! i).
Proof.
  revert k c. induction n as [|n IH]; intros k c.
  - split; [intros i inst Hi; lia | reflexivity].
  - cbn [for_pure]. destruct (IH (S k) (clear_cal_status k c)) as [IH1 IH2].
    split.
    + intros i inst Hi Hl. destruct (decide (i = k)) as [->|Hne].
      * rewrite IH2 in Hl by lia. unfold clear_cal_status in Hl. cbn in Hl.
        rewrite list_lookup_alter_eq in Hl.
        destruct (io96b c !! k); [|discriminate Hl].
        inversion Hl. reflexivity.
      * apply (IH1 i inst); [lia | assumption].
    + intros i Hi. rewrite IH2 by lia. unfold clear_cal_status. cbn.
      apply list_lookup_alter_ne. lia.
Qed.

(** The re-calibration block of lines 265-279, in general.  The trigger
    policy is the one of the design: [trig_mem_cal] is called if
    and only if the DRAM double-bit-error marker is set or the aggregate
    calibration flag left by the initialisation is false.  When the marker
    is set the call receives a block in which the aggregate flag and the
    flag of every instance below [num_instance] are false; otherwise it
    receives the block unchanged.  What [trig_mem_cal] returns is however
    not examined, unlike the result of every query that follows it: if it
    returns, the block goes on with its result, whatever the return value,
    and no error leaves the block; if it does not return, neither does the
    driver. *)
Theorem recalibrate_policy (io96b_ctrl : io96b_info) (w : world) :
  ((exists c, In (recal_call c) (trace_since w (recalibrate io96b_ctrl w)))
   <-> (dram_dbe w = true \/ overall_cal_status io96b_ctrl = false)) /\
  (forall c,
      In (recal_call c) (trace_since w (recalibrate io96b_ctrl w)) ->
      (dram_dbe w = true ->
       overall_cal_status c = false /\
       forall (i : nat) inst,
         (i < num_instance io96b_ctrl)%nat ->
         io96b c !! i = Some inst -> cal_status inst = false) /\
      (dram_dbe w = false -> c = io96b_ctrl) /\
      match trig_mem_cal c with
      | Some (r, c') => exists w', recalibrate io96b_ctrl w = Ret c' w'
      | None => exists w', recalibrate io96b_ctrl w = Hang w'
      end) /\
  ((forall c, ~ In (recal_call c) (trace_since w (recalibrate io96b_ctrl w))) ->
   exists w', recalibrate io96b_ctrl w = Ret io96b_ctrl w').
Proof.
  unfold recalibrate, recal_call.
  rewrite bind_eq, ddr_ecc_dbe_status_eq.
  destruct (dram_dbe w) eqn:Edbe.
  - set (c1 := set_overall_cal_status false
                 (for_pure (num_instance io96b_ctrl) 0 clear_cal_status io96b_ctrl)).
    change (overall_cal_status c1) with false. cbn [negb].
    assert (Hin : forall c,
               In (Call "trig_mem_cal" (ArgCtrl c))
                  (trace_since w
                     ((io96b_ctrl0 <-
                         (printf "DDR: Re-calibration in progress..." [] ;;;
                          r <- call "trig_mem_cal" (ArgCtrl c1) (trig_mem_cal c1) ;;
                          pure (snd r)) ;;
                       printf "DDR: Calibration success" [] ;;;
                       pure io96b_ctrl0) w)) <-> c = c1).
    { intros c. unfold bind, printf, call, emit, pure, hang.
      destruct (trig_mem_cal c1) as [[r c']|]; cbn [snd];
        erewrite trace_since_app
          by (cbn; rewrite <- ?app_assoc; reflexivity);
        cbn [In app]; split;
        try (intros [H|[H|[H|[]]]]; (discriminate H || (inversion H; reflexivity)));
        try (intros [H|[H|[]]]; (discriminate H || (inversion H; reflexivity)));
        intros ->; auto. }
    split; [|split].
    + split; [intros _; left; reflexivity | intros _; exists c1; apply Hin; reflexivity].
    + intros c Hc. apply Hin in Hc. subst c.
      split; [|split].
      * intros _. split; [reflexivity|].
        intros i inst Hi Hl. unfold c1 in Hl. cbn in Hl.
        destruct (for_pure_clear_cal_status (num_instance io96b_ctrl) 0 io96b_ctrl)
          as [H1 _].
        apply (H1 i inst); [lia | assumption].
      * intros H; discriminate H.
      * unfold bind, printf, call, emit, pure, hang.
        destruct (trig_mem_cal c1) as [[r c']|]; cbn [snd]; eexists; reflexivity.
    + intros Hno. exfalso. apply (Hno c1). apply Hin. reflexivity.
  - destruct (overall_cal_status io96b_ctrl) eqn:Ecal; cbn [negb].
    + assert (Hin : forall c,
                 ~ In (Call "trig_mem_cal" (ArgCtrl c))
                      (trace_since w
                         ((io96b_ctrl0 <- pure io96b_ctrl ;;
                           printf "DDR: Calibration success" [] ;;;
                           pure io96b_ctrl0) w))).
      { intros c. unfold bind, printf, emit, pure.
        erewrite trace_since_app by (cbn; reflexivity).
        cbn [In]. intros [H|[]]. discriminate H. }
      split; [|split].
      * split; [intros [c Hc]; destruct (Hin c Hc) | intros [H|H]; discriminate H].
      * intros c Hc. destruct (Hin c Hc).
      * intros _. unfold bind, printf, emit, pure. eexists; reflexivity.
    + assert (Hin : forall c,
                 In (Call "trig_mem_cal" (ArgCtrl c))
                    (trace_since w
                       ((io96b_ctrl0 <-
                           (printf "DDR: Re-calibration in progress..." [] ;;;
                            r <- call "trig_mem_cal" (ArgCtrl io96b_ctrl)
                                   (trig_mem_cal io96b_ctrl) ;;
                            pure (snd r)) ;;
                         printf "DDR: Calibration success" [] ;;;
                         pure io96b_ctrl0) w)) <-> c = io96b_ctrl).
      { intros c. unfold bind, printf, call, emit, pure, hang.
        destruct (trig_mem_cal io96b_ctrl) as [[r c']|]; cbn [snd];
          erewrite trace_since_app
            by (cbn; rewrite <- ?app_assoc; reflexivity);
          cbn [In app]; split;
          try (intros [H|[H|[H|[]]]]; (discriminate H || (inversion H; reflexivity)));
          try (intros [H|[H|[]]]; (discriminate H || (inversion H; reflexivity)));
          intros ->; auto. }
      split; [|split].
      * split; [intros _; right; reflexivity
               | intros _; exists io96b_ctrl; apply Hin; reflexivity].
      * intros c Hc. apply Hin in Hc. subst c.
        split; [|split].
        -- intros H; discriminate H.
        -- reflexivity.
        -- unfold bind, printf, call, emit, pure, hang.
           destruct (trig_mem_cal io96b_ctrl) as [[r c']|]; cbn [snd];
             eexists; reflexivity.
      * intros Hno. exfalso. apply (Hno io96b_ctrl). apply Hin. reflexivity.
Qed.

(** *** Geometry *)

Lemma sumZ_cons (x : Z) (l : list Z) : sumZ (x :: l) = x + sumZ l.
Proof. reflexivity. Qed.

Lemma sumZ_nonneg (l : list Z) : Forall (fun c => 0 <= c) l -> 0 <= sumZ l.
Proof.
  induction 1 as [|x l Hx Hl IH]; [cbn; lia | rewrite sumZ_cons; lia].
Qed.

Lemma spec_partition_sum (r : Z) (caps : list Z) :
  0 <= r -> Forall (fun c => 0 <= c) caps ->
  sumZ (spec_partition r caps) = Z.min r (sumZ caps).
Proof.
  intros Hr Hcaps. revert r Hr.
  induction Hcaps as [|cap rest Hcap Hrest IH]; intros r Hr.
  - cbn. lia.
  - pose proof (sumZ_nonneg rest Hrest).
    cbn [spec_partition]. rewrite sumZ_cons.
    destruct (Z.geb_spec cap r).
    + rewrite sumZ_cons. cbn. lia.
    + rewrite sumZ_cons, IH by lia. lia.
Qed.

Lemma spec_partition_length (r : Z) (caps : list Z) :
  (length (spec_partition r caps) <= length caps)%nat.
Proof.
  revert r. induction caps as [|cap rest IH]; intros r; cbn; [lia|].
  destruct (cap >=? r); cbn; [lia|]. specialize (IH (r - Z.min r cap)). lia.
Qed.

Lemma spec_partition_bound (r : Z) (caps : list Z) (j : nat) (size : Z) :
  0 <= r -> Forall (fun c => 0 <= c) caps ->
  spec_partition r caps !! j = Some size ->
  exists cap, caps !! j = Some cap /\ 0 <= size <= cap.
Proof.
  intros Hr Hcaps. revert r Hr j.
  induction Hcaps as [|cap rest Hcap Hrest IH]; intros r Hr j Hj.
  - discriminate Hj.
  - cbn [spec_partition] in Hj. destruct (Z.geb_spec cap r).
    + destruct j as [|j]; [|discriminate Hj].
      inversion Hj. exists cap. split; [reflexivity | lia].
    + destruct j as [|j].
      * inversion Hj. exists cap. split; [reflexivity | lia].
      * apply (IH (r - Z.min r cap)); [lia | exact Hj].
Qed.

Lemma dram_bank_info_nonneg :
  Forall (fun c => 0 <= c) (max_size <$> dram_bank_info).
Proof. repeat constructor; cbn; lia. Qed.

Lemma wrap64_small (x : Z) : 0 <= x < 2 ^ 64 -> wrap64 x = x.
Proof. intros. unfold wrap64. apply Z.mod_small. assumption. Qed.

(** The loop of lines 333-348 assigns what the specification's partition
    says, bank by bank, and touches no other entry. *)
Lemma fill_banks_spec (n i : nat) (hw_size size_counter : Z)
    (bd : bd_info) (w : world) :
  0 <= size_counter <= hw_size -> hw_size < 2 ^ 64 ->
  (i + n <= length dram_bank_info)%nat ->
  let sizes :=
    spec_partition (hw_size - size_counter)
      (max_size <$> take n (drop i dram_bank_info)) in
  exists bd' w',
    fill_banks n i hw_size size_counter bd w = Ret bd' w' /\
    set_console (console w) w' = w /\
    (forall (j : nat) size,
        sizes !! j = Some size -> (i + j < length bd)%nat ->
        exists bank, dram_bank_info !! (i + j)%nat = Some bank /\
                     bd' !! (i + j)%nat = Some (mk_dram_bank (start bank) size)) /\
    (forall k : nat,
        (k < i \/ i + length sizes <= k)%nat -> bd' !! k = bd !! k).
Proof.
  revert i size_counter bd w. induction n as [|n IH];
    intros i size_counter bd w Hc Hhw Hlen sizes.
  - exists bd, w. subst sizes. cbn. repeat split.
    + destruct w; reflexivity.
    + intros j size Hj. discriminate Hj.
  - destruct (lookup_lt_is_Some_2 dram_bank_info i) as [bank Hbank]; [lia|].
    assert (Hcap : 0 <= max_size bank).
    { pose proof dram_bank_info_nonneg as HF.
      rewrite Forall_fmap in HF.
      rewrite Forall_lookup in HF. apply (HF i bank Hbank). }
    subst sizes. rewrite (drop_S _ _ _ Hbank). cbn [take fmap list_fmap spec_partition].
    cbn [fill_banks]. rewrite Hbank. cbn [default from_option id].
    rewrite (wrap64_small (hw_size - size_counter)) by lia.
    destruct (Z.leb_spec (hw_size - size_counter) (max_size bank)) as [Hfit|Hfit].
    + destruct (Z.geb_spec (max_size bank) (hw_size - size_counter)); [|lia].
      rewrite Z.min_l by lia.
      unfold bind, debug, emit, pure. eexists _, _. split; [reflexivity|].
      repeat split.
      * destruct w; reflexivity.
      * intros j size Hj Hjlen. destruct j as [|j]; [|discriminate Hj].
        inversion Hj; subst size. rewrite Nat.add_0_r in *.
        exists bank. split; [assumption|].
        apply list_lookup_insert_eq. assumption.
      * intros k Hk. cbn in Hk. apply list_lookup_insert_ne. lia.
    + destruct (Z.geb_spec (max_size bank) (hw_size - size_counter)); [lia|].
      rewrite Z.min_r by lia.
      unfold bind at 1. unfold debug at 1, emit at 1.
      rewrite (wrap64_small (size_counter + max_size bank)) by lia.
      match goal with
      | |- context [fill_banks n (S i) hw_size _ ?bd1 ?w1] =>
          destruct (IH (S i) (size_counter + max_size bank) bd1 w1)
            as (bd' & w' & E & Hw & Hset & Hframe); [lia | lia | cbn in *; lia |]
      end.
      rewrite E. exists bd', w'. split; [reflexivity|].
      replace (hw_size - (size_counter + max_size bank))
        with (hw_size - size_counter - max_size bank) in * by lia.
      repeat split.
      * destruct w, w'; unfold set_console in *; cbn in *. congruence.
      * intros j size Hj Hjlen. destruct j as [|j].
        -- inversion Hj; subst size. rewrite Nat.add_0_r in *.
           exists bank. split; [assumption|].
           rewrite Hframe by lia.
           apply list_lookup_insert_eq. assumption.
        -- cbn in Hj. replace (i + S j)%nat with (S i + j)%nat by lia.
           apply Hset; [exact Hj|]. rewrite length_insert. lia.
      * intros k Hk. cbn [length] in Hk. rewrite Hframe by lia.
        apply list_lookup_insert_ne. lia.
Qed.

Lemma banks_in_use_nonneg : Forall (fun c => 0 <= c) (max_size <$> banks_in_use).
Proof.
  unfold banks_in_use. rewrite fmap_take. apply Forall_take, dram_bank_info_nonneg.
Qed.

(** C2, as the code has it.  With a declared size of 0 and a hardware size
    above 0, lines 320-351 assign, in table order, the sizes the
    specification's partition gives for the banks in use (min(remaining,
    capacity) each, stopping at the first bank that holds the remainder),
    each with the start address of its bank and none above the capacity of
    its bank; the entries after them are left alone; the resolved total size
    is the hardware size.  The assigned sizes sum to the smaller of the
    hardware size and the capacity of the banks in use: exactly to the
    hardware size when it fits into these banks. *)
Theorem resolve_geometry_auto_partition (hw_size : Z) (bd : bd_info) (w : world) :
  gd_ram_size w = 0 -> 0 < hw_size < 2 ^ 64 ->
  length bd = CONFIG_NR_DRAM_BANKS ->
  let sizes := spec_partition hw_size (max_size <$> banks_in_use) in
  exists bd' w',
    resolve_geometry hw_size bd w = Ret bd' w' /\
    gd_ram_size w' = hw_size /\
    (forall (j : nat) size,
        sizes !! j = Some size ->
        exists bank, dram_bank_info !! j = Some bank /\
                     bd' !! j = Some (mk_dram_bank (start bank) size) /\
                     0 <= size <= max_size bank) /\
    (forall k : nat, (length sizes <= k)%nat -> bd' !! k = bd !! k) /\
    sumZ sizes = Z.min hw_size (sumZ (max_size <$> banks_in_use)) /\
    (hw_size <= sumZ (max_size <$> banks_in_use) -> sumZ sizes = hw_size).
Proof.
  intros Hram Hhw Hlen sizes.
  assert (Hsum : sumZ sizes = Z.min hw_size (sumZ (max_size <$> banks_in_use))).
  { apply spec_partition_sum; [lia | apply banks_in_use_nonneg]. }
  assert (Hloop : forall w1 : world,
             exists bd' w',
               fill_banks (Nat.min CONFIG_NR_DRAM_BANKS MEMORY_BANK_MAX_COUNT) 0
                 hw_size 0 bd w1 = Ret bd' w' /\
               set_console (console w1) w' = w1 /\
               (forall (j : nat) size,
                   sizes !! j = Some size ->
                   exists bank, dram_bank_info !! j = Some bank /\
                                bd' !! j = Some (mk_dram_bank (start bank) size) /\
                                0 <= size <= max_size bank) /\
               (forall k : nat, (length sizes <= k)%nat -> bd' !! k = bd !! k)).
  { intros w1.
    destruct (fill_banks_spec (Nat.min CONFIG_NR_DRAM_BANKS MEMORY_BANK_MAX_COUNT)
                0 hw_size 0 bd w1) as (bd' & w' & E & Hw & Hset & Hframe);
      [lia | lia | cbn; unfold MEMORY_BANK_MAX_COUNT; lia |].
    rewrite Z.sub_0_r in *. cbn [drop] in *. fold banks_in_use in *.
    fold sizes in Hset, Hframe.
    exists bd', w'. split; [exact E|]. split; [exact Hw|]. split.
    - intros j size H.
      pose proof (spec_partition_length hw_size (max_size <$> banks_in_use)) as Hl.
      fold sizes in Hl. rewrite length_fmap in Hl.
      unfold banks_in_use in Hl. rewrite length_take in Hl.
      apply lookup_lt_Some in H as Hj.
      destruct (Hset j size H) as (bank & Hb & Hbd); [cbn; lia|].
      cbn in Hb, Hbd. exists bank. split; [exact Hb|]. split; [exact Hbd|].
      destruct (spec_partition_bound hw_size (max_size <$> banks_in_use) j size)
        as (cap & Hcap & Hle); [lia | apply banks_in_use_nonneg | exact H |].
      rewrite list_lookup_fmap in Hcap. unfold banks_in_use in Hcap.
      rewrite lookup_take_lt in Hcap by lia. rewrite Hb in Hcap.
      inversion Hcap. lia.
    - intros k Hk. apply Hframe. right. cbn. exact Hk. }
  unfold resolve_geometry.
  rewrite bind_eq. unfold gets at 1. rewrite Hram.
  change (0 <? 0) with false. cbn [andb].
  rewrite bind_eq. unfold pure at 1.
  destruct (Z.ltb_spec hw_size 0) as [?|_]; [lia|].
  rewrite bind_eq. unfold pure at 1.
  change (0 =? 0) with true. cbn [andb].
  destruct (Z.ltb_spec 0 hw_size) as [_|?]; [|lia].
  rewrite bind_eq.
  destruct (Nat.ltb_spec MEMORY_BANK_MAX_COUNT CONFIG_NR_DRAM_BANKS) as [Hnr|Hnr].
  - unfold bind at 1, printf at 1, emit at 1.
    unfold bind at 1, printf at 1, emit at 1. unfold pure at 1.
    rewrite bind_eq.
    rewrite Nat.min_r in Hloop by lia.
    match goal with
    | |- context [fill_banks _ 0%nat hw_size 0 bd ?w1] =>
        destruct (Hloop w1) as (bd' & w' & E & Hw & Hset & Hframe); rewrite E
    end.
    exists bd'. eexists. unfold bind, modify, pure. split; [reflexivity|].
    split; [reflexivity|]. split; [exact Hset|]. split; [exact Hframe|].
    split; [exact Hsum | intros; lia].
  - unfold pure at 1. rewrite bind_eq.
    rewrite Nat.min_l in Hloop by lia.
    destruct (Hloop w) as (bd' & w' & E & Hw & Hset & Hframe); rewrite E.
    exists bd'. eexists. unfold bind, modify, pure. split; [reflexivity|].
    split; [reflexivity|]. split; [exact Hset|]. split; [exact Hframe|].
    split; [exact Hsum | intros; lia].
Qed.

(** C6.  When the declared size is above 0, at most the hardware size and
    different from it, lines 307-351 print the mismatch warning with both
    sizes (in MiB), and return: no error, the bank layout of the device
    tree and the declared size as [gd->ram_size], nothing else changed. *)
Theorem resolve_geometry_declared_below_hardware (hw_size : Z) (bd : bd_info)
    (w : world) :
  0 < gd_ram_size w -> gd_ram_size w <= hw_size -> gd_ram_size w <> hw_size ->
  exists w',
    resolve_geometry hw_size bd w = Ret bd w' /\
    gd_ram_size w' = gd_ram_size w /\
    trace_since w (resolve_geometry hw_size bd w)
    = [ Printf "DDR: Warning: DRAM size from device tree (%lld MiB)"
          [Z.shiftr (gd_ram_size w) 20];
        Printf " mismatch with hardware (%lld MiB)." [Z.shiftr hw_size 20] ] /\
    set_console (console w) w' = w.
Proof.
  intros Hpos Hle Hne.
  assert (E : resolve_geometry hw_size bd w
              = Ret bd
                  (set_console
                     (console w ++
                      [ Printf "DDR: Warning: DRAM size from device tree (%lld MiB)"
                          [Z.shiftr (gd_ram_size w) 20];
                        Printf " mismatch with hardware (%lld MiB)."
                          [Z.shiftr hw_size 20] ]) w)).
  { unfold resolve_geometry. rewrite bind_eq. unfold gets at 1.
    destruct (Z.ltb_spec 0 (gd_ram_size w)) as [_|?]; [|lia].
    destruct (Z.eqb_spec (gd_ram_size w) hw_size) as [?|_]; [lia|].
    destruct (Z.ltb_spec hw_size (gd_ram_size w)) as [?|_]; [lia|].
    destruct (Z.eqb_spec (gd_ram_size w) 0) as [?|_]; [lia|].
    cbn [andb negb]. unfold bind, printf, emit, pure, set_console. cbn.
    rewrite <- app_assoc. reflexivity. }
  rewrite E. eexists. split; [reflexivity|]. split; [reflexivity|]. split.
  - apply trace_since_app. reflexivity.
  - destruct w; reflexivity.
Qed.

(** C3, as the code has it.  When the declared size is above the hardware
    size, lines 307-318 print the error and end in [hang()]: whatever code
    follows the block is not run and nothing is returned to the caller.  No
    bank is assigned: the console shows the mismatch warning and the error
    and no bank line, and nothing but the console has changed. *)
Theorem resolve_geometry_exceeds_hardware {B : Type} (hw_size : Z)
    (bd : bd_info) (w : world) (k : bd_info -> M B) :
  0 <= hw_size -> hw_size < gd_ram_size w ->
  exists w',
    (bd' <- resolve_geometry hw_size bd ;; k bd') w = Hang w' /\
    resolve_geometry hw_size bd w = Hang w' /\
    console w'
    = console w ++
      [ Printf "DDR: Warning: DRAM size from device tree (%lld MiB)"
          [Z.shiftr (gd_ram_size w) 20];
        Printf " mismatch with hardware (%lld MiB)." [Z.shiftr hw_size 20];
        Printf "DDR: Error: DRAM size from device tree is greater" [];
        Printf " than hardware size." [] ] /\
    set_console (console w) w' = w.
Proof.
  intros Hpos Hlt.
  assert (E : resolve_geometry hw_size bd w
              = Hang
                  (set_console
                     (console w ++
                      [ Printf "DDR: Warning: DRAM size from device tree (%lld MiB)"
                          [Z.shiftr (gd_ram_size w) 20];
                        Printf " mismatch with hardware (%lld MiB)."
                          [Z.shiftr hw_size 20];
                        Printf "DDR: Error: DRAM size from device tree is greater" [];
                        Printf " than hardware size." [] ]) w)).
  { unfold resolve_geometry. rewrite bind_eq. unfold gets at 1.
    destruct (Z.ltb_spec 0 (gd_ram_size w)) as [_|?]; [|lia].
    destruct (Z.eqb_spec (gd_ram_size w) hw_size) as [?|_]; [lia|].
    destruct (Z.ltb_spec hw_size (gd_ram_size w)) as [_|?]; [|lia].
    cbn [andb negb]. unfold bind, printf, emit, pure, hang, set_console. cbn.
    rewrite <- !app_assoc. reflexivity. }
  rewrite bind_eq, E. eexists. split; [reflexivity|]. split; [reflexivity|].
  split; [reflexivity | destruct w; reflexivity].
Qed.

(** *** The progress marker across a run *)

Lemma triple_bind {A B} Pre (m : M A) (k : A -> M B) Q1 Q H :
  triple Pre m Q1 H -> (forall a, triple (Q1 a) (k a) Q H) ->
  triple Pre (bind m k) Q H.
Proof.
  intros Hm Hk w Hw. unfold bind. specialize (Hm w Hw).
  destruct (m w) as [a w'|w']; [apply (Hk a w' Hm) | exact Hm].
Qed.

Lemma triple_post {A} Pre (m : M A) (Q Q' : A -> world -> Prop) H :
  triple Pre m Q H -> (forall a w, Q a w -> Q' a w) -> triple Pre m Q' H.
Proof.
  intros Hm HQ w Hw. specialize (Hm w Hw).
  destruct (m w); [apply HQ|]; assumption.
Qed.

Lemma marker_mmio (w w' : world) : mmio w' = mmio w -> marker w' = marker w.
Proof. intros E. unfold marker, peek. rewrite E. reflexivity. Qed.

Lemma keeps_bind {A B} (m : M A) (k : A -> M B) :
  keeps m -> (forall a, keeps (k a)) -> keeps (bind m k).
Proof. intros Hm Hk. eapply triple_bind; [exact Hm | exact Hk]. Qed.

Lemma keeps_pure {A} (a : A) : keeps (pure a).
Proof. intros w Hw. exact Hw. Qed.

Lemma keeps_hang {A} : keeps (@hang A).
Proof. intros w Hw. exact Hw. Qed.

Lemma keeps_gets {A} (f : world -> A) : keeps (gets f).
Proof. intros w Hw. exact Hw. Qed.

Lemma keeps_readl (a : Z) : keeps (readl a).
Proof. intros w Hw. exact Hw. Qed.

Lemma keeps_modify (f : world -> world) :
  (forall w, mmio (f w) = mmio w) -> keeps (modify f).
Proof.
  intros Hf w Hw. unfold modify, marked. rewrite (marker_mmio w (f w) (Hf w)).
  exact Hw.
Qed.

Lemma keeps_emit (e : event) : keeps (emit e).
Proof. intros w Hw. exact Hw. Qed.

Lemma keeps_call {A} (fn : string) (arg : call_arg) (r : option A) :
  keeps (call fn arg r).
Proof.
  unfold call. apply keeps_bind; [apply keeps_emit|].
  intros _. destruct r; [apply keeps_pure | apply keeps_hang].
Qed.

Lemma land_lor_nonzero (p s m : Z) :
  Z.land (wrap32 p) m <> 0 -> Z.land (wrap32 (Z.lor (wrap32 p) s)) m <> 0.
Proof.
  intros Hp Hz. apply Hp. apply Z.bits_inj'. intros i Hi.
  rewrite Z.bits_0, Z.land_spec.
  destruct (Z.testbit (wrap32 p) i) eqn:Ep; [|reflexivity].
  assert (Hb : Z.testbit (Z.land (wrap32 (Z.lor (wrap32 p) s)) m) i = false)
    by (rewrite Hz; apply Z.bits_0).
  rewrite Z.land_spec, testbit_wrap32, Z.lor_spec, Ep in Hb by assumption.
  rewrite testbit_wrap32 in Ep by assumption.
  apply andb_true_iff in Ep as [E32 _]. rewrite E32 in Hb. exact Hb.
Qed.

Lemma keeps_setbits_le32 (a s : Z) : keeps (setbits_le32 a s).
Proof.
  intros w Hw. rewrite setbits_le32_eq. unfold marked, marker in *.
  destruct (decide (a = POR0)) as [->|Hne].
  - rewrite peek_set_mmio_same.
    apply negb_true_iff, Z.eqb_neq. apply negb_true_iff, Z.eqb_neq in Hw.
    unfold peek in *. apply land_lor_nonzero. exact Hw.
  - rewrite peek_set_mmio_other by assumption. exact Hw.
Qed.

Ltac keeps_step :=
  first
    [ apply keeps_pure | apply keeps_hang | apply keeps_gets | apply keeps_readl
    | apply keeps_emit | apply keeps_call | apply keeps_setbits_le32
    | apply keeps_modify; intros []; reflexivity
    | apply keeps_bind; [|intros ?]
    | match goal with
      | |- keeps (if ?b then _ else _) => destruct b
      | |- keeps (match ?o with Some _ => _ | None => _ end) => destruct o
      | |- keeps (let _ := _ in _) => cbv zeta
      end ].

Ltac keeps_auto :=
  unfold printf, puts, debug, free, malloc; repeat keeps_step.

Lemma keeps_for_loop {S : Type} (n i : nat) (body : nat -> S -> M S) (s : S) :
  (forall j x, keeps (body j x)) -> keeps (for_loop n i body s).
Proof.
  intros Hbody. revert i s. induction n as [|n IH]; intros i s; cbn [for_loop].
  - apply keeps_pure.
  - apply keeps_bind; [apply Hbody | intros s'; apply IH].
Qed.

Lemma keeps_populate_ddr_handoff (c : io96b_info) : keeps (populate_ddr_handoff c).
Proof.
  unfold populate_ddr_handoff. keeps_auto;
    try (apply keeps_for_loop; intros j x; unfold assign_io96b_csr_addr);
    keeps_auto.
Qed.

Lemma keeps_set_mpfe_config : keeps set_mpfe_config.
Proof. unfold set_mpfe_config. keeps_auto. Qed.

Lemma keeps_config_mpfe_sideband_mgr : keeps config_mpfe_sideband_mgr.
Proof.
  unfold config_mpfe_sideband_mgr. keeps_auto; try apply keeps_set_mpfe_config.
Qed.

Lemma keeps_config_ccu_mgr : keeps config_ccu_mgr.
Proof. unfold config_ccu_mgr. keeps_auto. Qed.

Lemma keeps_ddr_ecc_dbe_status : keeps ddr_ecc_dbe_status.
Proof. unfold ddr_ecc_dbe_status. keeps_auto. Qed.

Lemma keeps_hps_ocram_dbe_status : keeps hps_ocram_dbe_status.
Proof. unfold hps_ocram_dbe_status. keeps_auto. Qed.

Lemma keeps_recalibrate (c : io96b_info) : keeps (recalibrate c).
Proof.
  unfold recalibrate. apply keeps_bind; [apply keeps_ddr_ecc_dbe_status|].
  intros dbe. keeps_auto.
Qed.

Lemma keeps_fill_banks (n i : nat) (hw sc : Z) (bd : bd_info) :
  keeps (fill_banks n i hw sc bd).
Proof.
  revert i sc bd. induction n as [|n IH]; intros i sc bd; cbn [fill_banks].
  - apply keeps_pure.
  - cbv zeta. destruct (_ <=? _); keeps_auto; try apply IH.
Qed.

Lemma keeps_resolve_geometry (hw : Z) (bd : bd_info) :
  keeps (resolve_geometry hw bd).
Proof. unfold resolve_geometry. keeps_auto; try apply keeps_fill_banks. Qed.

(** The block of lines 365-378 keeps the marker, and a return from inside
    it carries a value other than 0. *)
Lemma ecc_full_mem_init_marker (c : io96b_info) (h : bool) (t : Z) :
  triple marked (ecc_full_mem_init c h t)
    (fun early w => marked w /\ forall ret, early = Some ret -> ret <> 0)
    marked.
Proof.
  unfold ecc_full_mem_init. destruct (ecc_status c).
  2: { intros w Hw. split; [exact Hw | intros ret E; discriminate E]. }
  eapply triple_bind; [apply keeps_hps_ocram_dbe_status|]. intros ocram.
  eapply triple_bind; [apply keeps_ddr_ecc_dbe_status|]. intros dram.
  cbv zeta.
  eapply triple_bind with
    (Q1 := fun early w => marked w /\ forall ret, early = Some ret -> ret <> 0).
  - destruct (_ || _).
    + eapply triple_bind; [apply keeps_call|]. intros r.
      destruct (Z.eqb_spec (fst r) 0) as [E0|E0]; cbn [negb].
      * intros w Hw. split; [exact Hw | intros ret E; discriminate E].
      * eapply triple_bind; [apply keeps_emit|]. intros ?.
        eapply triple_bind; [apply keeps_emit|]. intros ?.
        intros w Hw. split; [exact Hw|]. intros ret E. inversion E. congruence.
    + intros w Hw. split; [exact Hw | intros ret E; discriminate E].
  - intros [ret|].
    + intros w [Hw Hret]. split; [exact Hw|].
      intros ret' E. apply Hret. exact E.
    + eapply triple_bind with (Q1 := fun _ => marked).
      * intros w [Hw _]. exact Hw.
      * intros ? w Hw. split; [exact Hw | intros ret E; discriminate E].
Qed.

Lemma marker_cleared (v : Z) (m : gmap Z Z) (w : world) :
  marker
    (set_mmio
       (<[POR0 := wrap32 (Z.land v (Z.lnot ALT_SYSMGR_SCRATCH_REG_POR_0_DDR_PROGRESS_MASK))]> m)
       w) = false.
Proof.
  unfold marker, peek. cbn [mmio set_mmio]. rewrite lookup_insert_eq.
  cbn [default from_option id]. rewrite wrap32_idem, land_clear_mask.
  reflexivity.
Qed.

Lemma finish_init_marker (bd : bd_info) :
  triple marked (finish_init bd) (fun ret w => ret = 0 /\ marker w = false) marked.
Proof.
  unfold finish_init.
  eapply triple_bind; [apply keeps_call|]; intros ?.
  eapply triple_bind; [apply keeps_emit|]; intros ?.
  eapply triple_bind; [apply keeps_call|]; intros ?.
  intros w _.
  cbv beta iota delta [bind writel printf emit gets modify pure free
                       ddr_init_inprogress clrbits_le32 readl].
  split; [reflexivity|].
  fold POR0.
  erewrite marker_mmio; [|reflexivity].
  erewrite marker_mmio; [|reflexivity].
  apply marker_cleared.
Qed.

Lemma error_exit_marker (m1 m2 : M unit) (ret : Z) :
  keeps m1 -> keeps m2 -> ret <> 0 ->
  triple marked (m1 ;;; m2 ;;; pure ret) run_end marked.
Proof.
  intros H1 H2 Hret.
  eapply triple_bind; [exact H1|]; intros ?.
  eapply triple_bind; [exact H2|]; intros ?.
  intros w Hw. right. split; assumption.
Qed.

Ltac run_step lem := eapply triple_bind; [apply lem|]; intros ?.

Ltac ret_check :=
  match goal with
  | |- triple _ (if negb (?r =? 0) then _ else _) _ _ =>
      destruct (Z.eqb_spec r 0); cbn [negb];
      [ | apply error_exit_marker; [apply keeps_emit | apply keeps_emit | assumption] ]
  end.

Lemma after_handoff_marker (c : io96b_info) (h : bool) (t : Z) :
  ENXIO <> 0 -> triple marked (after_handoff c h t) run_end marked.
Proof.
  intros Henxio. unfold after_handoff.
  run_step keeps_config_mpfe_sideband_mgr. ret_check.
  run_step keeps_config_ccu_mgr.
  cbv zeta.
  run_step @keeps_call. run_step @keeps_call.
  run_step keeps_recalibrate.
  run_step @keeps_call. ret_check.
  run_step @keeps_call. ret_check.
  run_step @keeps_gets.
  run_step @keeps_call.
  eapply triple_bind; [apply keeps_modify; intros []; reflexivity|]; intros ?.
  match goal with
  | |- triple _ (if negb (?r =? 0) then _ else _) _ _ =>
      destruct (Z.eqb_spec r 0); cbn [negb];
      [ | apply error_exit_marker; [apply keeps_emit | apply keeps_emit | lia] ]
  end.
  run_step keeps_resolve_geometry.
  run_step @keeps_gets.
  run_step keeps_emit.
  run_step @keeps_call. ret_check.
  eapply triple_bind; [apply ecc_full_mem_init_marker|]. intros [ret|].
  - intros w [Hw Hret]. right. split; [apply Hret; reflexivity | exact Hw].
  - eapply triple_post.
    + intros w [Hw _]. apply (finish_init_marker _ w Hw).
    + intros ret w [H0 Hm]. left. split; assumption.
Qed.

Lemma populate_ddr_handoff_ret (c : io96b_info) (w : world) :
  match populate_ddr_handoff c w with
  | Ret r _ => fst r = 0
  | Hang _ =>
      socfpga_handoff_read SOC64_HANDOFF_SDRAM SOC64_HANDOFF_SDRAM_LEN = None
  end.
Proof.
  unfold populate_ddr_handoff.
  rewrite bind_eq. unfold call at 1. rewrite bind_eq. unfold emit at 1.
  destruct (socfpga_handoff_read _ _) as [r|]; [|reflexivity].
  unfold pure at 1. cbv zeta.
  unfold bind, modify, debug, emit.
  match goal with
  | |- context [for_loop ?n 0%nat _ ?c1 ?w1] =>
      destruct (for_loop_assign_csr n 0%nat c1 w1)
        as (c' & w' & E & _); rewrite E
  end.
  reflexivity.
Qed.

Lemma bring_up_marker (c : io96b_info) (h : bool) (t : Z) :
  ENXIO <> 0 -> triple marked (bring_up c h t) run_end marked.
Proof.
  intros Henxio. unfold bring_up.
  run_step @keeps_gets.
  run_step keeps_emit. run_step keeps_emit.
  run_step keeps_populate_ddr_handoff. cbv zeta. ret_check.
  apply after_handoff_marker. assumption.
Qed.

Lemma ddr_init_inprogress_true_marked (w : world) :
  0 < ALT_SYSMGR_SCRATCH_REG_POR_0_DDR_PROGRESS_MASK < 2 ^ 32 ->
  exists w', ddr_init_inprogress true w = Ret tt w' /\ marker w' = true.
Proof.
  intros Hm. cbn [ddr_init_inprogress]. fold POR0. rewrite setbits_le32_eq.
  eexists. split; [reflexivity|].
  unfold marker. rewrite peek_set_mmio_same, land_set_mask by lia.
  destruct (Z.eqb_spec ALT_SYSMGR_SCRATCH_REG_POR_0_DDR_PROGRESS_MASK 0);
    [lia | reflexivity].
Qed.

(** C4.  In every run of [sdram_mmr_init_full] the progress marker is set
    before the handoff is read: the run is [bring_up] started in a world
    where [is_ddr_init_hang] holds, with the marker of the previous run and
    the reset type read beforehand.  If the run hangs, or returns a value
    other than 0, the marker is still set; if it returns 0 the marker is
    cleared.  So after a run that returns, the marker is clear exactly when
    the value is 0. *)
Theorem sdram_mmr_init_full_marker (io96b_ctrl : io96b_info) (w : world) :
  0 < ALT_SYSMGR_SCRATCH_REG_POR_0_DDR_PROGRESS_MASK < 2 ^ 32 ->
  ENXIO <> 0 ->
  (exists w1,
      marker w1 = true /\
      sdram_mmr_init_full io96b_ctrl w
      = bring_up io96b_ctrl (marker w) (get_reset_type (peek COLD3 w)) w1) /\
  match sdram_mmr_init_full io96b_ctrl w with
  | Ret ret w' => (ret = 0 <-> marker w' = false) /\ (ret <> 0 <-> marker w' = true)
  | Hang w' => marker w' = true
  end.
Proof.
  intros Hmask Henxio.
  set (w0 := set_console (console w ++ [Call "malloc" ArgNone]) w).
  set (w1 := set_console (console w0 ++ [Debug "DDR: SDRAM init in progress ..." []]) w0).
  destruct (ddr_init_inprogress_true_marked w1 Hmask) as (w2 & Eset & Hw2).
  assert (E : sdram_mmr_init_full io96b_ctrl w
              = bring_up io96b_ctrl (marker w) (get_reset_type (peek COLD3 w)) w2).
  { unfold sdram_mmr_init_full.
    rewrite bind_eq. unfold malloc, emit at 1. fold w0.
    rewrite bind_eq. unfold readl at 1.
    rewrite bind_eq, is_ddr_init_hang_eq.
    rewrite bind_eq. unfold debug, emit at 1. fold w1.
    rewrite bind_eq, Eset. reflexivity. }
  split; [exists w2; split; assumption|].
  rewrite E. pose proof (bring_up_marker io96b_ctrl (marker w)
                           (get_reset_type (peek COLD3 w)) Henxio w2 Hw2) as Hrun.
  destruct (bring_up _ _ _ w2) as [ret w'|w']; [|exact Hrun].
  destruct Hrun as [[H0 Hm]|[H0 Hm]]; rewrite Hm; split; split;
    intros; try assumption; try reflexivity; try congruence; try lia.
Qed.

(** The handoff reader, in general.  [populate_ddr_handoff] does not look at
    what [socfpga_handoff_read] returns (line 117): whenever it returns, it
    returns 0 (line 148), and it fails to return only if the read itself
    does not return.  So the error exit that the orchestrator has for it in
    lines 239-243 is never taken: after the handoff has been read, whatever
    the read reported, the run goes on with the topology configuration. *)
Theorem populate_ddr_handoff_never_fails (io96b_ctrl : io96b_info)
    (is_ddr_hang_be4_rst : bool) (reset_t : Z) (w : world) :
  match populate_ddr_handoff io96b_ctrl w with
  | Ret r _ => fst r = 0
  | Hang _ =>
      socfpga_handoff_read SOC64_HANDOFF_SDRAM SOC64_HANDOFF_SDRAM_LEN = None
  end /\
  bring_up io96b_ctrl is_ddr_hang_be4_rst reset_t w
  = (debug "DDR: Address MPFE 0x%llx" [plat_mpfe_base_addr w] ;;;
     debug "DDR: Checking SDRAM configuration in progress ..." [] ;;;
     r <- populate_ddr_handoff io96b_ctrl ;;
     after_handoff (snd r) is_ddr_hang_be4_rst reset_t) w.
Proof.
  split; [apply populate_ddr_handoff_ret|].
  unfold bring_up, bind, gets, debug, emit. cbv beta iota.
  match goal with
  | |- context [populate_ddr_handoff io96b_ctrl ?w1] =>
      pose proof (populate_ddr_handoff_ret io96b_ctrl w1) as Hret;
      destruct (populate_ddr_handoff io96b_ctrl w1) as [r w'|w']
  end; [|reflexivity].
  cbv zeta. rewrite Hret. reflexivity.
Qed.

End Properties.

(** * The properties on the reference configuration *)

Import Bench.

(** Comparisons between closed numbers. *)
Ltac zcmp :=
  vm_compute; repeat split;
  first [reflexivity | discriminate | (let H := fresh in intros H; discriminate H)].

(** C10 at the reference configuration: setting the marker in the empty world. *)
Lemma ddr_init_inprogress_is_ddr_init_hang_witness :
  exists w',
    @ddr_init_inprogress agilex5 true w0 = Ret tt w' /\
    @is_ddr_init_hang agilex5 w' = Ret true w'.
Proof.
  destruct (@ddr_init_inprogress_is_ddr_init_hang agilex5 true w0)
    as (w' & H1 & H2 & _).
  - zcmp.
  - exists w'. split; assumption.
Defined.

(** C7 at the reference configuration: a register with 2 in bits 29-31 is a
    cold reset. *)
Lemma get_reset_type_classifies_witness :
  0 <= 0x40000000 < 2 ^ 32 /\
  exists c, reset_type_value c = @get_reset_type agilex5 0x40000000.
Proof.
  assert (H : 0 <= 0x40000000 < 2 ^ 32) by zcmp.
  split; [exact H|].
  destruct (@get_reset_type_classifies agilex5 0x40000000 H) as (_ & _ & H5 & _).
  assert (Hle : @get_reset_type agilex5 0x40000000 <= 5)
    by (vm_compute; intros Hc; discriminate Hc).
  destruct (H5 Hle) as (c & Hc & _).
  exists c. exact Hc.
Defined.

(** C7 fails as stated: with the reset type in bits 29-31, the register value
    0xC0000000 is classified as 6, which is none of the six causes. *)
Lemma get_reset_type_outside_enum :
  @get_reset_type agilex5 0xC0000000 = 6 /\
  ~ exists c, reset_type_value c = @get_reset_type agilex5 0xC0000000.
Proof.
  split; [reflexivity|].
  intros [c Hc]. destruct c; discriminate Hc.
Qed.

(** C8 at the reference configuration: the word 0x10000 is one port, one
    instance, PLL 0 enabled. *)
Lemma populate_ddr_handoff_decodes_witness :
  exists c' w',
    @populate_ddr_handoff agilex5 (bench good_handoff true recal_ok 32 0 false)
      ctrl0 w0 = Ret (0, c') w' /\
    num_port c' = 1 /\ num_instance c' = 1%nat.
Proof.
  destruct (@populate_ddr_handoff_decodes agilex5
              (bench good_handoff true recal_ok 32 0 false)
              ctrl0 w0 0 [0; 0; 0; 0; 0x10000] 0x10000)
    as (c' & w' & E & Hp & Hn & _).
  - reflexivity.
  - reflexivity.
  - zcmp.
  - exists c', w'. split; [exact E|]. split; [exact Hp | exact Hn].
Defined.

(** C1 at the reference configuration: ECC on after a power-on reset, no
    marker set: the memory is initialised in full. *)
Lemma ecc_full_mem_init_decision_witness :
  In (full_init_call (with_ecc true ctrl0))
     (trace_since w0
        (@ecc_full_mem_init agilex5 (bench good_handoff true recal_ok 32 0 true)
           (with_ecc true ctrl0) false POR_RESET w0)).
Proof.
  apply (@ecc_full_mem_init_decision agilex5
           (bench good_handoff true recal_ok 32 0 true)
           (with_ecc true ctrl0) false POR_RESET w0).
  split; [reflexivity|].
  right. right. right. split; discriminate.
Defined.

(** The trigger policy at the reference configuration: an uncalibrated block
    is re-calibrated. *)
Lemma recalibrate_policy_witness :
  exists c,
    In (recal_call c)
       (trace_since w0
          (@recalibrate agilex5 (bench good_handoff false recal_ok 32 0 false)
             ctrl0 w0)).
Proof.
  apply (@recalibrate_policy agilex5 (bench good_handoff false recal_ok 32 0 false)
           ctrl0 w0).
  right. reflexivity.
Defined.


(** C2 at the reference configuration, the scenario of 4 GiB of hardware:
    bank 0 takes its 2 GiB and bank 1 the remaining 2 GiB. *)
Lemma resolve_geometry_auto_partition_witness :
  exists bd' w',
    @resolve_geometry agilex5 (4 * GiB) no_banks w0 = Ret bd' w' /\
    gd_ram_size w' = 4 * GiB /\
    bd' !! 0%nat = Some (mk_dram_bank 0x80000000 (2 * GiB)) /\
    bd' !! 1%nat = Some (mk_dram_bank 0x880000000 (2 * GiB)).
Proof.
  pose proof (@resolve_geometry_auto_partition agilex5 (4 * GiB) no_banks w0) as H.
  cbv zeta in H.
  destruct H as (bd' & w' & E & Hg & Hset & _).
  - reflexivity.
  - zcmp.
  - reflexivity.
  - exists bd', w'. split; [exact E|]. split; [exact Hg|].
    destruct (Hset 0%nat (2 * GiB) eq_refl) as (b0 & Hb0 & Hbd0 & _).
    destruct (Hset 1%nat (2 * GiB) eq_refl) as (b1 & Hb1 & Hbd1 & _).
    inversion Hb0; subst b0. inversion Hb1; subst b1.
    split; [exact Hbd0 | exact Hbd1].
Defined.

(** C2 fails as stated: 8192 Gbit of hardware are 1 TiB; the three banks take
    their full capacities, which sum to 512 GiB, not to the hardware size,
    while the resolved total size is 1 TiB. *)
Lemma resolve_geometry_beyond_capacity :
  hw_size_of (with_size 8192 ctrl0) = 1024 * GiB /\
  0 < 1024 * GiB /\
  exists bd' w',
    @resolve_geometry agilex5 (1024 * GiB) no_banks w0 = Ret bd' w' /\
    bd' = [ mk_dram_bank 0x80000000 0x80000000;
            mk_dram_bank 0x880000000 0x780000000;
            mk_dram_bank 0x8800000000 0x7800000000 ] /\
    sumZ (bank_size <$> bd') = 512 * GiB /\
    sumZ (bank_size <$> bd') <> 1024 * GiB /\
    gd_ram_size w' = 1024 * GiB.
Proof.
  split; [reflexivity|]. split; [reflexivity|].
  eexists _, _. split; [vm_compute; reflexivity|].
  split; [reflexivity|]. split; [reflexivity|]. split; [discriminate | reflexivity].
Qed.

(** C6 at the reference configuration, the scenario of 2 GiB declared on
    4 GiB of hardware: the warning is printed and the resolved size is the
    2 GiB declared. *)
Lemma resolve_geometry_declared_below_hardware_witness :
  exists w',
    @resolve_geometry agilex5 (4 * GiB) no_banks (set_gd_ram_size (2 * GiB) w0)
      = Ret no_banks w' /\
    gd_ram_size w' = 2 * GiB /\
    console w'
    = [ Printf "DDR: Warning: DRAM size from device tree (%lld MiB)" [2048];
        Printf " mismatch with hardware (%lld MiB)." [4096] ].
Proof.
  destruct (@resolve_geometry_declared_below_hardware agilex5 (4 * GiB) no_banks
              (set_gd_ram_size (2 * GiB) w0))
    as (w' & E & Hg & Ht & _).
  - reflexivity.
  - zcmp.
  - zcmp.
  - exists w'. split; [exact E|]. split; [exact Hg|].
    rewrite E in Ht. exact Ht.
Defined.

(** C3 at the reference configuration: 4 GiB declared on 2 GiB of hardware
    hangs, whatever follows. *)
Lemma resolve_geometry_exceeds_hardware_witness :
  exists w',
    (bd' <- @resolve_geometry agilex5 (2 * GiB) no_banks ;; @finish_init agilex5
       (bench good_handoff true recal_ok 16 (4 * GiB) false) bd')
      (set_gd_ram_size (4 * GiB) w0) = Hang w'.
Proof.
  destruct (@resolve_geometry_exceeds_hardware agilex5 Z (2 * GiB) no_banks
              (set_gd_ram_size (4 * GiB) w0)
              (@finish_init agilex5
                 (bench good_handoff true recal_ok 16 (4 * GiB) false)))
    as (w' & E & _).
  - zcmp.
  - reflexivity.
  - exists w'. exact E.
Defined.

(** C3 fails as stated: with 4 GiB declared on 2 GiB of hardware (16 Gbit)
    the run ends in [hang()]; no value, and so no error, is returned to the
    caller. *)
Lemma declared_above_hardware_hangs :
  hw_size_of (with_size 16 ctrl0) < 4 * GiB /\
  (exists w',
      @sdram_mmr_init_full agilex5
        (bench good_handoff true recal_ok 16 (4 * GiB) false) ctrl0 w0 = Hang w') /\
  forall ret w',
    @sdram_mmr_init_full agilex5
      (bench good_handoff true recal_ok 16 (4 * GiB) false) ctrl0 w0 <> Ret ret w'.
Proof.
  assert (E : exists w',
             @sdram_mmr_init_full agilex5
               (bench good_handoff true recal_ok 16 (4 * GiB) false) ctrl0 w0
             = Hang w') by (eexists; vm_compute; reflexivity).
  split; [reflexivity|]. split; [exact E|].
  destruct E as [w' E]. intros ret w''. rewrite E. discriminate.
Qed.

(** C4 at the reference configuration: the run succeeds and the marker is
    cleared. *)
Lemma sdram_mmr_init_full_marker_witness :
  exists w',
    @sdram_mmr_init_full agilex5 (bench good_handoff true recal_ok 32 0 false)
      ctrl0 w0 = Ret 0 w' /\
    @marker agilex5 w' = false.
Proof.
  destruct (@sdram_mmr_init_full_marker agilex5
              (bench good_handoff true recal_ok 32 0 false) ctrl0 w0)
    as [_ H].
  - zcmp.
  - zcmp.
  - assert (E : exists w',
               @sdram_mmr_init_full agilex5
                 (bench good_handoff true recal_ok 32 0 false) ctrl0 w0
               = Ret 0 w') by (eexists; vm_compute; reflexivity).
    destruct E as [w' E]. rewrite E in H. exists w'.
    split; [exact E|]. apply H. reflexivity.
Defined.

(** The handoff reader at the reference configuration: a failed handoff
    read. *)
Lemma populate_ddr_handoff_never_fails_witness :
  @bring_up agilex5 (bench failed_handoff true recal_ok 32 0 false)
    ctrl0 false POR_RESET w0
  = (debug "DDR: Address MPFE 0x%llx" [0x18000000] ;;;
     debug "DDR: Checking SDRAM configuration in progress ..." [] ;;;
     r <- @populate_ddr_handoff agilex5
            (bench failed_handoff true recal_ok 32 0 false) ctrl0 ;;
     @after_handoff agilex5 (bench failed_handoff true recal_ok 32 0 false)
       (snd r) false POR_RESET) w0.
Proof.
  apply (@populate_ddr_handoff_never_fails agilex5
           (bench failed_handoff true recal_ok 32 0 false)
           ctrl0 false POR_RESET w0).
Defined.

(** C9: a handoff that cannot be read is to abort the bring-up.  The code at
    such an input: [socfpga_handoff_read] reports -5 and leaves the table as
    the stack had it.  Line 117 drops that result, the reader decodes the
    table all the same and returns 0 (line 148), so the error exit of lines
    239-243 is not taken: its message is not printed, the run goes on to the
    end, returns 0 and clears the progress marker. *)
Lemma failed_handoff_read_not_surfaced :
  @socfpga_handoff_read (bench failed_handoff true recal_ok 32 0 false)
    (@SOC64_HANDOFF_SDRAM agilex5) (@SOC64_HANDOFF_SDRAM_LEN agilex5)
  = Some (-5, [0; 0; 0; 0; 0]) /\
  (exists c' w',
      @populate_ddr_handoff agilex5 (bench failed_handoff true recal_ok 32 0 false)
        ctrl0 w0 = Ret (0, c') w') /\
  exists w',
    @sdram_mmr_init_full agilex5 (bench failed_handoff true recal_ok 32 0 false)
      ctrl0 w0 = Ret 0 w' /\
    @marker agilex5 w' = false /\
    In (Printf "DDR: init success" []) (console w') /\
    ~ In (Printf "DDR: Failed to populate DDR handoff" []) (console w').
Proof.
  split; [reflexivity|]. split.
  - eexists _, _. vm_compute. reflexivity.
  - eexists. split; [vm_compute; reflexivity|].
    split; [vm_compute; reflexivity|].
    split; [cbn; auto 30|].
    intros Hin. cbn in Hin.
    repeat (destruct Hin as [Hin|Hin]; [discriminate Hin|]).
    destruct Hin.
Qed.

(** * Further properties of the DDR driver *)

Lemma peek_range (a : Z) (w : world) : 0 <= peek a w < 2 ^ 32.
Proof. apply wrap32_range. Qed.

Lemma wrap32_lor (a b : Z) :
  0 <= a < 2 ^ 32 -> 0 <= b < 2 ^ 32 -> wrap32 (Z.lor a b) = Z.lor a b.
Proof.
  intros Ha Hb. apply Z.bits_inj'. intros i Hi.
  rewrite testbit_wrap32 by assumption.
  destruct (Z.ltb_spec i 32) as [Hlt|Hge]; [reflexivity|].
  cbn [andb]. symmetry. rewrite Z.lor_spec.
  destruct (Z.testbit a i) eqn:Ea.
  - apply (testbit_u32_high a i Ha) in Ea. lia.
  - destruct (Z.testbit b i) eqn:Eb; [|reflexivity].
    apply (testbit_u32_high b i Hb) in Eb. lia.
Qed.

Lemma frame_trans (w w1 w2 : world) :
  set_mmio (mmio w) (set_console (console w) w1) = w ->
  set_mmio (mmio w1) (set_console (console w1) w2) = w1 ->
  set_mmio (mmio w) (set_console (console w) w2) = w.
Proof.
  destruct w, w1, w2; unfold set_mmio, set_console; cbn. congruence.
Qed.

Section FurtherProperties.

Context {P : Platform} {C : Collaborators}.

(** What [setbits_le32] does to the registers. *)
Lemma setbits_le32_spec (a s : Z) (w : world) :
  0 <= s < 2 ^ 32 ->
  exists w',
    setbits_le32 a s w = Ret tt w' /\
    peek a w' = Z.lor (peek a w) s /\
    (forall b, b <> a -> mmio w' !! b = mmio w !! b) /\
    set_mmio (mmio w) (set_console (console w) w') = w.
Proof.
  intros Hs. rewrite setbits_le32_eq. eexists. split; [reflexivity|].
  split; [|split].
  - rewrite peek_set_mmio_same. apply wrap32_lor; [apply peek_range | exact Hs].
  - intros b Hb. cbn. apply lookup_insert_ne. congruence.
  - destruct w; reflexivity.
Qed.

Lemma peek_frame (a : Z) (w w' : world) :
  mmio w' !! a = mmio w !! a -> peek a w' = peek a w.
Proof. intros E. unfold peek. rewrite E. reflexivity. Qed.

Lemma bit_range (n : Z) : 0 <= n < 32 -> 0 <= BIT n < 2 ^ 32.
Proof.
  intros Hn. unfold BIT. rewrite Z.shiftl_1_l. split; [lia|].
  apply Z.pow_lt_mono_r; lia.
Qed.

Lemma setbits_le32_console (a s : Z) (w w' : world) :
  setbits_le32 a s w = Ret tt w' -> console w' = console w.
Proof. rewrite setbits_le32_eq. intros E. inversion E. reflexivity. Qed.

(** X1.  [set_mpfe_config] returns 0 and sets bits 2 and 8 of the MPFE
    configuration register: the register becomes its old value with these two
    bits ORed in, every other register keeps its contents, the console gains
    exactly one line, the debug line that shows the new value of the
    register, and nothing else changes. *)
Theorem set_mpfe_config_effect (w : world) :
  exists w',
    set_mpfe_config w = Ret 0 w' /\
    peek MPFE_CONFIG w' = Z.lor (peek MPFE_CONFIG w) (Z.lor (BIT 2) (BIT 8)) /\
    (forall i, 0 <= i -> i <> 2 -> i <> 8 ->
               Z.testbit (peek MPFE_CONFIG w') i = Z.testbit (peek MPFE_CONFIG w) i) /\
    (forall a, a <> MPFE_CONFIG -> mmio w' !! a = mmio w !! a) /\
    console w'
    = console w ++
      [Debug "%s: mpfe_config: 0x%x"
         [Z.lor (peek MPFE_CONFIG w) (Z.lor (BIT 2) (BIT 8))]] /\
    set_mmio (mmio w) (set_console (console w) w') = w.
Proof.
  unfold set_mpfe_config. fold MPFE_CONFIG.
  destruct (setbits_le32_spec MPFE_CONFIG (BIT 2) w) as (w1 & E1 & P1 & F1 & R1);
    [apply bit_range; lia|].
  destruct (setbits_le32_spec MPFE_CONFIG (BIT 8) w1) as (w2 & E2 & P2 & F2 & R2);
    [apply bit_range; lia|].
  rewrite bind_eq, E1, bind_eq, E2.
  unfold bind, readl, debug, emit, pure. eexists. split; [reflexivity|].
  assert (Hp : peek MPFE_CONFIG w2
               = Z.lor (peek MPFE_CONFIG w) (Z.lor (BIT 2) (BIT 8)))
    by (rewrite P2, P1, Z.lor_assoc; reflexivity).
  split; [|split; [|split; [|split]]].
  - exact Hp.
  - intros i Hi H2 H8.
    change (peek MPFE_CONFIG (set_console
              (console w2 ++ [Debug "%s: mpfe_config: 0x%x" [peek MPFE_CONFIG w2]]) w2))
      with (peek MPFE_CONFIG w2).
    rewrite Hp, Z.lor_spec. unfold BIT. rewrite !Z.shiftl_1_l, Z.lor_spec.
    rewrite !Z.pow2_bits_eqb by lia.
    destruct (Z.eqb_spec 2 i); [lia|]. destruct (Z.eqb_spec 8 i); [lia|].
    rewrite orb_false_r. reflexivity.
  - intros a Ha. cbn. rewrite F2, F1 by assumption. reflexivity.
  - cbn [console set_console]. rewrite Hp.
    rewrite (setbits_le32_console _ _ _ _ E2), (setbits_le32_console _ _ _ _ E1).
    reflexivity.
  - apply (frame_trans w w1); [exact R1|].
    apply (frame_trans w1 w2); [exact R2|]. destruct w2; reflexivity.
Qed.

(** X2.  [config_mpfe_sideband_mgr] returns 0.  It ORs bit 4 into the
    sideband flag register when the platform is dual port and bit 5 when it
    is dual EMIF; only in the dual-EMIF case it also sets bits 2 and 8 of the
    MPFE configuration register.  No other register changes, and with a
    single port and a single EMIF no register is written at all. *)
Theorem config_mpfe_sideband_mgr_effect (w : world) :
  SIDEBANDMGR_FLAGOUTSET0_REG <> MPFE_CONFIG ->
  exists w',
    config_mpfe_sideband_mgr w = Ret 0 w' /\
    peek SIDEBANDMGR_FLAGOUTSET0_REG w'
    = Z.lor (peek SIDEBANDMGR_FLAGOUTSET0_REG w)
        (Z.lor (if plat_dualport w then BIT 4 else 0)
               (if plat_dualemif w then BIT 5 else 0)) /\
    peek MPFE_CONFIG w'
    = (if plat_dualemif w
       then Z.lor (peek MPFE_CONFIG w) (Z.lor (BIT 2) (BIT 8))
       else peek MPFE_CONFIG w) /\
    (forall a, a <> SIDEBANDMGR_FLAGOUTSET0_REG -> a <> MPFE_CONFIG ->
               mmio w' !! a = mmio w !! a) /\
    (plat_dualport w = false -> plat_dualemif w = false -> mmio w' = mmio w) /\
    set_mmio (mmio w) (set_console (console w) w') = w.
Proof.
  intros Hne.
  set (FLAG := SIDEBANDMGR_FLAGOUTSET0_REG) in *.
  (* the dual-port step *)
  assert (S1 : exists w1,
             (if plat_dualport w then setbits_le32 FLAG (BIT 4) else pure tt) w
             = Ret tt w1 /\
             peek FLAG w1 = Z.lor (peek FLAG w) (if plat_dualport w then BIT 4 else 0) /\
             (forall b, b <> FLAG -> mmio w1 !! b = mmio w !! b) /\
             (plat_dualport w = false -> mmio w1 = mmio w) /\
             set_mmio (mmio w) (set_console (console w) w1) = w).
  { destruct (plat_dualport w).
    - destruct (setbits_le32_spec FLAG (BIT 4) w) as (w1 & E & Hp & Hf & Hr);
        [apply bit_range; lia|].
      exists w1. repeat split; try assumption. intros H; discriminate H.
    - exists w. unfold pure. repeat split.
      + rewrite Z.lor_0_r. reflexivity.
      + destruct w; reflexivity. }
  destruct S1 as (w1 & E1 & P1 & F1 & N1 & R1).
  assert (Hplat1 : plat_dualemif w1 = plat_dualemif w).
  { destruct w, w1; unfold set_mmio, set_console in R1; cbn in *. congruence. }
  (* the dual-EMIF step *)
  assert (S2 : exists w2,
             (if plat_dualemif w
              then (set_mpfe_config ;;; setbits_le32 FLAG (BIT 5))
              else pure tt) w1
             = Ret tt w2 /\
             peek FLAG w2 = Z.lor (peek FLAG w1) (if plat_dualemif w then BIT 5 else 0) /\
             peek MPFE_CONFIG w2
             = (if plat_dualemif w
                then Z.lor (peek MPFE_CONFIG w1) (Z.lor (BIT 2) (BIT 8))
                else peek MPFE_CONFIG w1) /\
             (forall a, a <> FLAG -> a <> MPFE_CONFIG -> mmio w2 !! a = mmio w1 !! a) /\
             (plat_dualemif w = false -> mmio w2 = mmio w1) /\
             set_mmio (mmio w1) (set_console (console w1) w2) = w1).
  { destruct (plat_dualemif w).
    - unfold set_mpfe_config. fold MPFE_CONFIG.
      destruct (setbits_le32_spec MPFE_CONFIG (BIT 2) w1) as (a1 & Ea1 & Pa1 & Fa1 & Ra1);
        [apply bit_range; lia|].
      destruct (setbits_le32_spec MPFE_CONFIG (BIT 8) a1) as (a2 & Ea2 & Pa2 & Fa2 & Ra2);
        [apply bit_range; lia|].
      set (a3 := set_console
                   (console a2 ++ [Debug "%s: mpfe_config: 0x%x" [peek MPFE_CONFIG a2]]) a2).
      destruct (setbits_le32_spec FLAG (BIT 5) a3) as (a4 & Ea4 & Pa4 & Fa4 & Ra4);
        [apply bit_range; lia|].
      exists a4. split; [|split; [|split; [|split; [|split]]]].
      + rewrite bind_eq, bind_eq, Ea1, bind_eq, Ea2.
        unfold bind at 1, readl at 1. unfold bind at 1, debug, emit at 1.
        fold a3. unfold pure at 1. exact Ea4.
      + rewrite Pa4. f_equal.
        change (peek FLAG a3) with (peek FLAG a2).
        rewrite (peek_frame FLAG a1 a2) by (apply Fa2; exact Hne).
        apply peek_frame, Fa1. exact Hne.
      + rewrite (peek_frame MPFE_CONFIG a3 a4) by (apply Fa4; congruence).
        change (peek MPFE_CONFIG a3) with (peek MPFE_CONFIG a2).
        rewrite Pa2, Pa1, Z.lor_assoc. reflexivity.
      + intros a Hfl Hmp. rewrite Fa4 by assumption.
        change (mmio a3) with (mmio a2). rewrite Fa2, Fa1 by assumption.
        reflexivity.
      + intros H; discriminate H.
      + apply (frame_trans w1 a1); [exact Ra1|].
        apply (frame_trans a1 a2); [exact Ra2|].
        apply (frame_trans a2 a3); [destruct a2; reflexivity | exact Ra4].
    - exists w1. unfold pure. repeat split.
      + rewrite Z.lor_0_r. reflexivity.
      + destruct w1; reflexivity. }
  destruct S2 as (w2 & E2 & P2 & M2 & F2 & N2 & R2).
  unfold config_mpfe_sideband_mgr. fold FLAG.
  rewrite bind_eq. unfold gets at 1. rewrite bind_eq, E1.
  rewrite bind_eq. unfold gets at 1. rewrite Hplat1, bind_eq, E2.
  unfold bind, readl, debug, emit, pure. eexists. split; [reflexivity|].
  split; [|split; [|split; [|split]]].
  - change (peek FLAG (set_console
              (console w2 ++
               [Debug "%s: SIDEBANDMGR_FLAGOUTSTATUS0: 0x%x"
                  [peek SIDEBANDMGR_FLAGOUTSTATUS0_REG w2]]) w2))
      with (peek FLAG w2).
    rewrite P2, P1, Z.lor_assoc. reflexivity.
  - change (peek MPFE_CONFIG (set_console
              (console w2 ++
               [Debug "%s: SIDEBANDMGR_FLAGOUTSTATUS0: 0x%x"
                  [peek SIDEBANDMGR_FLAGOUTSTATUS0_REG w2]]) w2))
      with (peek MPFE_CONFIG w2).
    rewrite M2.
    rewrite (peek_frame MPFE_CONFIG w w1) by (apply F1; congruence).
    reflexivity.
  - intros a Hfl Hmp. cbn. rewrite F2, F1 by assumption. reflexivity.
  - intros Hp He. cbn. rewrite N2, N1 by assumption. reflexivity.
  - apply (frame_trans w w1); [exact R1|].
    apply (frame_trans w1 w2); [exact R2|]. destruct w2; reflexivity.
Qed.

Lemma config_ccu_mgr_eq (w : world) :
  let on := plat_dualport w || plat_dualemif w in
  let name :=
    if on then "socfpga-secreg-ccu-interleaving-on"
    else "socfpga-secreg-ccu-interleaving-off" in
  let dbg :=
    if on then "%s: config interleaving on ccu reg"
    else "%s: config interleaving off ccu reg" in
  let w1 := set_console (console w ++ [Debug dbg []]) w in
  let w2 :=
    set_console
      (console w1 ++ [Call "uclass_get_device_by_name" (ArgName name)]) w1 in
  config_ccu_mgr w
  = match uclass_get_device_by_name name with
    | Some ret =>
        if ret =? 0
        then Ret tt w2
        else Hang (set_console
                     (console w2 ++
                      [Printf "interleaving on/off ccu settings init failed: %d" [ret]])
                     w2)
    | None => Hang w2
    end.
Proof.
  unfold config_ccu_mgr.
  rewrite bind_eq. unfold gets at 1. rewrite bind_eq. unfold gets at 1.
  destruct (plat_dualport w || plat_dualemif w); cbv zeta;
    unfold bind, debug, call, printf, emit, pure, hang;
    match goal with
    | |- context [uclass_get_device_by_name ?n] =>
        destruct (uclass_get_device_by_name n) as [ret|]
    end; try destruct (ret =? 0) eqn:E;
    cbv beta iota delta [bind]; rewrite ?E; reflexivity.
Qed.

(** X3.  [config_ccu_mgr] looks up exactly one of the two interleaving
    profiles: "on" when the platform is dual port or dual EMIF, "off"
    otherwise.  It returns if the lookup returns 0; if the lookup returns
    another value it prints that value and hangs.  Nothing but the console
    changes. *)
Theorem config_ccu_mgr_profile (w : world) :
  let name :=
    if plat_dualport w || plat_dualemif w
    then "socfpga-secreg-ccu-interleaving-on"
    else "socfpga-secreg-ccu-interleaving-off" in
  (forall n, In (Call "uclass_get_device_by_name" (ArgName n))
                (trace_since w (config_ccu_mgr w)) <-> n = name) /\
  set_console (console w) (final_world (config_ccu_mgr w)) = w /\
  match uclass_get_device_by_name name with
  | Some ret =>
      if ret =? 0
      then exists w', config_ccu_mgr w = Ret tt w'
      else exists w',
          config_ccu_mgr w = Hang w' /\
          last (console w')
          = Some (Printf "interleaving on/off ccu settings init failed: %d" [ret])
  | None => exists w', config_ccu_mgr w = Hang w'
  end.
Proof.
  intros name. rewrite (config_ccu_mgr_eq w). cbv zeta. fold name.
  destruct (uclass_get_device_by_name name) as [ret|];
    [destruct (ret =? 0)|];
    (split; [|split]);
    try (intros n0; erewrite trace_since_app
           by (cbn; rewrite <- ?app_assoc; reflexivity);
         cbn [In app]; split;
         [ intros H; repeat (destruct H as [H|H]; try discriminate H);
           try (inversion H; reflexivity); destruct H
         | intros ->; auto ]);
    try (destruct w; reflexivity);
    try (eexists; reflexivity);
    try (eexists; split; [reflexivity|]; cbn; rewrite last_snoc; reflexivity).
Qed.

Lemma for_loop_assign_csr_io96b (n k : nat) (c : io96b_info) (w : world) :
  exists c' w',
    for_loop n k assign_io96b_csr_addr c w = Ret c' w' /\
    (forall i : nat,
        (k <= i < k + n)%nat ->
        io96b c' !! i
        = set_io96b_csr_addr (default 0 (io96b_csr_reg_addr !! i)) <$> io96b c !! i) /\
    (forall i : nat, (i < k \/ k + n <= i)%nat -> io96b c' !! i = io96b c !! i) /\
    ckgen_lock c' = ckgen_lock c /\
    overall_cal_status c' = overall_cal_status c /\
    ecc_status c' = ecc_status c /\
    overall_size c' = overall_size c /\
    ddr_type c' = ddr_type c.
Proof.
  revert k c w. induction n as [|n IH]; intros k c w.
  - exists c, w. split; [reflexivity|]. split; [intros i Hi; lia|].
    repeat split.
  - cbn [for_loop]. unfold bind at 1.
    unfold assign_io96b_csr_addr at 1. unfold bind, debug, emit, pure.
    match goal with
    | |- context [for_loop n (S k) _ ?c1 ?w1] =>
        destruct (IH (S k) c1 w1)
          as (c' & w' & E & Hin & Hout & H1 & H2 & H3 & H4 & H5)
    end.
    exists c', w'. rewrite E. split; [reflexivity|]. split; [|split].
    + intros i Hi. destruct (decide (i = k)) as [->|Hne].
      * rewrite Hout by lia. cbn. apply list_lookup_alter_eq.
      * rewrite Hin by lia. cbn. rewrite list_lookup_alter_ne by lia. reflexivity.
    + intros i Hi. rewrite Hout by lia. cbn. apply list_lookup_alter_ne. lia.
    + repeat split; assumption.
Qed.

(** X4.  When the handoff read returns, [populate_ddr_handoff] gives the
    first [num_instance] controller instances (one or two) their CSR base
    address from the fixed table, 0x18400000 and 0x18800000: the calibration
    flag of these instances and every instance after them are left as they
    were, and so are the lock, calibration, ECC, size and type fields of the
    block. *)
Theorem populate_ddr_handoff_csr (io96b_ctrl : io96b_info) (w : world)
    (r : Z) (table : list Z) :
  socfpga_handoff_read SOC64_HANDOFF_SDRAM SOC64_HANDOFF_SDRAM_LEN
    = Some (r, table) ->
  exists c' w',
    populate_ddr_handoff io96b_ctrl w = Ret (0, c') w' /\
    (num_instance c' = 1 \/ num_instance c' = 2)%nat /\
    io96b c' !! 0%nat = set_io96b_csr_addr 0x18400000 <$> io96b io96b_ctrl !! 0%nat /\
    io96b c' !! 1%nat
    = (if decide (num_instance c' = 2%nat)
       then set_io96b_csr_addr 0x18800000 <$> io96b io96b_ctrl !! 1%nat
       else io96b io96b_ctrl !! 1%nat) /\
    (forall i : nat, (2 <= i)%nat -> io96b c' !! i = io96b io96b_ctrl !! i) /\
    ckgen_lock c' = ckgen_lock io96b_ctrl /\
    overall_cal_status c' = overall_cal_status io96b_ctrl /\
    ecc_status c' = ecc_status io96b_ctrl /\
    overall_size c' = overall_size io96b_ctrl /\
    ddr_type c' = ddr_type io96b_ctrl.
Proof.
  intros Hread. unfold populate_ddr_handoff.
  unfold bind at 1. unfold call, bind at 1, emit. rewrite Hread.
  unfold pure at 1. cbv zeta.
  unfold bind, modify, debug, emit.
  match goal with
  | |- context [for_loop ?n 0%nat _ ?c1 ?w1] =>
      destruct (for_loop_assign_csr_io96b n 0%nat c1 w1)
        as (c' & w' & E & Hin & Hout & H1 & H2 & H3 & H4 & H5);
      destruct (for_loop_assign_csr n 0%nat c1 w1)
        as (c'' & w'' & E' & _ & Hn & _);
      rewrite E in E'; inversion E'; subst c'' w''; rewrite E;
      remember c1 as cin eqn:Ecin
  end.
  exists c', w'. unfold pure. split; [reflexivity|].
  assert (Hio : io96b cin = io96b io96b_ctrl)
    by (subst cin; destruct (negb _), (negb _); reflexivity).
  assert (Hni : (num_instance cin = 1 \/ num_instance cin = 2)%nat)
    by (subst cin; destruct (negb (FIELD_GET (BIT 1) _ =? 0)); cbn; auto).
  assert (Hfields : ckgen_lock cin = ckgen_lock io96b_ctrl /\
                    overall_cal_status cin = overall_cal_status io96b_ctrl /\
                    ecc_status cin = ecc_status io96b_ctrl /\
                    overall_size cin = overall_size io96b_ctrl /\
                    ddr_type cin = ddr_type io96b_ctrl)
    by (subst cin; destruct (negb _), (negb _); repeat split).
  destruct Hfields as (G1 & G2 & G3 & G4 & G5).
  clear Ecin. rewrite Hn. rewrite Hio in Hin, Hout.
  split; [exact Hni|]. split; [|split; [|split]].
  - rewrite Hin by lia. reflexivity.
  - destruct Hni as [Hi|Hi]; rewrite Hi in *.
    + destruct (decide (1%nat = 2%nat)) as [?|_]; [lia|]. apply Hout. lia.
    + destruct (decide (2%nat = 2%nat)) as [_|?]; [|lia].
      rewrite Hin by lia. reflexivity.
  - intros i Hi. apply Hout. lia.
  - repeat split; congruence.
Qed.

(** X5.  The progress marker round trip: if the marker is clear, setting it
    and clearing it again gives the scratch register its old contents back
    and changes no other register; and setting a marker that was just set, or
    clearing one that was just cleared, changes nothing. *)
Theorem ddr_init_inprogress_round_trip (w : world) :
  marker w = false ->
  exists w1 w2,
    ddr_init_inprogress true w = Ret tt w1 /\
    ddr_init_inprogress false w1 = Ret tt w2 /\
    peek POR0 w2 = peek POR0 w /\
    (forall a, a <> POR0 -> mmio w2 !! a = mmio w !! a) /\
    ddr_init_inprogress true w1 = Ret tt w1 /\
    ddr_init_inprogress false w2 = Ret tt w2.
Proof.
  intros Hclear.
  set (m := ALT_SYSMGR_SCRATCH_REG_POR_0_DDR_PROGRESS_MASK).
  assert (Hz : Z.land (peek POR0 w) m = 0).
  { unfold marker in Hclear. apply negb_false_iff, Z.eqb_eq in Hclear. exact Hclear. }
  cbn [ddr_init_inprogress]. fold POR0. fold m.
  rewrite setbits_le32_eq. eexists. rewrite clrbits_le32_eq. eexists.
  split; [reflexivity|]. split; [reflexivity|].
  rewrite !setbits_le32_eq, !clrbits_le32_eq.
  rewrite !peek_set_mmio_same.
  assert (Hback : wrap32 (Z.land (wrap32 (Z.lor (peek POR0 w) m)) (Z.lnot m))
                  = peek POR0 w).
  { apply Z.bits_inj'. intros i Hi.
    rewrite testbit_wrap32, Z.land_spec, testbit_wrap32, Z.lor_spec, Z.lnot_spec
      by assumption.
    assert (Hb : Z.testbit (Z.land (peek POR0 w) m) i = false)
      by (rewrite Hz; apply Z.bits_0).
    rewrite Z.land_spec in Hb.
    assert (Hp : Z.testbit (peek POR0 w) i = (i <? 32) && Z.testbit (peek POR0 w) i).
    { unfold peek at 1. rewrite testbit_wrap32 by assumption.
      unfold peek. rewrite testbit_wrap32 by assumption.
      destruct (i <? 32); reflexivity. }
    rewrite Hp. rewrite Hp in Hb.
    destruct (i <? 32), (Z.testbit (peek POR0 w) i), (Z.testbit m i);
      cbn in *; congruence. }
  split; [|split; [|split]].
  - exact Hback.
  - intros a Ha. cbn. rewrite !lookup_insert_ne by congruence. reflexivity.
  - f_equal. unfold set_mmio. cbn. f_equal. rewrite insert_insert_eq. f_equal.
    apply Z.bits_inj'. intros i Hi.
    rewrite !testbit_wrap32, !Z.lor_spec, testbit_wrap32, Z.lor_spec by assumption.
    destruct (i <? 32), (Z.testbit (peek POR0 w) i), (Z.testbit m i); reflexivity.
  - f_equal. unfold set_mmio. cbn. f_equal. rewrite insert_insert_eq. f_equal.
    generalize (wrap32 (Z.lor (peek POR0 w) m)). intros x.
    apply Z.bits_inj'. intros i Hi.
    rewrite !testbit_wrap32, !Z.land_spec, testbit_wrap32, Z.land_spec,
      !Z.lnot_spec by assumption.
    destruct (i <? 32), (Z.testbit x i), (Z.testbit m i); reflexivity.
Qed.

(** X6.  When the declared size equals the hardware size, both zero
    included, lines 307-351 do nothing: no warning, no error, no bank
    assigned, [gd->ram_size] and the console as they were. *)
Theorem resolve_geometry_sizes_agree (hw_size : Z) (bd : bd_info) (w : world) :
  gd_ram_size w = hw_size -> resolve_geometry hw_size bd w = Ret bd w.
Proof.
  intros E. unfold resolve_geometry. rewrite bind_eq. unfold gets at 1.
  rewrite E, Z.eqb_refl, Z.ltb_irrefl, andb_false_r.
  rewrite bind_eq. unfold pure at 1. rewrite bind_eq. unfold pure at 1.
  destruct (Z.eqb_spec hw_size 0) as [->|_]; reflexivity.
Qed.

Lemma spec_partition_full_prefix (r : Z) (caps : list Z) (j : nat) (s : Z) :
  spec_partition r caps !! j = Some s ->
  (S j < length (spec_partition r caps))%nat ->
  caps !! j = Some s.
Proof.
  revert r j. induction caps as [|cap rest IH]; intros r j Hj Hlen.
  - discriminate Hj.
  - cbn [spec_partition] in Hj, Hlen. destruct (Z.geb_spec cap r).
    + cbn in Hlen. lia.
    + destruct j as [|j].
      * inversion Hj. cbn. f_equal. lia.
      * cbn in Hj, Hlen. cbn. apply (IH (r - Z.min r cap) j Hj). lia.
Qed.

Lemma spec_partition_pos (r : Z) (caps : list Z) (j : nat) (s : Z) :
  0 < r -> Forall (fun c => 0 < c) caps ->
  spec_partition r caps !! j = Some s -> 0 < s.
Proof.
  intros Hr Hcaps. revert r Hr j.
  induction Hcaps as [|cap rest Hcap Hrest IH]; intros r Hr j Hj.
  - discriminate Hj.
  - cbn [spec_partition] in Hj. destruct (Z.geb_spec cap r).
    + destruct j as [|j]; [|discriminate Hj]. inversion Hj. lia.
    + destruct j as [|j].
      * inversion Hj. lia.
      * apply (IH (r - Z.min r cap)) with (j := j); [lia | exact Hj].
Qed.

Lemma dram_bank_info_ascending (i j : nat) (bi bj : dram_bank_info_s) :
  (i < j)%nat ->
  dram_bank_info !! i = Some bi -> dram_bank_info !! j = Some bj ->
  start bi + max_size bi <= start bj.
Proof.
  intros Hij Hi Hj.
  destruct i as [|[|[|i]]]; destruct j as [|[|[|j]]];
    try lia; cbn in Hi, Hj; try discriminate;
    inversion Hi; inversion Hj; cbn; lia.
Qed.

Lemma banks_in_use_pos : Forall (fun c => 0 < c) (max_size <$> banks_in_use).
Proof.
  unfold banks_in_use. rewrite fmap_take. apply Forall_take.
  repeat constructor; cbn; lia.
Qed.

(** With a declared size of 0 and a hardware size above 0, lines 320-351 are
    the bank loop followed by the assignment of [gd->ram_size]. *)
Lemma resolve_geometry_auto_eq (hw_size : Z) (bd : bd_info) (w : world) :
  gd_ram_size w = 0 -> 0 < hw_size ->
  exists w1,
    set_console (console w) w1 = w /\
    console w1 = console w ++ bank_count_warning /\
    resolve_geometry hw_size bd w
    = (bd' <- fill_banks (Nat.min CONFIG_NR_DRAM_BANKS MEMORY_BANK_MAX_COUNT) 0
                hw_size 0 bd ;;
       modify (set_gd_ram_size hw_size) ;;;
       pure bd') w1.
Proof.
  intros Hram Hhw. unfold resolve_geometry.
  rewrite bind_eq. unfold gets at 1. rewrite Hram.
  change (0 <? 0) with false. cbn [andb].
  rewrite bind_eq. unfold pure at 1.
  destruct (Z.ltb_spec hw_size 0) as [?|_]; [lia|].
  rewrite bind_eq. unfold pure at 1.
  change (0 =? 0) with true. cbn [andb].
  destruct (Z.ltb_spec 0 hw_size) as [_|?]; [|lia].
  rewrite bind_eq. unfold bank_count_warning.
  destruct (Nat.ltb_spec MEMORY_BANK_MAX_COUNT CONFIG_NR_DRAM_BANKS) as [Hnr|Hnr].
  - unfold bind at 1, printf at 1, emit at 1.
    unfold bind at 1, printf at 1, emit at 1. unfold pure at 1.
    rewrite Nat.min_r by lia.
    eexists. split; [|split]. 3: reflexivity.
    + destruct w; reflexivity.
    + cbn [console set_console]. rewrite <- app_assoc. reflexivity.
  - unfold pure at 1. rewrite Nat.min_l by lia.
    exists w. split; [destruct w; reflexivity|]. split; [|reflexivity].
    rewrite app_nil_r. reflexivity.
Qed.

(** The loop of lines 333-348 prints one debug line for each bank it
    assigns, and nothing else. *)
Lemma fill_banks_console (n i : nat) (hw_size size_counter : Z)
    (bd : bd_info) (w : world) :
  0 <= size_counter <= hw_size -> hw_size < 2 ^ 64 ->
  (i + n <= length dram_bank_info)%nat ->
  exists bd' w',
    fill_banks n i hw_size size_counter bd w = Ret bd' w' /\
    console w'
    = console w ++
      bank_lines i (take n (drop i dram_bank_info))
        (spec_partition (hw_size - size_counter)
           (max_size <$> take n (drop i dram_bank_info))).
Proof.
  revert i size_counter bd w. induction n as [|n IH];
    intros i size_counter bd w Hc Hhw Hlen.
  - exists bd, w. cbn. rewrite app_nil_r. split; reflexivity.
  - destruct (lookup_lt_is_Some_2 dram_bank_info i) as [bank Hbank]; [lia|].
    assert (Hcap : 0 <= max_size bank).
    { pose proof dram_bank_info_nonneg as HF.
      rewrite Forall_fmap in HF.
      rewrite Forall_lookup in HF. apply (HF i bank Hbank). }
    rewrite (drop_S _ _ _ Hbank).
    cbn [take fmap list_fmap spec_partition].
    cbn [fill_banks]. rewrite Hbank. cbn [default from_option id].
    rewrite (wrap64_small (hw_size - size_counter)) by lia.
    destruct (Z.leb_spec (hw_size - size_counter) (max_size bank)) as [Hfit|Hfit].
    + destruct (Z.geb_spec (max_size bank) (hw_size - size_counter)); [|lia].
      rewrite Z.min_l by lia.
      unfold bind, debug, emit, pure. eexists _, _. split; reflexivity.
    + destruct (Z.geb_spec (max_size bank) (hw_size - size_counter)); [lia|].
      rewrite Z.min_r by lia.
      unfold bind at 1. unfold debug at 1, emit at 1.
      rewrite (wrap64_small (size_counter + max_size bank)) by lia.
      match goal with
      | |- context [fill_banks n (S i) hw_size _ ?bd1 ?w1] =>
          destruct (IH (S i) (size_counter + max_size bank) bd1 w1)
            as (bd' & w' & E & Hw); [lia | lia | cbn in *; lia |]
      end.
      rewrite E. exists bd', w'. split; [reflexivity|].
      rewrite Hw. cbn [console set_console bank_lines].
      replace (hw_size - (size_counter + max_size bank))
        with (hw_size - size_counter - max_size bank) by lia.
      rewrite <- app_assoc. reflexivity.
Qed.

Lemma bank_lines_length (i : nat) (banks : list dram_bank_info_s) (sizes : list Z) :
  (length sizes <= length banks)%nat ->
  length (bank_lines i banks sizes) = length sizes.
Proof.
  revert i sizes. induction banks as [|bank banks IH]; intros i [|size sizes] Hl;
    cbn in *; try reflexivity; try lia.
  rewrite IH by lia. reflexivity.
Qed.

Lemma spec_partition_nonempty (r cap : Z) (caps : list Z) :
  (1 <= length (spec_partition r (cap :: caps)))%nat.
Proof. cbn [spec_partition]. destruct (_ >=? _); cbn; lia. Qed.

(** X7.  The layout the automatic partition produces (declared size 0,
    hardware size above 0).  The loop assigns [n] banks, where [n] is the
    number of sizes in the specification's partition of the hardware size
    over the banks in use: at least one as soon as one bank is configured,
    and one "Memory bank" debug line is printed for each of them and nothing
    else, but for the warning about the number of banks.  The assigned banks
    are the first [n] entries, and the entries from [n] on are left as they
    were.  Each assigned bank starts at the start address of its bank in the
    table and has the size the partition gives it, above 0 and at most the
    capacity of that bank; every assigned bank but the last is filled to its
    capacity; and the assigned banks are disjoint and in ascending address
    order. *)
Theorem resolve_geometry_layout (hw_size : Z) (bd : bd_info) (w : world) :
  gd_ram_size w = 0 -> 0 < hw_size < 2 ^ 64 ->
  length bd = CONFIG_NR_DRAM_BANKS ->
  let sizes := spec_partition hw_size (max_size <$> banks_in_use) in
  let n := length sizes in
  exists bd' w',
    resolve_geometry hw_size bd w = Ret bd' w' /\
    (n <= Nat.min CONFIG_NR_DRAM_BANKS MEMORY_BANK_MAX_COUNT)%nat /\
    ((1 <= CONFIG_NR_DRAM_BANKS)%nat -> (1 <= n)%nat) /\
    console w'
    = console w ++ bank_count_warning ++ bank_lines 0 banks_in_use sizes /\
    length (bank_lines 0 banks_in_use sizes) = n /\
    (forall j : nat, (j < n)%nat ->
       exists bank b,
         dram_bank_info !! j = Some bank /\ bd' !! j = Some b /\
         sizes !! j = Some (bank_size b) /\
         bank_start b = start bank /\
         0 < bank_size b <= max_size bank /\
         ((S j < n)%nat -> bank_size b = max_size bank)) /\
    (forall k : nat, (n <= k)%nat -> bd' !! k = bd !! k) /\
    (forall (i j : nat) bi bj,
        (i < j < n)%nat -> bd' !! i = Some bi -> bd' !! j = Some bj ->
        bank_start bi + bank_size bi <= bank_start bj).
Proof.
  intros Hram Hhw Hlen sizes n. subst n.
  destruct (resolve_geometry_auto_eq hw_size bd w Hram) as (w1 & Hw1 & Hc1 & E); [lia|].
  set (m := Nat.min CONFIG_NR_DRAM_BANKS MEMORY_BANK_MAX_COUNT) in *.
  assert (Hm : (0 + m <= length dram_bank_info)%nat)
    by (subst m; cbn; unfold MEMORY_BANK_MAX_COUNT; lia).
  destruct (fill_banks_spec m 0 hw_size 0 bd w1) as (bd' & w2 & Ef & _ & Hset & Hframe);
    [lia | lia | exact Hm |].
  destruct (fill_banks_console m 0 hw_size 0 bd w1) as (bd'' & w2' & Ef' & Hc2);
    [lia | lia | exact Hm |].
  rewrite Ef in Ef'. inversion Ef'; subst bd'' w2'. clear Ef'.
  rewrite Z.sub_0_r in Hset, Hframe, Hc2. cbn [drop] in Hset, Hframe, Hc2.
  fold banks_in_use in Hset, Hframe, Hc2. fold sizes in Hset, Hframe, Hc2.
  assert (Hl : (length sizes <= m)%nat).
  { pose proof (spec_partition_length hw_size (max_size <$> banks_in_use)) as Hl.
    fold sizes in Hl. rewrite length_fmap in Hl.
    unfold banks_in_use in Hl. rewrite length_take in Hl. fold m in Hl. lia. }
  assert (Hbank : forall j : nat, (j < length sizes)%nat ->
            exists bank b,
              dram_bank_info !! j = Some bank /\ bd' !! j = Some b /\
              sizes !! j = Some (bank_size b) /\
              bank_start b = start bank /\
              0 < bank_size b <= max_size bank /\
              ((S j < length sizes)%nat -> bank_size b = max_size bank)).
  { intros j Hj.
    destruct (lookup_lt_is_Some_2 sizes j Hj) as [size Hsize].
    destruct (Hset j size Hsize) as (bank & Hb & Hbd); [cbn; subst m; lia|].
    cbn in Hb, Hbd.
    assert (Hcapj : (max_size <$> banks_in_use) !! j = Some (max_size bank)).
    { rewrite list_lookup_fmap. unfold banks_in_use.
      rewrite lookup_take_lt by (fold m; lia). rewrite Hb. reflexivity. }
    exists bank, (mk_dram_bank (start bank) size).
    split; [exact Hb|]. split; [exact Hbd|]. split; [exact Hsize|].
    split; [reflexivity|]. cbn.
    split; [split|].
    - apply (spec_partition_pos hw_size (max_size <$> banks_in_use) j);
        [lia | apply banks_in_use_pos | exact Hsize].
    - destruct (spec_partition_bound hw_size (max_size <$> banks_in_use) j size)
        as (cap & Hcap & Hle); [lia | apply banks_in_use_nonneg | exact Hsize |].
      rewrite Hcapj in Hcap. inversion Hcap. lia.
    - intros Hlast.
      pose proof (spec_partition_full_prefix hw_size (max_size <$> banks_in_use)
                    j size Hsize Hlast) as Hfull.
      rewrite Hcapj in Hfull. inversion Hfull. reflexivity. }
  exists bd'. eexists.
  split; [rewrite E, bind_eq, Ef; reflexivity|].
  split; [exact Hl|].
  split.
  { intros Hnr. subst sizes. unfold banks_in_use. fold m.
    destruct (lookup_lt_is_Some_2 dram_bank_info 0) as [bank Hb]; [cbn; lia|].
    assert (Hm1 : (1 <= m)%nat) by (subst m; unfold MEMORY_BANK_MAX_COUNT; lia).
    destruct m as [|m']; [lia|].
    destruct dram_bank_info as [|b0 rest]; [discriminate Hb|].
    cbn [take fmap list_fmap]. apply spec_partition_nonempty. }
  split.
  { cbn [console set_gd_ram_size]. rewrite Hc2, Hc1, <- app_assoc. reflexivity. }
  split.
  { apply bank_lines_length. unfold banks_in_use. rewrite length_take.
    fold m. lia. }
  split; [exact Hbank|].
  split; [intros k Hk; apply Hframe; right; cbn [Nat.add]; exact Hk|].
  intros i j bi bj Hij Hi Hj.
  destruct (Hbank i) as (banki & bi' & Hti & Hbi & _ & Hsi & Hzi & Hfi); [lia|].
  destruct (Hbank j) as (bankj & bj' & Htj & Hbj & _ & Hsj & _); [lia|].
  rewrite Hi in Hbi. inversion Hbi; subst bi'.
  rewrite Hj in Hbj. inversion Hbj; subst bj'.
  rewrite Hsi, Hsj.
  pose proof (dram_bank_info_ascending i j banki bankj) as Hasc.
  specialize (Hasc ltac:(lia) Hti Htj). lia.
Qed.

(** *** What a run leaves behind *)

Lemma frees_snoc (l : list event) (e : event) :
  frees (l ++ [e]) = (frees l + (if is_free e then 1 else 0))%nat.
Proof.
  unfold frees. rewrite List.filter_app, List.length_app. cbn.
  destruct (is_free e); reflexivity.
Qed.

Lemma calm_bind (w0 : world) (n : nat) {A B} (m : M A) (k : A -> M B) :
  calm w0 n m -> (forall a, calm w0 n (k a)) -> calm w0 n (bind m k).
Proof. intros Hm Hk. eapply triple_bind; [exact Hm | exact Hk]. Qed.

Lemma calm_pure (w0 : world) (n : nat) {A} (a : A) : calm w0 n (pure a).
Proof. intros w Hw. exact Hw. Qed.

Lemma calm_hang (w0 : world) (n : nat) {A} : calm w0 n (@hang A).
Proof. intros w Hw. exact Hw. Qed.

Lemma calm_gets (w0 : world) (n : nat) {A} (f : world -> A) : calm w0 n (gets f).
Proof. intros w Hw. exact Hw. Qed.

Lemma calm_readl (w0 : world) (n : nat) (a : Z) : calm w0 n (readl a).
Proof. intros w Hw. exact Hw. Qed.

Lemma calm_emit (w0 : world) (n : nat) (e : event) :
  is_free e = false -> calm w0 n (emit e).
Proof.
  intros He w (Hf & Hb & Hs & Hm). unfold emit.
  split; [|repeat split; assumption].
  change (frees (console w ++ [e]) = n). rewrite frees_snoc, He, Hf. lia.
Qed.

Lemma calm_call (w0 : world) (n : nat) {A} (fn : string) (arg : call_arg)
    (r : option A) :
  is_free (Call fn arg) = false -> calm w0 n (call fn arg r).
Proof.
  intros He. unfold call. apply calm_bind; [apply calm_emit; exact He|].
  intros _. destruct r; [apply calm_pure | apply calm_hang].
Qed.

Lemma calm_modify (w0 : world) (n : nat) (f : world -> world) :
  (forall w, console (f w) = console w /\
             priv_info_base (f w) = priv_info_base w /\
             priv_info_size (f w) = priv_info_size w /\
             mmio (f w) = mmio w) ->
  calm w0 n (modify f).
Proof.
  intros Hf w (H1 & H2 & H3 & H4). unfold modify.
  destruct (Hf w) as (E1 & E2 & E3 & E4).
  unfold quiet. rewrite E1, E2, E3, E4. repeat split; assumption.
Qed.

Lemma calm_setbits_le32 (w0 : world) (n : nat) (a s : Z) :
  soft_reg a -> calm w0 n (setbits_le32 a s).
Proof.
  intros Ha w (H1 & H2 & H3 & H4). rewrite setbits_le32_eq.
  repeat split; try assumption.
  intros b Hb. cbn. rewrite lookup_insert_ne by (intros ->; exact (Hb Ha)).
  apply H4. exact Hb.
Qed.

Ltac calm_step :=
  first
    [ match goal with
      | |- calm _ _ (bind _ _) => apply calm_bind; [|intros ?]
      | |- calm _ _ (modify _) => apply calm_modify; intros []; repeat split
      | |- calm _ _ (setbits_le32 _ _) =>
          apply calm_setbits_le32; unfold soft_reg, POR0, MPFE_CONFIG; auto
      | |- calm _ _ (emit _) => apply calm_emit; reflexivity
      | |- calm _ _ (call _ _ _) => apply calm_call; reflexivity
      | |- calm _ _ (pure _) => apply calm_pure
      | |- calm _ _ hang => apply calm_hang
      | |- calm _ _ (gets _) => apply calm_gets
      | |- calm _ _ (readl _) => apply calm_readl
      end
    | match goal with
      | |- calm _ _ (if ?b then _ else _) => destruct b
      | |- calm _ _ (match ?o with Some _ => _ | None => _ end) => destruct o
      | |- calm _ _ (let _ := _ in _) => cbv zeta
      end ].

Ltac calm_auto :=
  unfold printf, puts, debug, malloc; repeat calm_step.

Lemma calm_for_loop (w0 : world) (n0 : nat) {S : Type} (n i : nat)
    (body : nat -> S -> M S) (s : S) :
  (forall j x, calm w0 n0 (body j x)) -> calm w0 n0 (for_loop n i body s).
Proof.
  intros Hbody. revert i s. induction n as [|n IH]; intros i s; cbn [for_loop].
  - apply calm_pure.
  - apply calm_bind; [apply Hbody | intros s'; apply IH].
Qed.

Lemma calm_populate_ddr_handoff (w0 : world) (n : nat) (c : io96b_info) :
  calm w0 n (populate_ddr_handoff c).
Proof.
  unfold populate_ddr_handoff. calm_auto;
    try (apply calm_for_loop; intros j x; unfold assign_io96b_csr_addr);
    calm_auto.
Qed.

Lemma calm_set_mpfe_config (w0 : world) (n : nat) : calm w0 n set_mpfe_config.
Proof. unfold set_mpfe_config. calm_auto. Qed.

Lemma calm_config_mpfe_sideband_mgr (w0 : world) (n : nat) :
  calm w0 n config_mpfe_sideband_mgr.
Proof.
  unfold config_mpfe_sideband_mgr. calm_auto; try apply calm_set_mpfe_config.
Qed.

Lemma calm_config_ccu_mgr (w0 : world) (n : nat) : calm w0 n config_ccu_mgr.
Proof. unfold config_ccu_mgr. calm_auto. Qed.

Lemma calm_ddr_ecc_dbe_status (w0 : world) (n : nat) : calm w0 n ddr_ecc_dbe_status.
Proof. unfold ddr_ecc_dbe_status. calm_auto. Qed.

Lemma calm_hps_ocram_dbe_status (w0 : world) (n : nat) :
  calm w0 n hps_ocram_dbe_status.
Proof. unfold hps_ocram_dbe_status. calm_auto. Qed.

Lemma calm_is_ddr_init_hang (w0 : world) (n : nat) : calm w0 n is_ddr_init_hang.
Proof. unfold is_ddr_init_hang. calm_auto. Qed.

Lemma calm_recalibrate (w0 : world) (n : nat) (c : io96b_info) :
  calm w0 n (recalibrate c).
Proof.
  unfold recalibrate. apply calm_bind; [apply calm_ddr_ecc_dbe_status|].
  intros dbe. calm_auto.
Qed.

Lemma calm_fill_banks (w0 : world) (n0 : nat) (n i : nat) (hw sc : Z)
    (bd : bd_info) :
  calm w0 n0 (fill_banks n i hw sc bd).
Proof.
  revert i sc bd. induction n as [|n IH]; intros i sc bd; cbn [fill_banks].
  - apply calm_pure.
  - cbv zeta. destruct (_ <=? _); calm_auto; try apply IH.
Qed.

Lemma calm_resolve_geometry (w0 : world) (n : nat) (hw : Z) (bd : bd_info) :
  calm w0 n (resolve_geometry hw bd).
Proof. unfold resolve_geometry. calm_auto; try apply calm_fill_banks. Qed.

(** An error exit: a message, [free], a value other than 0. *)
Lemma error_exit_ended_gen (w0 : world) (n : nat) {A} (m1 : M unit) (a : A)
    (ret : Z) (Q : A -> world -> Prop) :
  calm w0 n m1 -> ret <> 0 -> (forall w, ended w0 n ret w -> Q a w) ->
  triple (quiet w0 n) (m1 ;;; free ;;; pure a) Q (quiet w0 n).
Proof.
  intros H1 Hret HQ.
  eapply triple_bind; [exact H1|]; intros ?.
  intros w (Hf & Hb & Hs & Hm). unfold bind, free, emit, pure.
  apply HQ.
  split; [apply last_snoc|].
  split; [change (frees (console w ++ [Call "free" ArgNone]) = S n);
          rewrite frees_snoc, Hf; cbn; lia|].
  left. repeat split; assumption.
Qed.

Lemma error_exit_ended (w0 : world) (n : nat) (m1 : M unit) (ret : Z) :
  calm w0 n m1 -> ret <> 0 ->
  triple (quiet w0 n) (m1 ;;; free ;;; pure ret) (ended w0 n) (quiet w0 n).
Proof.
  intros H1 Hret. apply (error_exit_ended_gen w0 n m1 ret ret); auto.
Qed.

Lemma ecc_full_mem_init_ended (w0 : world) (n : nat) (c : io96b_info)
    (h : bool) (t : Z) :
  triple (quiet w0 n) (ecc_full_mem_init c h t)
    (fun early w =>
       match early with
       | Some ret => ended w0 n ret w
       | None => quiet w0 n w
       end)
    (quiet w0 n).
Proof.
  unfold ecc_full_mem_init. destruct (ecc_status c).
  2: { intros w Hw. exact Hw. }
  eapply triple_bind; [apply calm_hps_ocram_dbe_status|]. intros ocram.
  eapply triple_bind; [apply calm_ddr_ecc_dbe_status|]. intros dram.
  cbv zeta.
  eapply triple_bind with
    (Q1 := fun early w =>
             match early with
             | Some ret => ended w0 n ret w
             | None => quiet w0 n w
             end).
  - destruct (_ || _).
    + eapply triple_bind; [apply calm_call; reflexivity|]. intros r.
      destruct (Z.eqb_spec (fst r) 0) as [E0|E0]; cbn [negb].
      * intros w Hw. exact Hw.
      * apply (error_exit_ended_gen w0 n
                 (printf "DDR: Failed to fully initialize DDR memory" [])
                 (Some (fst r)) (fst r));
          [apply calm_emit; reflexivity | exact E0 | intros w Hw; exact Hw].
    + intros w Hw. exact Hw.
  - intros [ret|].
    + intros w Hw. exact Hw.
    + eapply triple_bind; [apply calm_emit; reflexivity|]. intros ?.
      intros w Hw. exact Hw.
Qed.

Lemma firewall_regs_distinct :
  0x18000d00 <> 0x18000d04 /\ 0x18000d00 <> 0x18000d08 /\ 0x18000d04 <> 0x18000d08.
Proof. repeat split; discriminate. Qed.

Lemma finish_init_ended (w0 : world) (n : nat) (bd : bd_info) :
  triple (quiet w0 n) (finish_init bd) (ended w0 n) (quiet w0 n).
Proof.
  unfold finish_init.
  eapply triple_bind; [apply calm_call; reflexivity|]; intros ?.
  eapply triple_bind; [apply calm_emit; reflexivity|]; intros ?.
  eapply triple_bind; [apply calm_call; reflexivity|]; intros ?.
  intros w (Hf & Hb & Hs & Hm).
  cbv beta iota delta [bind writel printf emit gets modify pure free
                       ddr_init_inprogress clrbits_le32 readl].
  fold POR0.
  split; [apply last_snoc|]. split.
  - cbn [console set_console set_mmio set_priv_info].
    rewrite !frees_snoc, Hf. cbn. lia.
  - right. split; [reflexivity|]. split; [reflexivity|]. split.
    + intros x Hsoft Hfw. cbn [mmio set_console set_mmio set_priv_info].
      rewrite lookup_insert_ne
        by (intros <-; apply Hsoft; left; reflexivity).
      rewrite !lookup_insert_ne
        by (intros <-; apply Hfw; unfold firewall_reg; auto).
      apply Hm. exact Hsoft.
    + intros Hpor x Ha. unfold peek.
      cbn [mmio set_console set_mmio set_priv_info].
      rewrite lookup_insert_ne by (intros <-; exact (Hpor Ha)).
      destruct firewall_regs_distinct as (D1 & D2 & D3).
      destruct Ha as [->|[->| ->]].
      * rewrite !lookup_insert_ne by congruence. rewrite lookup_insert_eq.
        reflexivity.
      * rewrite lookup_insert_ne by congruence. rewrite lookup_insert_eq.
        reflexivity.
      * rewrite lookup_insert_eq. reflexivity.
Qed.

Ltac ended_step lem := eapply triple_bind; [apply lem|]; intros ?.

Ltac ended_ret_check :=
  match goal with
  | |- triple _ (if negb (?r =? 0) then _ else _) _ _ =>
      destruct (Z.eqb_spec r 0); cbn [negb];
      [ | apply error_exit_ended; [apply calm_emit; reflexivity | assumption] ]
  end.

Lemma after_handoff_ended (w0 : world) (n : nat) (c : io96b_info) (h : bool)
    (t : Z) :
  ENXIO <> 0 ->
  triple (quiet w0 n) (after_handoff c h t) (ended w0 n) (quiet w0 n).
Proof.
  intros Henxio. unfold after_handoff.
  ended_step calm_config_mpfe_sideband_mgr. ended_ret_check.
  ended_step calm_config_ccu_mgr.
  cbv zeta.
  eapply triple_bind; [apply calm_call; reflexivity|]; intros ?.
  eapply triple_bind; [apply calm_call; reflexivity|]; intros ?.
  ended_step calm_recalibrate.
  eapply triple_bind; [apply calm_call; reflexivity|]; intros ?. ended_ret_check.
  eapply triple_bind; [apply calm_call; reflexivity|]; intros ?. ended_ret_check.
  ended_step @calm_gets.
  eapply triple_bind; [apply calm_call; reflexivity|]; intros ?.
  eapply triple_bind; [apply calm_modify; intros []; repeat split|]; intros ?.
  match goal with
  | |- triple _ (if negb (?r =? 0) then _ else _) _ _ =>
      destruct (Z.eqb_spec r 0); cbn [negb];
      [ | apply error_exit_ended; [apply calm_emit; reflexivity | lia] ]
  end.
  ended_step calm_resolve_geometry.
  ended_step @calm_gets.
  eapply triple_bind; [apply calm_emit; reflexivity|]; intros ?.
  eapply triple_bind; [apply calm_call; reflexivity|]; intros ?. ended_ret_check.
  eapply triple_bind; [apply ecc_full_mem_init_ended|]. intros [ret|].
  - intros w Hw. exact Hw.
  - apply finish_init_ended.
Qed.

Lemma bring_up_ended (w0 : world) (n : nat) (c : io96b_info) (h : bool) (t : Z) :
  ENXIO <> 0 ->
  triple (quiet w0 n) (bring_up c h t) (ended w0 n) (quiet w0 n).
Proof.
  intros Henxio. unfold bring_up.
  ended_step @calm_gets.
  eapply triple_bind; [apply calm_emit; reflexivity|]; intros ?.
  eapply triple_bind; [apply calm_emit; reflexivity|]; intros ?.
  ended_step calm_populate_ddr_handoff. cbv zeta. ended_ret_check.
  apply after_handoff_ended. assumption.
Qed.

Lemma quiet_refl (w : world) : quiet w (frees (console w)) w.
Proof. repeat split. Qed.

(** Every run, from the world [w] it starts in. *)
Lemma sdram_mmr_init_full_ended (c : io96b_info) (w : world) :
  ENXIO <> 0 ->
  match sdram_mmr_init_full c w with
  | Ret ret w' => ended w (frees (console w)) ret w'
  | Hang w' => quiet w (frees (console w)) w'
  end.
Proof.
  intros Henxio.
  assert (H : triple (quiet w (frees (console w))) (sdram_mmr_init_full c)
                (ended w (frees (console w))) (quiet w (frees (console w)))).
  { unfold sdram_mmr_init_full.
    eapply triple_bind; [apply calm_emit; reflexivity|]; intros ?.
    ended_step calm_readl.
    ended_step calm_is_ddr_init_hang.
    eapply triple_bind; [apply calm_emit; reflexivity|]; intros ?.
    eapply triple_bind.
    - unfold ddr_init_inprogress. apply calm_setbits_le32. left. reflexivity.
    - intros ?. apply bring_up_ended. assumption. }
  apply (H w (quiet_refl w)).
Qed.

(** X8.  The block allocated at entry is released exactly once on every path
    that returns, and releasing it is the last thing the run does; a run that
    ends in [hang()] does not release it. *)
Theorem sdram_mmr_init_full_free (io96b_ctrl : io96b_info) (w : world) :
  ENXIO <> 0 ->
  match sdram_mmr_init_full io96b_ctrl w with
  | Ret ret w' =>
      last (console w') = Some free_call /\
      frees (console w') = S (frees (console w))
  | Hang w' => frees (console w') = frees (console w)
  end.
Proof.
  intros Henxio.
  pose proof (sdram_mmr_init_full_ended io96b_ctrl w Henxio) as H.
  destruct (sdram_mmr_init_full io96b_ctrl w) as [ret w'|w'].
  - destruct H as (Hl & Hf & _). split; assumption.
  - destruct H as (Hf & _). exact Hf.
Qed.

(** X9.  The register accesses of the driver's own code; what the functions
    it calls write (the mailbox, the firewall set-up) is theirs and is not
    followed here.  By its own accesses a run changes no register but the
    progress scratch register, the MPFE configuration register, the sideband
    flag register and the three MPFE firewall registers.  A run that fails
    (it hangs or returns a value other than 0) changes only the first three:
    the firewall registers of lines 387-391 are written on the successful
    path only; and it leaves the private data of the driver ([priv->info])
    as it found it. *)
Theorem sdram_mmr_init_full_footprint (io96b_ctrl : io96b_info) (w : world) :
  ENXIO <> 0 ->
  (forall a, ~ soft_reg a -> ~ firewall_reg a ->
             mmio (final_world (sdram_mmr_init_full io96b_ctrl w)) !! a
             = mmio w !! a) /\
  (forall w', (sdram_mmr_init_full io96b_ctrl w = Hang w' \/
               exists ret, ret <> 0 /\
                           sdram_mmr_init_full io96b_ctrl w = Ret ret w') ->
              (forall a, ~ soft_reg a -> mmio w' !! a = mmio w !! a) /\
              priv_info_base w' = priv_info_base w /\
              priv_info_size w' = priv_info_size w).
Proof.
  intros Henxio.
  pose proof (sdram_mmr_init_full_ended io96b_ctrl w Henxio) as H.
  destruct (sdram_mmr_init_full io96b_ctrl w) as [ret w'|w']; cbn [final_world].
  - destruct H as (_ & _ & [(Hr & Hb & Hs & Hm)|(Hr & _ & Hm & _)]).
    + split; [intros a Ha _; apply Hm; exact Ha|].
      intros w'' [E|(ret' & Hret' & E)]; [discriminate E|].
      inversion E; subst. repeat split; assumption.
    + split; [exact Hm|].
      intros w'' [E|(ret' & Hret' & E)]; [discriminate E|].
      inversion E; subst. contradiction.
  - destruct H as (_ & Hb & Hs & Hm).
    split; [intros a Ha _; apply Hm; exact Ha|].
    intros w'' [E|(ret' & Hret' & E)]; [|discriminate E].
    inversion E; subst. repeat split; assumption.
Qed.

(** X10.  A run that returns 0 has recorded the resolved size in the private
    data ([priv->info.size] is [gd->ram_size]) and, provided the progress
    scratch register is none of them, has left each of the three MPFE
    firewall registers at 1. *)
Theorem sdram_mmr_init_full_success (io96b_ctrl : io96b_info) (w w' : world) :
  ENXIO <> 0 ->
  sdram_mmr_init_full io96b_ctrl w = Ret 0 w' ->
  priv_info_size w' = gd_ram_size w' /\
  (~ firewall_reg POR0 ->
   peek 0x18000d00 w' = 1 /\ peek 0x18000d04 w' = 1 /\ peek 0x18000d08 w' = 1).
Proof.
  intros Henxio E.
  pose proof (sdram_mmr_init_full_ended io96b_ctrl w Henxio) as H.
  rewrite E in H. destruct H as (_ & _ & [(Hr & _)|(_ & Hs & _ & Hfw)]).
  - contradiction.
  - split; [exact Hs|]. intros Hpor.
    repeat split; apply Hfw; unfold firewall_reg; auto.
Qed.

(** *** The boot after a failed run *)

Lemma sdram_mmr_init_full_eq (c : io96b_info) (w : world) :
  0 < ALT_SYSMGR_SCRATCH_REG_POR_0_DDR_PROGRESS_MASK < 2 ^ 32 ->
  exists w1,
    marker w1 = true /\
    sdram_mmr_init_full c w
    = bring_up c (marker w) (get_reset_type (peek COLD3 w)) w1.
Proof.
  intros Hmask.
  set (wa := set_console (console w ++ [Call "malloc" ArgNone]) w).
  set (wb := set_console (console wa ++ [Debug "DDR: SDRAM init in progress ..." []]) wa).
  destruct (ddr_init_inprogress_true_marked wb Hmask) as (w2 & Eset & Hw2).
  exists w2. split; [exact Hw2|].
  unfold sdram_mmr_init_full.
  rewrite bind_eq. unfold malloc, emit at 1. fold wa.
  rewrite bind_eq. unfold readl at 1.
  rewrite bind_eq, is_ddr_init_hang_eq.
  rewrite bind_eq. unfold debug, emit at 1. fold wb.
  rewrite bind_eq, Eset. reflexivity.
Qed.

Lemma ecc_full_mem_init_prior_hang (c : io96b_info) (t : Z) (w : world) :
  ecc_status c = true ->
  In (full_init_call c) (trace_since w (ecc_full_mem_init c true t w)).
Proof.
  intros Hecc. unfold ecc_full_mem_init, full_init_call. rewrite Hecc.
  rewrite bind_eq, hps_ocram_dbe_status_eq, bind_eq, ddr_ecc_dbe_status_eq.
  cbv zeta. rewrite orb_true_r. cbn [orb].
  unfold call, bind, emit, printf, free, pure, hang.
  destruct (bist_mem_init_start c) as [[ret c']|]; cbn [fst].
  - destruct (negb (ret =? 0)); erewrite trace_since_app;
      try (cbn; rewrite <- ?app_assoc; reflexivity); cbn; auto.
  - erewrite trace_since_app;
      try (cbn; rewrite <- ?app_assoc; reflexivity); cbn; auto.
Qed.


End FurtherProperties.

(** X11.  After a run that failed (it hung, or returned a value other than
    0), a run that finds the progress scratch register as the failed run left
    it starts with the prior-hang flag true; and with that flag the block of
    lines 365-378 calls the full memory initialisation whenever ECC is on,
    whatever the reset type and the DBE markers. *)
Theorem failed_run_forces_full_init {P : Platform} {C1 C2 : Collaborators}
    (c1 c2 : io96b_info) (w w' w2 : world) :
  0 < ALT_SYSMGR_SCRATCH_REG_POR_0_DDR_PROGRESS_MASK < 2 ^ 32 ->
  ENXIO <> 0 ->
  (@sdram_mmr_init_full P C1 c1 w = Hang w' \/
   exists ret, ret <> 0 /\ @sdram_mmr_init_full P C1 c1 w = Ret ret w') ->
  peek POR0 w2 = peek POR0 w' ->
  (exists w3,
      @sdram_mmr_init_full P C2 c2 w2
      = @bring_up P C2 c2 true (get_reset_type (peek COLD3 w2)) w3) /\
  (forall c t w4,
      ecc_status c = true ->
      In (full_init_call c)
         (trace_since w4 (@ecc_full_mem_init P C2 c true t w4))).
Proof.
  intros Hmask Henxio Hfail Hpeek.
  assert (Hm' : marker w' = true).
  { destruct (@sdram_mmr_init_full_eq P C1 c1 w Hmask) as (w1 & Hw1 & E).
    pose proof (@bring_up_marker P C1 c1 (marker w) (get_reset_type (peek COLD3 w))
                  Henxio w1 Hw1) as Hrun.
    rewrite <- E in Hrun.
    destruct Hfail as [Eh|(ret & Hret & Er)].
    - rewrite Eh in Hrun. exact Hrun.
    - rewrite Er in Hrun. destruct Hrun as [[H0 _]|[_ Hm]]; [contradiction | exact Hm]. }
  assert (Hm2 : marker w2 = true) by (unfold marker in *; rewrite Hpeek; exact Hm').
  split.
  - destruct (@sdram_mmr_init_full_eq P C2 c2 w2 Hmask) as (w3 & _ & E).
    exists w3. rewrite E, Hm2. reflexivity.
  - intros c t w4. apply ecc_full_mem_init_prior_hang.
Qed.

(** * Properties of the platform hooks *)

Lemma land_double (a b : Z) : Z.land (2 * a) (2 * b) = 2 * Z.land a b.
Proof.
  apply Z.bits_inj'. intros i Hi.
  destruct (Z.eqb_spec i 0) as [->|Hne].
  - rewrite Z.land_spec, !Z.testbit_even_0. reflexivity.
  - replace i with (Z.succ (Z.pred i)) by lia.
    rewrite Z.land_spec, !Z.testbit_even_succ, Z.land_spec by lia. reflexivity.
Qed.

(** The lowest set bit of a positive number. *)
Lemma lowest_set_bit (p : positive) :
  exists k, 0 <= k /\
            Z.land (Z.pos p) (- Z.pos p) = 2 ^ k /\
            forall i, 0 <= i < k -> Z.testbit (Z.pos p) i = false.
Proof.
  induction p as [p IH|p IH|].
  - exists 0. split; [lia|]. split; [|intros i Hi; lia].
    rewrite Pos2Z.inj_xI. apply Z.bits_inj'. intros i Hi.
    rewrite Z.land_spec, Z.bits_opp, Z.pow2_bits_eqb by lia.
    replace (Z.pred (2 * Z.pos p + 1)) with (2 * Z.pos p) by lia.
    destruct (Z.eqb_spec 0 i) as [<-|Hne].
    + rewrite Z.testbit_odd_0, Z.testbit_even_0. reflexivity.
    + replace i with (Z.succ (Z.pred i)) by lia.
      rewrite Z.testbit_odd_succ, Z.testbit_even_succ by lia.
      apply andb_negb_r.
  - destruct IH as (k & Hk & Hland & Hlow).
    exists (Z.succ k). split; [lia|]. split.
    + rewrite Pos2Z.inj_xO.
      replace (- (2 * Z.pos p)) with (2 * - Z.pos p) by lia.
      rewrite land_double, Hland, Z.pow_succ_r by lia. reflexivity.
    + intros i Hi. rewrite Pos2Z.inj_xO.
      destruct (Z.eqb_spec i 0) as [->|Hne]; [apply Z.testbit_even_0|].
      replace i with (Z.succ (Z.pred i)) by lia.
      rewrite Z.testbit_even_succ by lia. apply Hlow. lia.
  - exists 0. split; [lia|]. split; [reflexivity | intros i Hi; lia].
Qed.

Lemma field_get_nonzero (mask reg : Z) :
  0 < mask -> (FIELD_GET mask reg =? 0) = (Z.land reg mask =? 0).
Proof.
  intros Hmask. destruct mask as [|p|p]; try lia.
  destruct (lowest_set_bit p) as (k & Hk & Hland & Hlow).
  unfold FIELD_GET, bf_shf. rewrite Hland, Z.log2_pow2 by assumption.
  destruct (Z.eqb_spec (Z.land reg (Z.pos p)) 0) as [E|E].
  - rewrite E, Z.shiftr_0_l. reflexivity.
  - destruct (Z.eqb_spec (Z.shiftr (Z.land reg (Z.pos p)) k) 0) as [E'|E'];
      [|reflexivity].
    exfalso. apply E. apply Z.bits_inj'. intros i Hi. rewrite Z.bits_0.
    destruct (Z.ltb_spec i k) as [Hlt|Hge].
    + rewrite Z.land_spec, Hlow by lia. apply andb_false_r.
    + assert (Hb : Z.testbit (Z.shiftr (Z.land reg (Z.pos p)) k) (i - k) = false)
        by (rewrite E'; apply Z.bits_0).
      rewrite Z.shiftr_spec in Hb by lia.
      replace (i - k + k) with i in Hb by lia. exact Hb.
Qed.

Lemma string_length_app (a b : string) :
  String.length (a ++ b) = (String.length a + String.length b)%nat.
Proof.
  induction a as [|c a IH]; [reflexivity|].
  change (String.length (String c (a ++ b)) = S (String.length a + String.length b)).
  cbn [String.length]. rewrite IH. reflexivity.
Qed.

Lemma hex_digit_length (d : Z) :
  0 <= d < 16 -> String.length (Misc.hex_digit d) = 1%nat.
Proof.
  intros Hd.
  assert (d = 0 \/ d = 1 \/ d = 2 \/ d = 3 \/ d = 4 \/ d = 5 \/ d = 6 \/ d = 7 \/
          d = 8 \/ d = 9 \/ d = 10 \/ d = 11 \/ d = 12 \/ d = 13 \/ d = 14 \/ d = 15)
    as H by lia.
  repeat (destruct H as [->|H]; [reflexivity|]). subst d. reflexivity.
Qed.

Lemma fmt_08x_length (n : Z) : String.length (Misc.fmt_08x n) = 8%nat.
Proof.
  unfold Misc.fmt_08x. cbn [List.map String.concat].
  assert (Hd : forall k, String.length
                           (Misc.hex_digit (Z.land (Z.shiftr (wrap32 n) k) 15)) = 1%nat).
  { intros k. apply hex_digit_length.
    change 15 with (Z.ones 4). rewrite Z.land_ones by lia.
    apply Z.mod_pos_bound. lia. }
  rewrite !string_length_app, !Hd. reflexivity.
Qed.

Lemma fmt_u_u8_fits (n : Z) :
  0 <= n < 256 ->
  (String.length (Misc.fmt_u n) + 1 <=? 3)%nat = (n <? 100).
Proof.
  intros Hn.
  assert (Hall : List.forallb
                   (fun k => Bool.eqb
                               (String.length (Misc.fmt_u (Z.of_nat k)) + 1 <=? 3)%nat
                               (Z.of_nat k <? 100))
                   (List.seq 0 256) = true) by (vm_compute; reflexivity).
  rewrite List.forallb_forall in Hall.
  specialize (Hall (Z.to_nat n)).
  rewrite Z2Nat.id in Hall by lia.
  apply Bool.eqb_prop, Hall, List.in_seq. lia.
Qed.

Section HookProperties.

Context {P : Platform} {K : Misc.Config} {F : Misc.Callees}.

Lemma is_agilex5_reva_workaround_required_eq (s : Misc.state) :
  0 < Misc.ALT_SYSMGR_SCRATCH_REG_POR_1_REVA_WORKAROUND_MASK ->
  Misc.is_agilex5_reva_workaround_required s
  = Some (Misc.workaround_bit s, Misc.after_probe s).
Proof.
  intros Hmask. unfold Misc.is_agilex5_reva_workaround_required.
  unfold Misc.mbind_, Misc.readl, Misc.debug, Misc.log, Misc.mpure. cbn.
  fold Misc.POR1. rewrite (field_get_nonzero _ _ Hmask). reflexivity.
Qed.

(** X12.  [is_agilex5_reva_workaround_required] answers true exactly when
    some bit of the workaround mask is set in the POR1 scratch register; it
    only reads: registers and environment are unchanged and only two debug
    lines are added to the trace. *)
Theorem is_agilex5_reva_workaround_required_reads (s : Misc.state) :
  0 < Misc.ALT_SYSMGR_SCRATCH_REG_POR_1_REVA_WORKAROUND_MASK ->
  exists b s',
    Misc.is_agilex5_reva_workaround_required s = Some (b, s') /\
    (b = true <->
     Z.land (Misc.reg32 Misc.POR1 s)
       Misc.ALT_SYSMGR_SCRATCH_REG_POR_1_REVA_WORKAROUND_MASK <> 0) /\
    Misc.regs s' = Misc.regs s /\ Misc.env s' = Misc.env s /\
    Misc.invoked "smmu_sdm_init" (Misc.trace s')
    = Misc.invoked "smmu_sdm_init" (Misc.trace s) /\
    forall e, In e (drop (length (Misc.trace s)) (Misc.trace s')) ->
              exists fmt args, e = Misc.Dbg fmt args.
Proof.
  intros Hmask. rewrite (is_agilex5_reva_workaround_required_eq s Hmask).
  eexists _, _. split; [reflexivity|]. split; [|split; [|split; [|split]]].
  - unfold Misc.workaround_bit. rewrite negb_true_iff, Z.eqb_neq. reflexivity.
  - reflexivity.
  - reflexivity.
  - unfold Misc.after_probe, Misc.invoked. cbn [Misc.trace].
    rewrite !omap_app. cbn. rewrite !app_nil_r. reflexivity.
  - unfold Misc.after_probe. cbn [Misc.trace].
    rewrite <- app_assoc, drop_app_length. cbn [In app].
    intros e [<-|[<-|[]]]; eexists _, _; reflexivity.
Qed.

Lemma reg32_land_wrap (a m : Z) (s : Misc.state) :
  wrap32 (Z.land (Misc.reg32 a s) m) = Z.land (Misc.reg32 a s) m.
Proof.
  apply Z.bits_inj'. intros i Hi.
  rewrite testbit_wrap32, Z.land_spec by assumption.
  unfold Misc.reg32. rewrite testbit_wrap32 by assumption.
  destruct (i <? 32); reflexivity.
Qed.

Lemma int_of_zero (a m : Z) (s : Misc.state) :
  (Misc.int_of (Z.land (Misc.reg32 a s) m) =? 0)
  = (Z.land (Misc.reg32 a s) m =? 0).
Proof.
  unfold Misc.int_of. cbv zeta. rewrite reg32_land_wrap.
  pose proof (wrap32_range (Z.land (Misc.reg32 a s) m)) as Hr.
  rewrite reg32_land_wrap in Hr.
  destruct (Z.ltb_spec (Z.land (Misc.reg32 a s) m) (2 ^ 31)); [reflexivity|].
  destruct (Z.eqb_spec (Z.land (Misc.reg32 a s) m - 2 ^ 32) 0);
    destruct (Z.eqb_spec (Z.land (Misc.reg32 a s) m) 0); try reflexivity; lia.
Qed.

(** The value and the state [is_fpga_config_ready] ends with. *)
Lemma is_fpga_config_ready_eq (s : Misc.state) :
  0 < Misc.ALT_SYSMGR_SCRATCH_REG_POR_1_REVA_WORKAROUND_MASK ->
  Misc.is_fpga_config_ready s
  = if Misc.CONFIG_TARGET_SOCFPGA_AGILEX5
    then
      if Misc.workaround_bit s
      then Some (Misc.int_of
                   (Z.land (Misc.reg32 Misc.POR1 s)
                      Misc.ALT_SYSMGR_SCRATCH_REG_POR_1_REVA_WORKAROUND_USER_MODE_MASK),
                 Misc.after_probe s)
      else Some (Z.b2z (Z.land (Misc.reg32 Misc.FPGA_CONFIG s)
                          Misc.SYSMGR_FPGACONFIG_READY_MASK
                        =? Misc.SYSMGR_FPGACONFIG_READY_MASK),
                 Misc.after_probe s)
    else Some (Z.b2z (Z.land (Misc.reg32 Misc.FPGA_CONFIG s)
                        Misc.SYSMGR_FPGACONFIG_READY_MASK
                      =? Misc.SYSMGR_FPGACONFIG_READY_MASK), s).
Proof.
  intros Hmask. unfold Misc.is_fpga_config_ready.
  destruct Misc.CONFIG_TARGET_SOCFPGA_AGILEX5.
  - unfold Misc.mbind_ at 1. unfold Misc.mbind_ at 1.
    rewrite (is_agilex5_reva_workaround_required_eq s Hmask).
    destruct (Misc.workaround_bit s); reflexivity.
  - reflexivity.
Qed.

(** X13.  [is_fpga_config_ready] only reads.  Its value is other than 0
    exactly when the FPGA counts as configured.  Without the workaround (and
    on targets other than Agilex 5) the value is 1 when all ready bits of the
    FPGA configuration register are set and 0 otherwise; with the workaround
    it is the user-mode bits of the POR1 scratch register as they are. *)
Theorem is_fpga_config_ready_value (s : Misc.state) :
  0 < Misc.ALT_SYSMGR_SCRATCH_REG_POR_1_REVA_WORKAROUND_MASK ->
  exists ret s',
    Misc.is_fpga_config_ready s = Some (ret, s') /\
    Misc.regs s' = Misc.regs s /\ Misc.env s' = Misc.env s /\
    (ret <> 0 <-> Misc.fpga_ready s = true) /\
    (Misc.CONFIG_TARGET_SOCFPGA_AGILEX5 && Misc.workaround_bit s = false ->
     ret = Z.b2z (Misc.fpga_ready s)) /\
    (Misc.CONFIG_TARGET_SOCFPGA_AGILEX5 && Misc.workaround_bit s = true ->
     ret = Misc.int_of
             (Z.land (Misc.reg32 Misc.POR1 s)
                Misc.ALT_SYSMGR_SCRATCH_REG_POR_1_REVA_WORKAROUND_USER_MODE_MASK)).
Proof.
  intros Hmask. rewrite (is_fpga_config_ready_eq s Hmask). unfold Misc.fpga_ready.
  destruct Misc.CONFIG_TARGET_SOCFPGA_AGILEX5; [destruct (Misc.workaround_bit s)|];
    cbn [andb]; eexists _, _; (split; [reflexivity|]);
    (split; [reflexivity|]); (split; [reflexivity|]).
  - split; [|split; [intros H; discriminate H | reflexivity]].
    rewrite negb_true_iff, <- int_of_zero, Z.eqb_neq. reflexivity.
  - split; [|split; [reflexivity | intros H; discriminate H]].
    destruct (_ =? _); cbn; split; intros H; try reflexivity; try discriminate;
      try lia; congruence.
  - split; [|split; [reflexivity | intros H; discriminate H]].
    destruct (_ =? _); cbn; split; intros H; try reflexivity; try discriminate;
      try lia; congruence.
Qed.






End HookProperties.

Section EnvironmentProperties.

Context {K : Misc.Config} {F : Misc.Callees}.

Lemma qspi_string_fits :
  (String.length ("<0x" ++ Misc.fmt_08x Misc.cm_get_qspi_controller_clk_hz ++ ">")%string + 1
   <=? 13)%nat = true.
Proof. rewrite !string_length_app, fmt_08x_length. reflexivity. Qed.

(** The result of [arch_misc_init] outside the emulator target. *)
Lemma arch_misc_init_eq (s : Misc.state) :
  Misc.CONFIG_TARGET_SOCFPGA_AGILEX5_EMU = false ->
  let e1 :=
    <["qspi_clock" :=
        ("<0x" ++ Misc.fmt_08x Misc.cm_get_qspi_controller_clk_hz ++ ">")%string]>
      (Misc.env s) in
  let e2 :=
    match Misc.env s !! "rsu_log_level" with
    | None => <["rsu_log_level" := "7"]> e1
    | Some _ => e1
    end in
  Misc.arch_misc_init s
  = if Misc.socfpga_get_board_id mod 2 ^ 8 <? 100
    then Some (0, Misc.mk_state (Misc.regs s)
                    (<["board_id" := Misc.fmt_u (Misc.socfpga_get_board_id mod 2 ^ 8)]> e2)
                    (Misc.trace s))
    else None.
Proof.
  intros Hemu. cbv zeta. unfold Misc.arch_misc_init. rewrite Hemu. cbn [negb].
  unfold Misc.mbind_ at 1. unfold Misc.mbind_ at 1.
  unfold Misc.snprintf at 1, Misc.mpure at 1.
  unfold Misc.mbind_ at 1. unfold Misc.sprintf at 1.
  rewrite qspi_string_fits. unfold Misc.mpure at 1.
  unfold Misc.mbind_ at 1. unfold Misc.env_set at 1.
  unfold Misc.mbind_ at 1. unfold Misc.env_get at 1. cbn [Misc.env].
  rewrite lookup_insert_ne by discriminate.
  assert (Hb : 0 <= Misc.socfpga_get_board_id mod 2 ^ 8 < 256)
    by (apply Z.mod_pos_bound; lia).
  pose proof (fmt_u_u8_fits _ Hb) as Hfit.
  destruct (Misc.env s !! "rsu_log_level") as [v|];
    unfold Misc.mbind_, Misc.env_set, Misc.mpure, Misc.sprintf;
    cbn [Misc.regs Misc.env Misc.trace];
    rewrite Hfit; destruct (_ <? 100); reflexivity.
Qed.

(** X17.  Outside the emulator target and with a board id below 100,
    [arch_misc_init] returns 0 and leaves the environment with "qspi_clock"
    set to the QSPI clock as "<0x" + eight hexadecimal digits + ">",
    "board_id" set to the decimal board id, and "rsu_log_level" keeping its
    value if it had one and set to "7" if it had none; no other variable, no
    register and no output.  On the emulator target it returns 0 and changes
    nothing. *)
Theorem arch_misc_init_environment (s : Misc.state) :
  (Misc.CONFIG_TARGET_SOCFPGA_AGILEX5_EMU = true ->
   Misc.arch_misc_init s = Some (0, s)) /\
  (Misc.CONFIG_TARGET_SOCFPGA_AGILEX5_EMU = false ->
   Misc.socfpga_get_board_id mod 2 ^ 8 < 100 ->
   exists s',
     Misc.arch_misc_init s = Some (0, s') /\
     Misc.regs s' = Misc.regs s /\ Misc.trace s' = Misc.trace s /\
     Misc.env s' !! "qspi_clock"
     = Some ("<0x" ++ Misc.fmt_08x Misc.cm_get_qspi_controller_clk_hz ++ ">")%string /\
     Misc.env s' !! "board_id"
     = Some (Misc.fmt_u (Misc.socfpga_get_board_id mod 2 ^ 8)) /\
     Misc.env s' !! "rsu_log_level"
     = Some (default "7" (Misc.env s !! "rsu_log_level")) /\
     forall k, k <> "qspi_clock" -> k <> "board_id" -> k <> "rsu_log_level" ->
               Misc.env s' !! k = Misc.env s !! k).
Proof.
  split.
  - intros Hemu. unfold Misc.arch_misc_init. rewrite Hemu. destruct s; reflexivity.
  - intros Hemu Hid. pose proof (arch_misc_init_eq s Hemu) as E. cbv zeta in E.
    destruct (Z.ltb_spec (Misc.socfpga_get_board_id mod 2 ^ 8) 100); [|lia].
    rewrite E. eexists. split; [reflexivity|]. cbn [Misc.regs Misc.env Misc.trace].
    split; [reflexivity|]. split; [reflexivity|].
    destruct (Misc.env s !! "rsu_log_level") as [v|] eqn:Ev; cbn [default from_option id].
    + split; [|split; [|split]].
      * rewrite lookup_insert_ne by discriminate. apply lookup_insert_eq.
      * apply lookup_insert_eq.
      * rewrite !lookup_insert_ne by discriminate. exact Ev.
      * intros k H1 H2 H3. rewrite !lookup_insert_ne by congruence. reflexivity.
    + split; [|split; [|split]].
      * rewrite !lookup_insert_ne by discriminate. apply lookup_insert_eq.
      * apply lookup_insert_eq.
      * rewrite lookup_insert_ne by discriminate. apply lookup_insert_eq.
      * intros k H1 H2 H3. rewrite !lookup_insert_ne by congruence. reflexivity.
Qed.

(** X18.  The local arrays of [arch_misc_init]: the QSPI clock text always
    fits [qspi_string[13]], and the level text is cut to [level[4]]; the
    board id is written with [sprintf] into [id[3]], which holds two digits
    and the terminator.  So the hook stays inside its arrays exactly when the
    board id (a u8) is below 100, or the emulator target is configured; for
    ids from 100 to 255 it writes past the end of [id]. *)
Theorem arch_misc_init_buffers (s : Misc.state) :
  Misc.arch_misc_init s = None <->
  Misc.CONFIG_TARGET_SOCFPGA_AGILEX5_EMU = false /\
  100 <= Misc.socfpga_get_board_id mod 2 ^ 8.
Proof.
  destruct Misc.CONFIG_TARGET_SOCFPGA_AGILEX5_EMU eqn:Hemu.
  - unfold Misc.arch_misc_init. rewrite Hemu. cbn.
    split; [intros H; discriminate H | intros [H _]; discriminate H].
  - pose proof (arch_misc_init_eq s Hemu) as E. cbv zeta in E. rewrite E.
    destruct (Z.ltb_spec (Misc.socfpga_get_board_id mod 2 ^ 8) 100) as [Hlt|Hge].
    + split; [intros Hn; discriminate Hn | intros [_ Hn]; lia].
    + split; [intros _; split; [reflexivity | assumption] | reflexivity].
Qed.

End EnvironmentProperties.

(** * The further properties on the reference configuration *)

(** X2 with two ports and two EMIFs. *)
Lemma config_mpfe_sideband_mgr_effect_witness :
  exists w',
    @config_mpfe_sideband_mgr agilex5
      (set_plat_dualemif true (set_plat_dualport true w0)) = Ret 0 w' /\
    @peek (@SIDEBANDMGR_FLAGOUTSET0_REG agilex5) w' = 0x30 /\
    @peek (@MPFE_CONFIG agilex5) w' = 0x104.
Proof.
  destruct (@config_mpfe_sideband_mgr_effect agilex5
              (set_plat_dualemif true (set_plat_dualport true w0)))
    as (w' & E & Hf & Hm & _).
  - zcmp.
  - exists w'. split; [exact E|]. split; [exact Hf | exact Hm].
Defined.

(** X4 with a table that sets the dual-EMIF bit. *)
Lemma populate_ddr_handoff_csr_witness :
  exists c' w',
    @populate_ddr_handoff agilex5
      (bench (Some (0, [0; 0; 0; 0; 2])) true recal_ok 32 0 false) ctrl0 w0
    = Ret (0, c') w' /\
    io96b c' !! 0%nat = Some (mk_io96b_instance 0x18400000 false).
Proof.
  destruct (@populate_ddr_handoff_csr agilex5
              (bench (Some (0, [0; 0; 0; 0; 2])) true recal_ok 32 0 false)
              ctrl0 w0 0 [0; 0; 0; 0; 2])
    as (c' & w' & E & _ & H0 & _).
  - reflexivity.
  - exists c', w'. split; [exact E | exact H0].
Defined.

(** X5 from the empty world. *)
Lemma ddr_init_inprogress_round_trip_witness :
  exists w1 w2,
    @ddr_init_inprogress agilex5 true w0 = Ret tt w1 /\
    @ddr_init_inprogress agilex5 false w1 = Ret tt w2 /\
    @peek (@POR0 agilex5) w2 = 0.
Proof.
  destruct (@ddr_init_inprogress_round_trip agilex5 w0)
    as (w1 & w2 & E1 & E2 & Hp & _).
  - reflexivity.
  - exists w1, w2. split; [exact E1|]. split; [exact E2 | exact Hp].
Defined.

(** X6 with 4 GiB declared on 4 GiB of hardware. *)
Lemma resolve_geometry_sizes_agree_witness :
  @resolve_geometry agilex5 (4 * GiB) no_banks (set_gd_ram_size (4 * GiB) w0)
  = Ret no_banks (set_gd_ram_size (4 * GiB) w0).
Proof.
  apply (@resolve_geometry_sizes_agree agilex5 (4 * GiB) no_banks
           (set_gd_ram_size (4 * GiB) w0)).
  reflexivity.
Defined.

(** X7 with 40 GiB of hardware: three banks are assigned, the third one at
    its start address with the 8 GiB that the first two do not hold. *)
Lemma resolve_geometry_layout_witness :
  exists bd' w',
    @resolve_geometry agilex5 (40 * GiB) no_banks w0 = Ret bd' w' /\
    length (console w') = 3%nat /\
    exists b,
      bd' !! 2%nat = Some b /\
      bank_start b = 0x8800000000 /\ bank_size b = 8 * GiB.
Proof.
  destruct (@resolve_geometry_layout agilex5 (40 * GiB) no_banks w0)
    as (bd' & w' & E & _ & _ & Hc & _ & Hb & _).
  - reflexivity.
  - zcmp.
  - reflexivity.
  - exists bd', w'. split; [exact E|].
    split; [rewrite Hc; reflexivity|].
    destruct (Hb 2%nat) as (bank & b & Ht & Hbd & Hs & Hst & _).
    + vm_compute. lia.
    + exists b. split; [exact Hbd|].
      vm_compute in Ht. injection Ht as <-.
      vm_compute in Hs. injection Hs as Hs.
      split; [exact Hst | symmetry; exact Hs].
Defined.

(** X8 on the successful run of the bench. *)
Lemma sdram_mmr_init_full_free_witness :
  match @sdram_mmr_init_full agilex5 (bench good_handoff true recal_ok 32 0 false)
          ctrl0 w0 with
  | Ret ret w' =>
      last (console w') = Some free_call /\
      frees (console w') = S (frees (console w0))
  | Hang w' => frees (console w') = frees (console w0)
  end.
Proof.
  apply (@sdram_mmr_init_full_free agilex5
           (bench good_handoff true recal_ok 32 0 false) ctrl0 w0).
  zcmp.
Defined.

(** X9 on the run that hangs on a declared size above the hardware size: the
    COLD3 scratch register is not written. *)
Lemma sdram_mmr_init_full_footprint_witness :
  mmio (final_world
          (@sdram_mmr_init_full agilex5
             (bench good_handoff true recal_ok 16 (4 * GiB) false) ctrl0 w0))
    !! 0x10d1220c
  = mmio w0 !! 0x10d1220c.
Proof.
  destruct (@sdram_mmr_init_full_footprint agilex5
              (bench good_handoff true recal_ok 16 (4 * GiB) false) ctrl0 w0)
    as [H _].
  - zcmp.
  - apply H.
    + unfold soft_reg. intros [E|[E|E]]; vm_compute in E; discriminate E.
    + unfold firewall_reg. intros [E|[E|E]]; discriminate E.
Defined.

(** X10 on the successful run of the bench. *)
Lemma sdram_mmr_init_full_success_witness :
  exists w',
    @sdram_mmr_init_full agilex5 (bench good_handoff true recal_ok 32 0 false)
      ctrl0 w0 = Ret 0 w' /\
    priv_info_size w' = gd_ram_size w' /\
    peek 0x18000d00 w' = 1.
Proof.
  assert (E : exists w',
             @sdram_mmr_init_full agilex5
               (bench good_handoff true recal_ok 32 0 false) ctrl0 w0
             = Ret 0 w') by (eexists; vm_compute; reflexivity).
  destruct E as [w' E]. exists w'. split; [exact E|].
  destruct (@sdram_mmr_init_full_success agilex5
              (bench good_handoff true recal_ok 32 0 false) ctrl0 w0 w')
    as (Hs & Hfw).
  - zcmp.
  - exact E.
  - split; [exact Hs|]. apply Hfw.
    unfold firewall_reg. intros [H|[H|H]]; discriminate H.
Defined.

(** X11 after the run that hangs on a declared size above the hardware
    size; the next run finds ECC on. *)
Lemma failed_run_forces_full_init_witness :
  exists w' w3,
    @sdram_mmr_init_full agilex5
      (bench good_handoff true recal_ok 16 (4 * GiB) false) ctrl0 w0 = Hang w' /\
    @sdram_mmr_init_full agilex5
      (bench good_handoff true recal_ok 32 0 true) ctrl0 w'
    = @bring_up agilex5 (bench good_handoff true recal_ok 32 0 true) ctrl0 true
        (@get_reset_type agilex5 (@peek (@COLD3 agilex5) w')) w3.
Proof.
  assert (E : exists w',
             @sdram_mmr_init_full agilex5
               (bench good_handoff true recal_ok 16 (4 * GiB) false) ctrl0 w0
             = Hang w') by (eexists; vm_compute; reflexivity).
  destruct E as [w' E].
  destruct (@failed_run_forces_full_init agilex5
              (bench good_handoff true recal_ok 16 (4 * GiB) false)
              (bench good_handoff true recal_ok 32 0 true) ctrl0 ctrl0 w0 w' w')
    as [[w3 E3] _].
  - zcmp.
  - zcmp.
  - left. exact E.
  - reflexivity.
  - exists w', w3. split; [exact E | exact E3].
Defined.

(** X12 with the workaround bit set in POR1. *)
Lemma is_agilex5_reva_workaround_required_reads_witness :
  exists b s',
    @Misc.is_agilex5_reva_workaround_required agilex5 Misc.agilex5_config
      (Misc.mk_state {[ 0x10d1225c := 2 ]} ∅ []) = Some (b, s') /\
    Misc.env s' = ∅.
Proof.
  destruct (@is_agilex5_reva_workaround_required_reads agilex5 Misc.agilex5_config
              (Misc.mk_state {[ 0x10d1225c := 2 ]} ∅ []))
    as (b & s' & E & _ & _ & He & _).
  - zcmp.
  - exists b, s'. split; [exact E | exact He].
Defined.

(** X13 on the empty state: the FPGA is not ready. *)
Lemma is_fpga_config_ready_value_witness :
  exists ret s',
    @Misc.is_fpga_config_ready agilex5 Misc.agilex5_config Misc.s0 = Some (ret, s') /\
    Misc.regs s' = Misc.regs Misc.s0.
Proof.
  destruct (@is_fpga_config_ready_value agilex5 Misc.agilex5_config Misc.s0)
    as (ret & s' & E & Hr & _).
  - zcmp.
  - exists ret, s'. split; [exact E | exact Hr].
Defined.



(** X17 with a 400 MHz QSPI clock and board id 7, "rsu_log_level" preset. *)
Lemma arch_misc_init_environment_witness :
  exists s',
    @Misc.arch_misc_init Misc.agilex5_config (Misc.callees 0 0 400000000 7)
      (Misc.mk_state ∅ {[ "rsu_log_level" := "3" ]} []) = Some (0, s') /\
    Misc.env s' !! "qspi_clock" = Some "<0x17d78400>" /\
    Misc.env s' !! "board_id" = Some "7" /\
    Misc.env s' !! "rsu_log_level" = Some "3".
Proof.
  destruct (@arch_misc_init_environment Misc.agilex5_config
              (Misc.callees 0 0 400000000 7)
              (Misc.mk_state ∅ {[ "rsu_log_level" := "3" ]} [])) as [_ H].
  destruct H as (s' & E & _ & _ & Hq & Hb & Hr & _).
  - reflexivity.
  - zcmp.
  - exists s'. split; [exact E|]. split; [exact Hq|]. split; [exact Hb | exact Hr].
Defined.
